(** * voicebot4: dialogue state machine and entity-extraction pipeline

    A shallow embedding of [entity_extractor.py] and of the dialogue core of
    [main.py], with the properties of the specification proved about it.

    Modelling conventions.
    - Text is a [string] of ASCII characters; [str.lower], [str.split], the
      regular-expression classes and so on are those of Python restricted to
      ASCII.
    - Python integers are [Z].
    - A [dict] used as the conversation context is a [gmap string pyval].
    - A raised exception is the outcome [Raise] of the error monad [py].
    - The collaborators outside the repository (the clock, the language
      model, [json.loads], [dateutil.parser.parse], the session memory) are
      the fields of an environment record [env]. *)

From Stdlib Require Import ZArith Ascii String List Bool Lia.
From stdpp Require Import base option gmap strings fin_maps.

Local Open Scope string_scope.
Local Open Scope Z_scope.

(** ** Python strings *)

Module Py.

Definition code (c : ascii) : Z := Z.of_nat (nat_of_ascii c).
Definition chr (n : Z) : ascii := ascii_of_nat (Z.to_nat n).

Definition between (lo hi : Z) (c : ascii) : bool :=
  (lo <=? code c) && (code c <=? hi).

Definition is_digit (c : ascii) : bool := between 48 57 c.
Definition is_upper (c : ascii) : bool := between 65 90 c.
Definition is_lower (c : ascii) : bool := between 97 122 c.
Definition is_alpha (c : ascii) : bool := is_upper c || is_lower c.

(** [str.isspace] on one character: tab, line feed, vertical tab, form feed,
    carriage return, the four separators 28..31 and the space. *)
Definition is_space (c : ascii) : bool :=
  between 9 13 c || between 28 32 c.

(** The class [\w]. *)
Definition is_word (c : ascii) : bool :=
  is_alpha c || is_digit c || (code c =? 95).

Definition lower_char (c : ascii) : ascii :=
  if is_upper c then chr (code c + 32) else c.
Definition upper_char (c : ascii) : ascii :=
  if is_lower c then chr (code c - 32) else c.

Fixpoint smap (f : ascii -> ascii) (s : string) : string :=
  match s with
  | EmptyString => EmptyString
  | String c s' => String (f c) (smap f s')
  end.

(** [s.lower()] *)
Definition lower (s : string) : string := smap lower_char s.

(** [s.capitalize()] *)
Definition capitalize (s : string) : string :=
  match s with
  | EmptyString => EmptyString
  | String c s' => String (upper_char c) (lower s')
  end.

Definition len (s : string) : Z := Z.of_nat (String.length s).

(** Truth value of a string: non-empty. *)
Definition nonempty (s : string) : bool :=
  match s with EmptyString => false | _ => true end.

Definition eqs (a b : string) : bool := String.eqb a b.

(** [x in l] for a list of strings. *)
Definition mem (x : string) (l : list string) : bool := existsb (eqs x) l.

(** [s.startswith(p)] *)
Fixpoint startswith (p s : string) : bool :=
  match p, s with
  | EmptyString, _ => true
  | String a p', String b s' => Ascii.eqb a b && startswith p' s'
  | String _ _, EmptyString => false
  end.

(** [sub in s] for strings. *)
Fixpoint contains (sub s : string) : bool :=
  startswith sub s ||
  match s with
  | EmptyString => false
  | String _ s' => contains sub s'
  end.

Fixpoint srev_acc (s acc : string) : string :=
  match s with
  | EmptyString => acc
  | String c s' => srev_acc s' (String c acc)
  end.
Definition srev (s : string) : string := srev_acc s EmptyString.

(** [s.endswith(p)] *)
Definition endswith (p s : string) : bool := startswith (srev p) (srev s).

Fixpoint lstrip (s : string) : string :=
  match s with
  | String c s' => if is_space c then lstrip s' else s
  | EmptyString => EmptyString
  end.

(** [s.strip()] *)
Definition strip (s : string) : string := srev (lstrip (srev (lstrip s))).

(** [s.split()]: the maximal runs of non-space characters. *)
Fixpoint split_acc (s : string) (cur : string) : list string :=
  match s with
  | EmptyString => if nonempty cur then [srev cur] else []
  | String c s' =>
      if is_space c
      then (if nonempty cur then srev cur :: split_acc s' EmptyString
            else split_acc s' EmptyString)
      else split_acc s' (String c cur)
  end.
Definition split (s : string) : list string := split_acc s EmptyString.

(** [sep.join(l)] *)
Fixpoint join (sep : string) (l : list string) : string :=
  match l with
  | [] => EmptyString
  | [x] => x
  | x :: l' => x ++ sep ++ join sep l'
  end.

Fixpoint sdrop (n : nat) (s : string) : string :=
  match n, s with
  | O, _ => s
  | S n', String _ s' => sdrop n' s'
  | S _, EmptyString => EmptyString
  end.

Fixpoint stake (n : nat) (s : string) : string :=
  match n, s with
  | S n', String c s' => String c (stake n' s')
  | _, _ => EmptyString
  end.

(** [s.replace(old, new)] for a non-empty [old]: the occurrences are
    replaced from left to right without overlap. *)
Fixpoint replace_fuel (fuel : nat) (old new s : string) : string :=
  match fuel with
  | O => s
  | S fuel' =>
      match s with
      | EmptyString => EmptyString
      | String c s' =>
          if startswith old s
          then new ++ replace_fuel fuel' old new (sdrop (String.length old) s)
          else String c (replace_fuel fuel' old new s')
      end
  end.
Definition replace (old new s : string) : string :=
  replace_fuel (String.length s) old new s.

(** [int(s)] on a string of decimal digits. *)
Definition digit_val (c : ascii) : Z := code c - 48.
Fixpoint int_acc (s : string) (acc : Z) : Z :=
  match s with
  | EmptyString => acc
  | String c s' => int_acc s' (10 * acc + digit_val c)
  end.
Definition int (s : string) : Z := int_acc s 0.

(** [str(n)] for a non-negative integer. *)
Definition digit_chr (d : Z) : ascii := chr (48 + d).
Fixpoint str_nat_fuel (fuel : nat) (n : Z) (acc : string) : string :=
  match fuel with
  | O => acc
  | S fuel' =>
      let acc' := String (digit_chr (n mod 10)) acc in
      if n <? 10 then acc' else str_nat_fuel fuel' (n / 10) acc'
  end.
Definition str_int (n : Z) : string :=
  if n <? 0 then "-" ++ str_nat_fuel (S (Z.to_nat (Z.log2 (- n)))) (- n) ""
  else str_nat_fuel (S (Z.to_nat (Z.log2 n))) n "".

(** The format [{n:02d}] for a non-negative integer. *)
Definition fmt02d (n : Z) : string :=
  if (0 <=? n) && (n <? 10) then String "0" (str_int n) else str_int n.

End Py.

(** ** Regular expressions

    The subset of Python's [re] that the program uses: a backtracking
    matcher with numbered groups, greedy and lazy repetition, and the
    pattern syntax itself, so that every pattern below is the source's
    text. *)

Module Re.

Inductive citem :=
| CChar (c : ascii)
| CRange (lo hi : ascii)
| CDigit
| CSpace
| CWord.

Inductive regex :=
| REmpty
| RChar (c : ascii)
| RAny
| RSet (neg : bool) (items : list citem)
| RSeq (r1 r2 : regex)
| RAlt (r1 r2 : regex)
| RStar (greedy : bool) (r : regex)
| RGroup (n : nat) (r : regex)
| RBol
| REol
| RWordB.

Definition citem_has (c : ascii) (i : citem) : bool :=
  match i with
  | CChar a => Ascii.eqb a c
  | CRange lo hi => Py.between (Py.code lo) (Py.code hi) c
  | CDigit => Py.is_digit c
  | CSpace => Py.is_space c
  | CWord => Py.is_word c
  end.

Definition set_has (neg : bool) (items : list citem) (c : ascii) : bool :=
  xorb neg (existsb (citem_has c) items).

(** *** Matching *)

Definition captures := list (nat * string).

Record mstate := MState {
  prev : option ascii;   (* the character before the position *)
  rest : string;         (* the text from the position on *)
  caps : captures
}.

Fixpoint last_char (p : option ascii) (s : string) : option ascii :=
  match s with
  | EmptyString => p
  | String c s' => last_char (Some c) s'
  end.

(** The text between two positions of one subject. *)
Definition consumed (st st' : mstate) : string :=
  Py.stake (String.length (rest st) - String.length (rest st')) (rest st).

Definition set_cap (i : nat) (st0 st : mstate) : mstate :=
  MState (prev st) (rest st) ((i, consumed st0 st) :: caps st).

Definition step (p : ascii -> bool) (st : mstate)
    (k : mstate -> option captures) : option captures :=
  match rest st with
  | String c s' => if p c then k (MState (Some c) s' (caps st)) else None
  | EmptyString => None
  end.

Definition wordish (o : option ascii) : bool :=
  match o with Some c => Py.is_word c | None => false end.

Definition next_char (st : mstate) : option ascii :=
  match rest st with String c _ => Some c | EmptyString => None end.

Definition orelse {A} (a b : option A) : option A :=
  match a with Some x => Some x | None => b end.

Definition newline : ascii := Py.chr 10.

(** The repetition of a body: each round has to consume a character, so
    the length of the text bounds the number of rounds. *)
Fixpoint star_loop (greedy : bool)
    (body : mstate -> (mstate -> option captures) -> option captures)
    (k : mstate -> option captures) (n : nat) (st : mstate) {struct n}
  : option captures :=
  match n with
  | O => k st
  | S n' =>
      let more :=
        body st (fun st1 =>
          if (String.length (rest st1) <? String.length (rest st))%nat
          then star_loop greedy body k n' st1 else None) in
      if greedy then orelse more (k st) else orelse (k st) more
  end.

(** [rmatch dotall r st k] matches [r] at [st] and passes the positions
    it can end at to [k] in the order of a backtracking search. *)
Fixpoint rmatch (dotall : bool) (r : regex) (st : mstate)
    (k : mstate -> option captures) {struct r} : option captures :=
  match r with
  | REmpty => k st
  | RChar c => step (Ascii.eqb c) st k
  | RAny => step (fun c => dotall || negb (Ascii.eqb c newline)) st k
  | RSet neg items => step (set_has neg items) st k
  | RSeq a b => rmatch dotall a st (fun st1 => rmatch dotall b st1 k)
  | RAlt a b => orelse (rmatch dotall a st k) (rmatch dotall b st k)
  | RStar greedy a =>
      star_loop greedy (rmatch dotall a) k (S (String.length (rest st))) st
  | RGroup i a => rmatch dotall a st (fun st1 => k (set_cap i st st1))
  | RBol => match prev st with None => k st | Some _ => None end
  | REol =>
      match rest st with
      | EmptyString => k st
      | String c EmptyString => if Ascii.eqb c newline then k st else None
      | _ => None
      end
  | RWordB =>
      if xorb (wordish (prev st)) (wordish (next_char st)) then k st else None
  end.

(** What a match may consume and capture, without the order of the search
    and without the conditions of the anchors: [sem dotall r c w c'] says
    that [r] can match the text [w] and turn the captures [c] into [c']. *)
Inductive sem (dotall : bool) : regex -> captures -> string -> captures -> Prop :=
| sem_empty c : sem dotall REmpty c EmptyString c
| sem_char a c : sem dotall (RChar a) c (String a EmptyString) c
| sem_any x c :
    dotall || negb (Ascii.eqb x newline) = true ->
    sem dotall RAny c (String x EmptyString) c
| sem_set neg items x c :
    set_has neg items x = true ->
    sem dotall (RSet neg items) c (String x EmptyString) c
| sem_seq a b c w1 c1 w2 c2 :
    sem dotall a c w1 c1 -> sem dotall b c1 w2 c2 ->
    sem dotall (RSeq a b) c (w1 ++ w2) c2
| sem_alt_l a b c w c1 : sem dotall a c w c1 -> sem dotall (RAlt a b) c w c1
| sem_alt_r a b c w c1 : sem dotall b c w c1 -> sem dotall (RAlt a b) c w c1
| sem_star_stop g a c : sem dotall (RStar g a) c EmptyString c
| sem_star_more g a c w1 c1 w2 c2 :
    sem dotall a c w1 c1 -> sem dotall (RStar g a) c1 w2 c2 ->
    sem dotall (RStar g a) c (w1 ++ w2) c2
| sem_group i a c w c1 :
    sem dotall a c w c1 -> sem dotall (RGroup i a) c w ((i, w) :: c1)
| sem_bol c : sem dotall RBol c EmptyString c
| sem_eol c : sem dotall REol c EmptyString c
| sem_wordb c : sem dotall RWordB c EmptyString c.

Definition match_at (dotall : bool) (r : regex) (p : option ascii) (s : string)
  : option captures :=
  rmatch dotall r (MState p s []) (fun st => Some (caps st)).

Fixpoint search_from (dotall : bool) (r : regex) (p : option ascii) (s : string)
  : option captures :=
  match match_at dotall r p s with
  | Some m => Some m
  | None =>
      match s with
      | EmptyString => None
      | String c s' => search_from dotall r (Some c) s'
      end
  end.

(** [m.group(i)]: [None] when the group took no part in the match. *)
Fixpoint group (m : captures) (i : nat) : option string :=
  match m with
  | [] => None
  | (j, s) :: m' => if Nat.eqb i j then Some s else group m' i
  end.

(** *** Pattern syntax *)

Record frame := Frame {
  f_cap : option nat;      (* the group number of a capturing group *)
  f_alts : list regex;     (* finished alternatives, last first *)
  f_seq : list regex       (* the pieces of the current one, last first *)
}.

Fixpoint mk_seq (rs : list regex) : regex :=
  match rs with
  | [] => REmpty
  | [r] => r
  | r :: rs' => RSeq r (mk_seq rs')
  end.

Fixpoint mk_alt (rs : list regex) : regex :=
  match rs with
  | [] => REmpty
  | [r] => r
  | r :: rs' => RAlt r (mk_alt rs')
  end.

Definition close (f : frame) : regex :=
  mk_alt (rev (mk_seq (rev (f_seq f)) :: f_alts f)).

Definition push (r : regex) (f : frame) : frame :=
  Frame (f_cap f) (f_alts f) (r :: f_seq f).

Definition next_alt (f : frame) : frame :=
  Frame (f_cap f) (mk_seq (rev (f_seq f)) :: f_alts f) [].

(** A quantifier applies to the last piece. *)
Definition quantify (q : regex -> regex) (f : frame) : option frame :=
  match f_seq f with
  | r :: rs => Some (Frame (f_cap f) (f_alts f) (q r :: rs))
  | [] => None
  end.

Definition ropt (r : regex) : regex := RAlt r REmpty.
Definition rplus (r : regex) : regex := RSeq r (RStar true r).

Fixpoint rcopies (n : nat) (r : regex) (tail : regex) : regex :=
  match n with
  | O => tail
  | S n' => RSeq r (rcopies n' r tail)
  end.

Fixpoint rupto (n : nat) (r : regex) : regex :=
  match n with
  | O => REmpty
  | S n' => ropt (RSeq r (rupto n' r))
  end.

(** [r{lo,hi}], greedy. *)
Definition rrange (lo hi : nat) (r : regex) : regex :=
  rcopies lo r (rupto (hi - lo) r).

Definition escape (c : ascii) : regex :=
  if Ascii.eqb c "d" then RSet false [CDigit]
  else if Ascii.eqb c "s" then RSet false [CSpace]
  else if Ascii.eqb c "w" then RSet false [CWord]
  else if Ascii.eqb c "D" then RSet true [CDigit]
  else if Ascii.eqb c "S" then RSet true [CSpace]
  else if Ascii.eqb c "W" then RSet true [CWord]
  else if Ascii.eqb c "b" then RWordB
  else RChar c.

Definition class_escape (c : ascii) : citem :=
  if Ascii.eqb c "d" then CDigit
  else if Ascii.eqb c "s" then CSpace
  else if Ascii.eqb c "w" then CWord
  else CChar c.

(** The items of a class up to the closing bracket. *)
Fixpoint parse_class (fuel : nat) (s : string) (acc : list citem)
  : option (list citem * string) :=
  match fuel with
  | O => None
  | S fuel' =>
      match s with
      | EmptyString => None
      | String "]" s' => Some (rev acc, s')
      | String "\" (String c s') =>
          parse_class fuel' s' (class_escape c :: acc)
      | String lo (String "-" (String hi s')) =>
          if Ascii.eqb hi "]"
          then parse_class fuel' (String "-" (String hi s')) (CChar lo :: acc)
          else parse_class fuel' s' (CRange lo hi :: acc)
      | String c s' => parse_class fuel' s' (CChar c :: acc)
      end
  end.

Fixpoint take_digits (s : string) (acc : string) : string * string :=
  match s with
  | String c s' =>
      if Py.is_digit c then take_digits s' (String c acc) else (Py.srev acc, s)
  | EmptyString => (Py.srev acc, s)
  end.

(** The bounds [n}] or [n,m}] after an opening brace. *)
Definition parse_bounds (s : string) : option (nat * nat * string) :=
  let '(a, s1) := take_digits s "" in
  if Py.nonempty a then
    match s1 with
    | String "}" s2 => Some (Z.to_nat (Py.int a), Z.to_nat (Py.int a), s2)
    | String "," s2 =>
        let '(b, s3) := take_digits s2 "" in
        match s3 with
        | String "}" s4 =>
            if Py.nonempty b
            then Some (Z.to_nat (Py.int a), Z.to_nat (Py.int b), s4)
            else None
        | _ => None
        end
    | _ => None
    end
  else None.

Fixpoint parse_loop (fuel : nat) (stack : list frame) (cur : frame) (ng : nat)
    (s : string) : option regex :=
  match fuel with
  | O => None
  | S fuel' =>
      match s with
      | EmptyString =>
          match stack with [] => Some (close cur) | _ => None end
      | String "(" (String "?" (String ":" s')) =>
          parse_loop fuel' (cur :: stack) (Frame None [] []) ng s'
      | String "(" s' =>
          parse_loop fuel' (cur :: stack) (Frame (Some (S ng)) [] []) (S ng) s'
      | String ")" s' =>
          match stack with
          | [] => None
          | parent :: stack' =>
              let r := close cur in
              let r := match f_cap cur with
                       | Some i => RGroup i r
                       | None => r
                       end in
              parse_loop fuel' stack' (push r parent) ng s'
          end
      | String "|" s' => parse_loop fuel' stack (next_alt cur) ng s'
      | String "*" (String "?" s') =>
          f ← quantify (RStar false) cur; parse_loop fuel' stack f ng s'
      | String "*" s' =>
          f ← quantify (RStar true) cur; parse_loop fuel' stack f ng s'
      | String "+" s' =>
          f ← quantify rplus cur; parse_loop fuel' stack f ng s'
      | String "?" s' =>
          f ← quantify ropt cur; parse_loop fuel' stack f ng s'
      | String "{" s' =>
          '(lo, hi, s'') ← parse_bounds s';
          f ← quantify (rrange lo hi) cur; parse_loop fuel' stack f ng s''
      | String "[" (String "^" s') =>
          '(items, s'') ← parse_class fuel' s' [];
          parse_loop fuel' stack (push (RSet true items) cur) ng s''
      | String "[" s' =>
          '(items, s'') ← parse_class fuel' s' [];
          parse_loop fuel' stack (push (RSet false items) cur) ng s''
      | String "\" (String c s') =>
          parse_loop fuel' stack (push (escape c) cur) ng s'
      | String "." s' => parse_loop fuel' stack (push RAny cur) ng s'
      | String "^" s' => parse_loop fuel' stack (push RBol cur) ng s'
      | String "$" s' => parse_loop fuel' stack (push REol cur) ng s'
      | String c s' => parse_loop fuel' stack (push (RChar c) cur) ng s'
      end
  end.

(** [re.compile(pattern)]; [None] stands for [re.error]. *)
Definition compile (pattern : string) : option regex :=
  parse_loop (S (String.length pattern)) [] (Frame None [] []) 0%nat pattern.

(** [re.search(pattern, s)] *)
Definition search (pattern s : string) : option captures :=
  r ← compile pattern; search_from false r None s.

(** [re.search(pattern, s, re.DOTALL)] *)
Definition search_dotall (pattern s : string) : option captures :=
  r ← compile pattern; search_from true r None s.

(** [re.match(pattern, s)] *)
Definition match_ (pattern s : string) : option captures :=
  r ← compile pattern; match_at false r None s.

Definition found (o : option captures) : bool :=
  match o with Some _ => true | None => false end.

(** [m.group(i) or ""] *)
Definition group_or_empty (m : captures) (i : nat) : string :=
  match group m i with Some s => s | None => "" end.

End Re.

(** ** Calendar dates

    A [datetime] is represented by the proleptic Gregorian ordinal of its
    date ([date.toordinal()]); the time of day plays no part in the code
    modelled here.  The conversions follow Python's [datetime] module. *)

Module Date.

Definition is_leap (y : Z) : bool :=
  (y mod 4 =? 0) && (negb (y mod 100 =? 0) || (y mod 400 =? 0)).

(** [calendar.monthrange(y, m)[1]] *)
Definition days_in_month (y m : Z) : Z :=
  if m =? 2 then (if is_leap y then 29 else 28)
  else if (m =? 4) || (m =? 6) || (m =? 9) || (m =? 11) then 30
  else 31.

Definition days_before_year (y : Z) : Z :=
  let p := y - 1 in p * 365 + p / 4 - p / 100 + p / 400.

Definition days_before_month_table : list Z :=
  [0; 31; 59; 90; 120; 151; 181; 212; 243; 273; 304; 334].

Definition days_before_month (y m : Z) : Z :=
  nth (Z.to_nat (m - 1)) days_before_month_table 0
  + (if (2 <? m) && is_leap y then 1 else 0).

Definition valid_ymd (y m d : Z) : bool :=
  (1 <=? y) && (y <=? 9999) && (1 <=? m) && (m <=? 12)
  && (1 <=? d) && (d <=? days_in_month y m).

Definition ymd2ord (y m d : Z) : Z :=
  days_before_year y + days_before_month y m + d.

Definition ord2ymd (o : Z) : Z * Z * Z :=
  let n := o - 1 in
  let n400 := n / 146097 in
  let n := n mod 146097 in
  let n100 := n / 36524 in
  let n := n mod 36524 in
  let n4 := n / 1461 in
  let n := n mod 1461 in
  let n1 := n / 365 in
  let n := n mod 365 in
  let year := n400 * 400 + 1 + n100 * 100 + n4 * 4 + n1 in
  if (n1 =? 4) || (n100 =? 4) then (year - 1, 12, 31)
  else
    let leapyear := (n1 =? 3) && (negb (n4 =? 24) || (n100 =? 3)) in
    let month := Z.shiftr (n + 50) 5 in
    let preceding :=
      nth (Z.to_nat (month - 1)) days_before_month_table 0
      + (if (2 <? month) && leapyear then 1 else 0) in
    if n <? preceding
    then
      let month' := month - 1 in
      let preceding' :=
        preceding - (days_in_month 1 month'
                     + (if (month' =? 2) && leapyear then 1 else 0)) in
      (year, month', n - preceding' + 1)
    else (year, month, n - preceding + 1).

Definition year_of (o : Z) : Z := let '(y, _, _) := ord2ymd o in y.
Definition month_of (o : Z) : Z := let '(_, m, _) := ord2ymd o in m.
Definition day_of (o : Z) : Z := let '(_, _, d) := ord2ymd o in d.

(** [d.weekday()]: Monday is 0. *)
Definition weekday (o : Z) : Z := (o + 6) mod 7.

Definition min_ordinal : Z := 1.
Definition max_ordinal : Z := 3652059.

Definition in_range (o : Z) : bool := (min_ordinal <=? o) && (o <=? max_ordinal).

Definition weekday_names : list string :=
  ["Monday"; "Tuesday"; "Wednesday"; "Thursday"; "Friday"; "Saturday"; "Sunday"].

Definition month_names : list string :=
  ["January"; "February"; "March"; "April"; "May"; "June"; "July"; "August";
   "September"; "October"; "November"; "December"].

(** [d.strftime("%A, %B %d, %Y")] *)
Definition strftime_long (o : Z) : string :=
  let '(y, m, d) := ord2ymd o in
  nth (Z.to_nat (weekday o)) weekday_names "" ++ ", "
  ++ nth (Z.to_nat (m - 1)) month_names "" ++ " "
  ++ Py.fmt02d d ++ ", " ++ Py.str_int y.

End Date.

(** ** Exceptions and values *)

(** The outcome of a computation that may raise. *)
Inductive py (A : Type) : Type :=
| Ret (a : A)
| Raise.
Arguments Ret {A} a.
Arguments Raise {A}.

#[global] Instance py_ret : MRet py := @Ret.
#[global] Instance py_bind : MBind py := fun A B f m =>
  match m with
  | Ret a => f a
  | Raise => Raise
  end.

(** [try: body except Exception: handler] *)
Definition try_except {A} (body : py A) (handler : py A) : py A :=
  match body with
  | Ret a => Ret a
  | Raise => handler
  end.

(** A Python value as the program can observe it: [None], a string, or any
    other object, known by its truth value and by [str()] of it. *)
Inductive pyval :=
| VNone
| VStr (s : string)
| VOther (truth : bool) (repr : string).

Definition VTrue : pyval := VOther true "True".

Definition truthy (v : pyval) : bool :=
  match v with
  | VNone => false
  | VStr s => Py.nonempty s
  | VOther t _ => t
  end.

(** [str(v)] *)
Definition py_str (v : pyval) : string :=
  match v with
  | VNone => "None"
  | VStr s => s
  | VOther _ r => r
  end.

(** [v == s] for a string [s] *)
Definition is_str (v : pyval) (s : string) : bool :=
  match v with
  | VStr s' => Py.eqs s' s
  | _ => false
  end.

(** [v in l] for a list of strings *)
Definition in_strs (v : pyval) (l : list string) : bool := existsb (is_str v) l.

(** [v.lower()]: only strings have the method. *)
Definition lower_of (v : pyval) : py string :=
  match v with
  | VStr s => Ret (Py.lower s)
  | _ => Raise
  end.

Definition of_opt (o : option string) : pyval :=
  match o with
  | Some s => VStr s
  | None => VNone
  end.

Definition truthy_opt (o : option string) : bool :=
  match o with
  | Some s => Py.nonempty s
  | None => false
  end.

(** The result of [json.loads]. *)
Inductive json_result :=
| JSONDecodeError
| JObject (m : gmap string pyval)
| JNotObject.

(** The collaborators of one turn. *)
Record env := Env {
  (* datetime.now(), as the ordinal of its date *)
  today : Z;
  (* datetime.now().isoformat() *)
  now_iso : string;
  (* dateutil.parser.parse(s, fuzzy=True); None when it raises *)
  dateutil_parse : string -> option Z;
  (* agent.run(prompt).content for the extraction prompt of a text and a
     list of missing entities; None when the call raises *)
  agent_extract : string -> list string -> option string;
  (* json.loads *)
  json_loads : string -> json_result;
  (* agent.run(intent_prompt).content; None when the call raises *)
  agent_intent : string -> option string;
  (* the response of handle_knowledge_query *)
  knowledge_answer : string -> string;
  (* generate_conversation_summary(session_id) *)
  conversation_summary : string;
  (* whether a session id was given *)
  has_session : bool;
  (* get_previous_intent(session_id) *)
  previous_intent : pyval
}.

(** ** entity_extractor.py *)

Definition any_search (patterns : list string) (text : string) : bool :=
  existsb (fun p => Re.found (Re.search p text)) patterns.

Record entities := Entities {
  person : option string;
  date : option string;
  time : option string
}.

Module EntityExtractor.

Definition temporal_words : list string :=
  ["next"; "last"; "this"; "tomorrow"; "today"; "yesterday";
   "monday"; "tuesday"; "wednesday"; "thursday"; "friday"; "saturday"; "sunday";
   "january"; "february"; "march"; "april"; "may"; "june";
   "july"; "august"; "september"; "october"; "november"; "december";
   "week"; "month"; "year"; "am"; "pm"; "morning"; "afternoon"; "evening"; "night"].

Definition stop_words : list string :=
  ["with"; "for"; "at"; "on"; "in"; "the"; "and"; "or"; "but"; "because"; "as";
   "hi"; "hello"; "hey"; "can"; "could"; "would"; "will"; "shall"; "must"; "should";
   "may"; "might"; "do"; "does"; "did"; "has"; "have"; "had"; "is"; "am"; "are";
   "was"; "were"; "be"; "been"; "being"; "you"; "your"; "me"; "my"; "i"; "we"; "us";
   "please"; "thanks"; "thank"; "want"; "need"; "like"; "help"; "an"; "a"; "to"; "from";
   "by"; "of"; "it"; "its"; "they"; "their"; "them"; "there"; "here"; "where"; "when"; "how"].

Definition domain_specific_words : list string :=
  ["appointment"; "schedule"; "book"; "make"; "set"; "get"; "find";
   "check"; "show"; "list"; "cancel"; "reschedule"; "time"; "date";
   "meeting"; "consultation"; "session"; "visit"; "call"; "talk";
   "availability"; "availibility"; "available"; "free"; "busy"; "slot"; "opening"].

(** [w not in stop_words and w not in temporal_words and w not in
    domain_specific_words] *)
Definition name_like (w : string) : bool :=
  negb (Py.mem w stop_words) && negb (Py.mem w temporal_words)
  && negb (Py.mem w domain_specific_words).

Definition months : list string :=
  ["january"; "february"; "march"; "april"; "may"; "june";
   "july"; "august"; "september"; "october"; "november"; "december"].
Definition month_abbr : list string :=
  ["jan"; "feb"; "mar"; "apr"; "may"; "jun";
   "jul"; "aug"; "sep"; "oct"; "nov"; "dec"].

(** [l.index(x)] for an element of [l] *)
Fixpoint index (x : string) (l : list string) : Z :=
  match l with
  | [] => 0
  | y :: l' => if Py.eqs x y then 0 else 1 + index x l'
  end.

Definition month_idx (month : string) : Z :=
  if Py.mem month months then index month months + 1
  else index month month_abbr + 1.

(** The check of a matched day and the string [f"{year}-{month_idx:02d}-{int(day):02d}"]. *)
Definition date_str (year : string) (midx : Z) (day : string) : option string :=
  if (Py.int day <=? 31) && (1 <=? midx) && (midx <=? 12)
  then Some (year ++ "-" ++ Py.fmt02d midx ++ "-" ++ Py.fmt02d (Py.int day))
  else None.

Definition date_for_month (curr_year : Z) (text_lower month : string) : option string :=
  let pattern1 := month ++ "\s+(\d{1,2})(st|nd|rd|th)?(?:,|\s)\s*(\d{4})" in
  let pattern2 := "(\d{1,2})(st|nd|rd|th)?\s+(?:of\s+)?" ++ month ++ "(?:,|\s)\s*(\d{4})" in
  let pattern3 := month ++ "\s+(\d{1,2})(st|nd|rd|th)?" in
  let pattern4 := "(\d{1,2})(st|nd|rd|th)?\s+(?:of\s+)?" ++ month in
  let with_year (p : string) : option string :=
    m ← Re.search p text_lower;
    date_str (Re.group_or_empty m 3) (month_idx month) (Re.group_or_empty m 1) in
  let without_year (p : string) : option string :=
    m ← Re.search p text_lower;
    date_str (Py.str_int curr_year) (month_idx month) (Re.group_or_empty m 1) in
  Re.orelse (with_year pattern1)
    (Re.orelse (with_year pattern2)
       (Re.orelse (without_year pattern3) (without_year pattern4))).

Fixpoint first_date (curr_year : Z) (text_lower : string) (ms : list string)
  : option string :=
  match ms with
  | [] => None
  | month :: ms' =>
      Re.orelse (date_for_month curr_year text_lower month)
                (first_date curr_year text_lower ms')
  end.

Definition _extract_date (E : env) (text : string) : option string :=
  let text_lower := Py.lower text in
  first_date (Date.year_of (today E)) text_lower (months ++ month_abbr).

(** The 24-hour value of an hour of the 12-hour clock. *)
Definition to_24h (hour : Z) (period : string) : Z :=
  if Py.startswith "p" period && (hour <? 12) then hour + 12
  else if Py.startswith "a" period && (hour =? 12) then 0
  else hour.

Definition hour12_pattern : string := "(\d{1,2})[:.h]?(\d{2})?\s*(am|pm|a\.m\.|p\.m\.)".
Definition simple_hour_pattern : string := "(\d{1,2})\s*(am|pm|a\.m\.|p\.m\.)".

Definition time_of_hour12 (m : Re.captures) : option string :=
  let hour := Py.int (Re.group_or_empty m 1) in
  let minute := match Re.group m 2 with
                | Some g => if Py.nonempty g then Py.int g else 0
                | None => 0
                end in
  let period := Re.group_or_empty m 3 in
  if (1 <=? hour) && (hour <=? 12) && (0 <=? minute) && (minute <=? 59)
  then Some (Py.fmt02d (to_24h hour period) ++ ":" ++ Py.fmt02d minute)
  else None.

Definition time_of_simple (m : Re.captures) : option string :=
  let hour := Py.int (Re.group_or_empty m 1) in
  let period := Re.group_or_empty m 2 in
  if (1 <=? hour) && (hour <=? 12)
  then Some (Py.fmt02d (to_24h hour period) ++ ":00")
  else None.

Definition _extract_time (text : string) : option string :=
  let text_lower := Py.lower text in
  Re.orelse (m ← Re.search hour12_pattern text_lower; time_of_hour12 m)
            (m ← Re.search simple_hour_pattern text_lower; time_of_simple m).

(** The name built from a match of one of the "of", "with", "for" and "see"
    patterns, whose branches are the same code. *)
Definition name_of_match (m : Re.captures) : option string :=
  let title := Re.group_or_empty m 1 in
  let first := Re.group_or_empty m 2 in
  let last := Re.group_or_empty m 3 in
  if name_like first then
    let name_parts :=
      ((if Py.nonempty title then [Py.capitalize (Py.strip title)] else [])
       ++ [Py.capitalize first]
       ++ (if Py.nonempty last && name_like last then [Py.capitalize last] else []))%list in
    Some (Py.join " " name_parts)
  else None.

Definition of_pattern : string :=
  "(?:of|for)\s+((?:dr|mr|mrs|ms|miss|prof)\.?\s+)?([A-Za-z][a-z]+)(?:\s+([A-Za-z][a-z]+))?".
Definition with_pattern : string :=
  "with\s+((?:dr|mr|mrs|ms|miss|prof)\.?\s+)?([A-Za-z][a-z]+)(?:\s+([A-Za-z][a-z]+))?".
Definition for_pattern : string :=
  "for\s+((?:dr|mr|mrs|ms|miss|prof)\.?\s+)?([A-Za-z][a-z]+)(?:\s+([A-Za-z][a-z]+))?".
Definition see_pattern : string :=
  "see\s+((?:dr|mr|mrs|ms|miss|prof)\.?\s+)?([A-Za-z][a-z]+)(?:\s+([A-Za-z][a-z]+))?".

(** [if not entities["person"]: ...] around one pattern *)
Definition try_pattern (pat text_lower : string) (p : option string) : option string :=
  if truthy_opt p then p
  else match Re.search pat text_lower with
       | Some m => match name_of_match m with Some n => Some n | None => p end
       | None => p
       end.

Fixpoint first_name_word (words : list string) : option string :=
  match words with
  | [] => None
  | word :: words' =>
      let word_lower := Py.lower word in
      if name_like word_lower
         && negb (Re.found (Re.match_ "^\d+" word))
         && negb (Py.endswith "th" word_lower)
         && negb (Py.endswith "rd" word_lower)
         && negb (Py.endswith "st" word_lower)
      then Some (Py.capitalize word)
      else first_name_word words'
  end.

Definition extract_entities (E : env) (text : string) : entities :=
  let text_lower := Py.lower text in
  let words := Py.split text in
  let date_result := _extract_date E text in
  let time_result := _extract_time text in
  let found_date := if truthy_opt date_result then date_result else None in
  let found_time := if truthy_opt time_result then time_result else None in
  let single_name :=
    match words with
    | [w] => if name_like (Py.lower w) then Some (Py.capitalize w) else None
    | _ => None
    end in
  match single_name with
  | Some name => Entities (Some name) found_date found_time
  | None =>
      let p := match Re.search of_pattern text_lower with
               | Some m => name_of_match m
               | None => None
               end in
      let p := try_pattern with_pattern text_lower p in
      let p := try_pattern for_pattern text_lower p in
      let p := try_pattern see_pattern text_lower p in
      let p := if truthy_opt p then p
               else match first_name_word words with
                    | Some n => Some n
                    | None => p
                    end in
      Entities p found_date found_time
  end.

End EntityExtractor.

Definition schedule_patterns : list string :=
  ["schedule an? appointment"; "book an? appointment"; "make an? appointment";
   "set up an? appointment"; "create an? appointment"; "schedule a meeting";
   "schedule .* with"; "book .* with"; "make .* with";
   "schedule .* for"; "book .* for"; "make .* for"].

Definition cancel_patterns : list string :=
  ["cancel an? appointment"; "cancel .* meeting"; "cancel .* with";
   "remove an? appointment"; "delete an? appointment"; "wanto cancel";
   "want to cancel"; "need to cancel"; "don'?t want the appointment"].

Definition check_availability_patterns : list string :=
  ["check availability"; "check availibility"; "when .* available";
   "what times are available"; "available times"; "is .* available";
   "can .* meet"; "availability of"; "availibility of"; "when can .* meet";
   "check when"; "not schedule .* check"].

Definition list_appointments_patterns : list string :=
  ["list appointments"; "show appointments"; "what appointments";
   "my appointments"; "my schedule"; "view .* appointments"].

Definition knowledge_patterns : list string :=
  ["what is"; "what are"; "who is"; "who are"; "how does"; "how do";
   "explain"; "tell me about"; "when was"; "when is"; "where is";
   "where are"; "why is"; "why are"; "define"; "definition"; "defination";
   "meaning of"; "what does"; "tell me more"; "can you explain"].

Definition identify_intent (text : string) : string :=
  let text := Py.lower text in
  if any_search knowledge_patterns text then "knowledge"
  else if any_search check_availability_patterns text then "check_availability"
  else if any_search cancel_patterns text then "cancel_appointment"
  else if any_search schedule_patterns text then "schedule_appointment"
  else if any_search list_appointments_patterns text then "list_appointments"
  else "unknown".

(** ** main.py: the temporal resolver *)

(** [d + timedelta(days=n)]: [OverflowError] outside the range of dates. *)
Definition add_days (d n : Z) : py Z :=
  if (Z.abs n <=? 999999999) && Date.in_range (d + n) then Ret (d + n) else Raise.

(** [datetime(y, m, d)] *)
Definition mk_date (y m d : Z) : py Z :=
  if Date.valid_ymd y m d then Ret (Date.ymd2ord y m d) else Raise.

(** [d + relativedelta(months=n)]: the day is cut to the length of the
    month it lands in. *)
Definition add_months (d n : Z) : py Z :=
  let '(y, m, dd) := Date.ord2ymd d in
  let t := y * 12 + (m - 1) + n in
  let y' := t / 12 in
  let m' := t mod 12 + 1 in
  mk_date y' m' (Z.min dd (Date.days_in_month y' m')).

Definition days_of_week : list (string * Z) :=
  [("monday", 0); ("tuesday", 1); ("wednesday", 2); ("thursday", 3);
   ("friday", 4); ("saturday", 5); ("sunday", 6)].

(** [(day_num - today.weekday()) % 7] *)
Definition days_ahead (day_num today : Z) : Z :=
  (day_num - Date.weekday today) mod 7.

(** The body of the loop over [days_of_week]; [None] when the loop runs
    to its end. *)
Fixpoint weekday_loop (today : Z) (text : string) (days : list (string * Z))
  : option (py Z) :=
  match days with
  | [] => None
  | (day, day_num) :: days' =>
      let next_day_match := Re.found (Re.search ("next\s+" ++ day) text) in
      let this_day_match := Re.found (Re.search ("this\s+" ++ day) text) in
      let just_day_match := Re.found (Re.search ("\b" ++ day ++ "\b") text) in
      let days_ahead := days_ahead day_num today in
      if next_day_match then
        Some (add_days today (if days_ahead =? 0 then 7 else days_ahead))
      else if this_day_match then
        Some (if days_ahead =? 0 then Ret today
              else if days_ahead <? 0 then add_days today (days_ahead + 7)
              else add_days today days_ahead)
      else if just_day_match && negb next_day_match && negb this_day_match then
        Some (if days_ahead =? 0 then Ret today
              else if 0 <? days_ahead then add_days today days_ahead
              else add_days today (days_ahead + 7))
      else weekday_loop today text days'
  end.

Definition unit_days : list string := ["day"; "days"].
Definition unit_weeks : list string := ["week"; "weeks"].
Definition unit_months : list string := ["month"; "months"].

(** The three branches on the unit of an offset from [base]. *)
Definition offset_from (base number : Z) (unit : string) : py (option Z) :=
  if Py.mem unit unit_days then d ← add_days base number; Ret (Some d)
  else if Py.mem unit unit_weeks then d ← add_days base (number * 7); Ret (Some d)
  else if Py.mem unit unit_months then d ← add_months base number; Ret (Some d)
  else Ret None.

Definition parse_relative_date (E : env) (text : string) : py (option Z) :=
  let today := today E in
  let text := Py.lower text in
  if Py.contains "tomorrow" text then d ← add_days today 1; Ret (Some d)
  else if Py.contains "today" text then Ret (Some today)
  else if Py.contains "yesterday" text then d ← add_days today (-1); Ret (Some d)
  else
  match weekday_loop today text days_of_week with
  | Some r => d ← r; Ret (Some d)
  | None =>
  match Re.search "in\s+(\d+)\s+(day|days|week|weeks|month|months)" text with
  | Some m => offset_from today (Py.int (Re.group_or_empty m 1)) (Re.group_or_empty m 2)
  | None =>
  match Re.search "after\s+(\d+)\s+(day|days|week|weeks|month|months)" text with
  | Some m => offset_from today (Py.int (Re.group_or_empty m 1)) (Re.group_or_empty m 2)
  | None =>
  match Re.search "(\d+)\s+(day|days|week|weeks|month|months)\s+from\s+now" text with
  | Some m => offset_from today (Py.int (Re.group_or_empty m 1)) (Re.group_or_empty m 2)
  | None =>
  match Re.search "(\d+)\s+(day|days|week|weeks|month|months)\s+from\s+(.+)" text with
  | Some m =>
      let number := Py.int (Re.group_or_empty m 1) in
      let unit := Re.group_or_empty m 2 in
      let date_str := Py.strip (Re.group_or_empty m 3) in
      match dateutil_parse E date_str with
      | Some base_date => try_except (offset_from base_date number unit) (Ret None)
      | None => Ret None
      end
  | None =>
  let year := Date.year_of today in
  let month := Date.month_of today in
  let next_month := if 12 <? month + 1 then 1 else month + 1 in
  let next_year := if 12 <? month + 1 then year + 1 else year in
  if Py.contains "end of month" text then
    d ← mk_date year month (Date.days_in_month year month); Ret (Some d)
  else if Py.contains "beginning of month" text || Py.contains "start of month" text then
    d ← mk_date year month 1; Ret (Some d)
  else if Py.contains "end of next month" text then
    d ← mk_date next_year next_month (Date.days_in_month next_year next_month);
    Ret (Some d)
  else if Py.contains "beginning of next month" text
          || Py.contains "start of next month" text then
    d ← mk_date next_year next_month 1; Ret (Some d)
  else Ret None
  end end end end end.

Definition format_date_for_display (date_obj : Z) : string :=
  Date.strftime_long date_obj.

Definition month_to_num : list (string * Z) :=
  [("january", 1); ("february", 2); ("march", 3); ("april", 4); ("may", 5);
   ("june", 6); ("july", 7); ("august", 8); ("september", 9); ("october", 10);
   ("november", 11); ("december", 12);
   ("jan", 1); ("feb", 2); ("mar", 3); ("apr", 4); ("jun", 6); ("jul", 7);
   ("aug", 8); ("sep", 9); ("oct", 10); ("nov", 11); ("dec", 12)].

Fixpoint assoc (k : string) (l : list (string * Z)) : option Z :=
  match l with
  | [] => None
  | (k', v) :: l' => if Py.eqs k k' then Some v else assoc k l'
  end.

Definition date_patterns : list string :=
  ["(\d{1,2})(?:st|nd|rd|th)?\s+(?:of\s+)?(january|february|march|april|may|june|july|august|september|october|november|december)";
   "(january|february|march|april|may|june|july|august|september|october|november|december)\s+(\d{1,2})(?:st|nd|rd|th)?";
   "(\d{1,2})(?:st|nd|rd|th)?\s+(?:of\s+)?(jan|feb|mar|apr|may|jun|jul|aug|sep|oct|nov|dec)";
   "(jan|feb|mar|apr|may|jun|jul|aug|sep|oct|nov|dec)\s+(\d{1,2})(?:st|nd|rd|th)?"].

Fixpoint sfilter (p : ascii -> bool) (s : string) : string :=
  match s with
  | EmptyString => EmptyString
  | String c s' => if p c then String c (sfilter p s') else sfilter p s'
  end.

(** The loop over [date_patterns] of [enhance_entity_extraction]. *)
Fixpoint common_date (curr_year : Z) (text_lower : string) (patterns : list string)
  : option string :=
  match patterns with
  | [] => None
  | pattern :: patterns' =>
      match Re.search pattern text_lower with
      | Some m =>
          let g1 := Re.group_or_empty m 1 in
          let g2 := Re.group_or_empty m 2 in
          let '(day, month_num) :=
            match assoc g1 month_to_num with
            | Some n => (g2, n)
            | None => (g1, default 0 (assoc g2 month_to_num))
            end in
          let day_num := Py.int (sfilter Py.is_digit day) in
          if (1 <=? day_num) && (day_num <=? 31)
          then Some (Py.str_int curr_year ++ "-" ++ Py.fmt02d month_num
                     ++ "-" ++ Py.fmt02d day_num)
          else common_date curr_year text_lower patterns'
      | None => common_date curr_year text_lower patterns'
      end
  end.

Definition enhance_entity_extraction (E : env) (text : string) : py entities :=
  let ents := EntityExtractor.extract_entities E text in
  if truthy_opt (date ents) then Ret ents
  else
    relative_date ← parse_relative_date E text;
    match relative_date with
    | Some d => Ret (Entities (person ents) (Some (format_date_for_display d)) (time ents))
    | None =>
        let text_lower := Py.lower text in
        let curr_year := Date.year_of (today E) in
        let d := match common_date curr_year text_lower date_patterns with
                 | Some s => Some s
                 | None => date ents
                 end in
        let d := if truthy_opt d then d
                 else match Re.search "\b(20\d{2})\b" text with
                      | Some m => Some (Re.group_or_empty m 1 ++ "-01-01")
                      | None => d
                      end in
        Ret (Entities (person ents) d (time ents))
    end.

Definition common_responses : list string :=
  ["yes"; "no"; "okay"; "sure"; "correct"; "right"; "thanks"; "thank"; "please"].

Definition time_patterns : list string :=
  ["^\d{1,2}:\d{2}$"; "^\d{1,2}(am|pm|a\.m\.|p\.m\.)$";
   "^\d{1,2}\s*(am|pm|a\.m\.|p\.m\.)$"].

Definition common_words : list string :=
  ["feeling"; "anytime"; "anything"; "something"; "nothing"; "anyone"; "someone";
   "nobody"; "everybody"; "everyone"; "whenever"; "whatever"; "however"; "anywhere";
   "going"; "looking"; "thinking"; "trying"; "hoping"; "planning"; "wanting"; "needing";
   "one"; "two"; "three"; "four"; "five"; "six"; "seven"; "eight"; "nine"; "ten";
   "first"; "second"; "third"; "fourth"; "fifth"; "last"; "next"; "this"; "that";
   "these"; "those"; "there"; "here"; "today"; "tomorrow"; "yesterday";
   "monday"; "tuesday"; "wednesday"; "thursday"; "friday"; "saturday"; "sunday"].

Definition scheduling_keywords : list string :=
  ["another"; "new"; "schedule"; "appointment"; "what"; "ai"].

(** [any(re.match(pattern, s) for pattern in patterns)] *)
Definition any_match (patterns : list string) (s : string) : bool :=
  existsb (fun p => Re.found (Re.match_ p s)) patterns.

(** The filter of [extract_entities] on a person found by the extractor. *)
Definition keep_person (text p : string) : bool :=
  if (2 <? Z.of_nat (length (Py.split text)))
     && Py.startswith p (Py.strip text)
     && (Z.of_nat (length (Py.split p)) =? 1) then false
  else if Py.mem (Py.lower p) common_responses then false
  else if Py.mem (Py.lower p) common_words then false
  else if any_match time_patterns (Py.lower p) then false
  else if Py.mem (Py.lower p) scheduling_keywords then false
  else true.

Definition extract_entities (E : env) (text : string) : py entities :=
  result ← enhance_entity_extraction E text;
  match person result with
  | Some p =>
      if keep_person text p then Ret result
      else Ret (Entities None (date result) (time result))
  | None => Ret result
  end.

(** ** main.py: the AI fallback extractor *)

(** The double quote. *)
Definition dq : string := String (Py.chr 34) EmptyString.

Definition null_words : list string := ["null"; "unknown"; ""].

Definition flexible_phrases : list string :=
  ["anytime"; "any time"; "whenever"; "available"; "asap"; "as soon as"; "earliest"].

Definition time_only_pattern : string := "^\d{1,2}(:\d{2})?\s*(am|pm|a\.m\.|p\.m\.)?$".
Definition month_name_pattern : string :=
  "\b(january|february|march|april|may|june|july|august|september|october|november|december)\b".
Definition iso_date_pattern : string := "\d{4}-\d{2}-\d{2}".

Definition is_none (v : pyval) : bool :=
  match v with VNone => true | _ => false end.

(** The strings that stand for "no value". *)
Definition denull (v : pyval) : pyval :=
  match v with
  | VStr s => if Py.mem (Py.lower s) null_words then VNone else v
  | _ => v
  end.

Definition looks_like_time (v : pyval) : bool :=
  Re.found (Re.search time_only_pattern (Py.lower (py_str v))).

Definition looks_like_date (v : pyval) : bool :=
  Re.found (Re.search month_name_pattern (Py.lower (py_str v)))
  || Re.found (Re.search iso_date_pattern (py_str v)).

Definition is_flexible (s : string) : bool :=
  existsb (fun phrase => Py.contains phrase s) flexible_phrases.

(** One round of the loop [for key in result] that cleans the decoded
    response. *)
Definition sanitize (key : string) (v : pyval) : py pyval :=
  let v := denull v in
  let v := if Py.eqs key "date" && negb (is_none v) && looks_like_time v
           then VNone else v in
  if Py.eqs key "time" && negb (is_none v) then
    let v := if looks_like_date v then VNone else v in
    if truthy v then
      l ← lower_of v;
      Ret (if is_flexible l then VStr "first available" else v)
    else Ret v
  else Ret v.

Definition sanitize_ok (kv : string * pyval) : bool :=
  match sanitize kv.1 kv.2 with Ret _ => true | Raise => false end.

Definition sanitize_opt (key : string) (v : pyval) : option pyval :=
  match sanitize key v with Ret v' => Some v' | Raise => None end.

Definition sanitize_all (m : gmap string pyval) : py (gmap string pyval) :=
  if forallb sanitize_ok (map_to_list m)
  then Ret (map_imap sanitize_opt m)
  else Raise.

(** [{entity: None for entity in missing_entities}] *)
Definition all_none (missing_entities : list string) : gmap string pyval :=
  list_to_map ((fun e => (e, VNone)) <$> missing_entities).

(** The pattern that finds one entity in a response: the quoted name, a
    colon, and either a quoted value, which is group 1, or null. *)
Definition entity_pattern (entity : string) : string :=
  dq ++ entity ++ dq ++ "\s*:\s*(?:" ++ dq ++ "([^" ++ dq ++ "]*?)" ++ dq ++ "|null)".

(** The extraction by patterns when the response is not JSON. *)
Fixpoint regex_fallback (json_str : string) (missing_entities : list string)
  : py (gmap string pyval) :=
  match missing_entities with
  | [] => Ret ∅
  | entity :: rest =>
      match Re.compile (entity_pattern entity) with
      | None => Raise
      | Some r =>
          let v := match Re.search_from false r None json_str with
                   | Some m => match Re.group m 1 with
                               | Some g => if Py.nonempty g then VStr g else VNone
                               | None => VNone
                               end
                   | None => VNone
                   end in
          result ← regex_fallback json_str rest;
          Ret (<[entity := v]> result)
      end
  end.

(** [for entity in missing_entities: if entity not in result: result[entity] = None] *)
Definition fill_missing (missing_entities : list string) (result : gmap string pyval)
  : gmap string pyval :=
  fold_right (fun entity r => match r !! entity with
                              | Some _ => r
                              | None => <[entity := VNone]> r
                              end) result missing_entities.

Definition clean_json (content : string) : string :=
  let json_str := match Re.search_dotall "```(?:json)?\s*(.*?)\s*```" content with
                  | Some m => Re.group_or_empty m 1
                  | None => content
                  end in
  let json_str := Py.replace "'" dq json_str in
  let json_str := Py.replace (dq ++ "NULL" ++ dq) "null" json_str in
  let json_str := Py.replace (dq ++ "null" ++ dq) "null" json_str in
  Py.replace "NULL" "null" json_str.

(** The body of the [try] block.  A decoded value that is not an object
    makes the later subscripting raise; the only caller passes a non-empty
    list of entities. *)
Definition extract_body (E : env) (text : string) (missing_entities : list string)
  : py (gmap string pyval) :=
  match agent_extract E text missing_entities with
  | None => Raise
  | Some response =>
      let content := Py.strip response in
      let json_str := clean_json content in
      result ← match json_loads E json_str with
               | JObject m => Ret m
               | JNotObject => Raise
               | JSONDecodeError => regex_fallback json_str missing_entities
               end;
      result ← sanitize_all result;
      Ret (fill_missing missing_entities result)
  end.

Definition extract_entities_with_ai (E : env) (text : string)
    (missing_entities : list string) : gmap string pyval :=
  match extract_body E text missing_entities with
  | Ret result => result
  | Raise => all_none missing_entities
  end.

(** ** main.py: the dialogue state machine *)

(** [context.get(k)] *)
Definition get (context : gmap string pyval) (k : string) : pyval :=
  match context !! k with Some v => v | None => VNone end.

(** [context.get(k, d)] *)
Definition get_or (context : gmap string pyval) (k : string) (d : pyval) : pyval :=
  match context !! k with Some v => v | None => d end.

(** [k in context] *)
Definition has (context : gmap string pyval) (k : string) : bool :=
  match context !! k with Some _ => true | None => false end.

(** [context[k]]: [KeyError] for a missing key. *)
Definition getitem (context : gmap string pyval) (k : string) : py pyval :=
  match context !! k with Some v => Ret v | None => Raise end.

(** [context[k]] inside an f-string. *)
Definition item (context : gmap string pyval) (k : string) : py string :=
  v ← getitem context k; Ret (py_str v).

(** [k in context and context[k]] *)
Definition filled (context : gmap string pyval) (k : string) : bool :=
  truthy (get context k).

(** [any(w in text for w in words)] *)
Definition any_in (words : list string) (text : string) : bool :=
  existsb (fun w => Py.contains w text) words.

Definition anytime_patterns : list string :=
  ["any\s*time"; "when\w*\s+available"; "earliest\s+available";
   "first\s+available"; "whenever"; "any\s+open\w*\s+slot"; "any\s+opening";
   "as\s+soon\s+as\s+possible"; "asap"; "fit\s+me\s+in"; "earliest\s+appointment"].

Definition cancel_current_patterns : list string :=
  ["cancel this appointment"; "cancel the current appointment";
   "cancel that appointment"; "cancel it"; "don't want this appointment";
   "remove this appointment"].

(** The words accepted as a confirmation of a cancellation, in the order of
    the block for the cancel intent and in that of the phase
    [confirming_cancel]. *)
Definition cancel_yes_words : list string :=
  ["yes"; "correct"; "right"; "ok"; "okay"; "sure"; "yeah"; "yep"; "do that"; "please"].
Definition confirming_cancel_yes_words : list string :=
  ["yes"; "correct"; "right"; "ok"; "okay"; "sure"; "do that"; "please"; "yeah"; "yep"].

Definition times_str : string := "9:00 AM, 10:30 AM, 2:00 PM, 3:30 PM, 4:45 PM".

Definition nl : string := String Re.newline EmptyString.

Definition cancel_question (context : gmap string pyval) (time_text : string)
  : py string :=
  p ← item context "person";
  d ← item context "date";
  Ret ("I'll cancel your appointment with " ++ p ++ " on " ++ d ++ " at "
       ++ time_text ++ ". Is that correct?").

Definition schedule_question (context : gmap string pyval) : py string :=
  p ← item context "person";
  d ← item context "date";
  t ← item context "time";
  Ret ("I'll schedule your appointment with " ++ p ++ " on " ++ d ++ " at "
       ++ t ++ ". Is that correct?").

Definition availability_answer (context : gmap string pyval) : py string :=
  p ← item context "person";
  d ← item context "date";
  Ret (p ++ " is available on " ++ d ++ " at the following times: " ++ times_str).

Definition ask_date_check (context : gmap string pyval) : py string :=
  p ← item context "person";
  Ret ("For which date would you like to check " ++ p ++ "'s availability?").

Definition ask_date_cancel (context : gmap string pyval) : py string :=
  p ← item context "person";
  Ret ("On what date is the appointment with " ++ p ++ " that you want to cancel?").

Definition ask_time_cancel (context : gmap string pyval) : py string :=
  p ← item context "person";
  d ← item context "date";
  Ret ("At what time is the appointment with " ++ p ++ " on " ++ d
       ++ " that you want to cancel?").

Definition ask_date (context : gmap string pyval) : py string :=
  p ← item context "person";
  Ret ("What day would you like to schedule with " ++ p ++ "?").

Definition ask_time (context : gmap string pyval) : py string :=
  p ← item context "person";
  d ← item context "date";
  Ret ("What time would you like for your appointment with " ++ p ++ " on "
       ++ d ++ "?").

(** The name to cancel for: a person ["That"], left by a reply such as
    "do that", gives way to the saved [previous_person]. *)
Definition restore_person (context : gmap string pyval) : py pyval :=
  let person := get context "person" in
  if truthy person then
    l ← lower_of person;
    if Py.eqs l "that" && truthy (get context "previous_person")
    then Ret (get context "previous_person")
    else Ret person
  else Ret person.

Definition cancel_error : string :=
  "I'm sorry, there was an error cancelling your appointment. Please try again.".

(** The body of the [try] that finishes a cancellation.  The call
    [db.cancel_appointment] is a comment in the source. *)
Definition finish_cancel (E : env) (context : gmap string pyval)
  : py (string * gmap string pyval) :=
  try_except
    (person ← restore_person context;
     let date_str := get context "date" in
     let time_str := get context "time" in
     let context := <["phase" := VStr "completed"]> context in
     let context := <["appointment_completed_at" := VStr (now_iso E)]> context in
     let context := <["ready_for_new_topic" := VTrue]> context in
     let context := <["person" := person]> context in
     Ret ("I've cancelled your appointment with " ++ py_str person ++ " on "
          ++ py_str date_str ++ " at " ++ py_str time_str
          ++ ". Is there anything else I can help you with?", context))
    (Ret (cancel_error, context)).

(** [if intent == "check_availability": ...] *)
Definition check_availability_block (context : gmap string pyval)
  : py (string * gmap string pyval) :=
  if negb (filled context "person") then
    Ret ("Whose availability would you like to check?",
         <["phase" := VStr "asking_person_check"]> context)
  else if negb (filled context "date") then
    let context := <["phase" := VStr "asking_date_check"]> context in
    r ← ask_date_check context; Ret (r, context)
  else
    let context := <["phase" := VStr "showing_availability"]> context in
    r ← availability_answer context; Ret (r, context).

(** [if intent == "cancel_appointment": ...] *)
Definition cancel_block (E : env) (text_lower : string) (phase : pyval)
    (context : gmap string pyval) : py (string * gmap string pyval) :=
  if negb (filled context "person") then
    Ret ("Whose appointment would you like to cancel?",
         <["phase" := VStr "asking_person_cancel"]> context)
  else if negb (filled context "date") then
    let context := <["phase" := VStr "asking_date_cancel"]> context in
    r ← ask_date_cancel context; Ret (r, context)
  else if negb (filled context "time") then
    let context := <["phase" := VStr "asking_time_cancel"]> context in
    r ← ask_time_cancel context; Ret (r, context)
  else if is_str phase "confirming_cancel" && any_in cancel_yes_words text_lower then
    finish_cancel E context
  else
    let context := <["phase" := VStr "confirming_cancel"]> context in
    l ← lower_of (get context "person");
    let context := if negb (Py.eqs l "that")
                   then <["previous_person" := get context "person"]> context
                   else context in
    t ← item context "time";
    r ← cancel_question context t;
    Ret (r, context).

(** [if not phase or phase == "init": ...] *)
Definition init_block (intent : pyval) (context : gmap string pyval)
  : py (string * gmap string pyval) :=
  if is_str intent "schedule_appointment" then
    if negb (filled context "person") then
      Ret ("Who would you like to schedule an appointment with?",
           <["phase" := VStr "asking_person"]> context)
    else if negb (filled context "date") then
      let context := <["phase" := VStr "asking_date"]> context in
      r ← ask_date context; Ret (r, context)
    else if negb (filled context "time") then
      let context := <["phase" := VStr "asking_time"]> context in
      r ← ask_time context; Ret (r, context)
    else
      let context := <["phase" := VStr "confirming"]> context in
      r ← schedule_question context; Ret (r, context)
  else if is_str intent "list_appointments" then
    Ret ("You have the following appointments scheduled:" ++ nl
         ++ "- Dr. Smith on Monday at 2:00 PM" ++ nl
         ++ "- Dentist on Friday at 10:30 AM",
         <["phase" := VStr "listing_appointments"]> context)
  else Ret ("", context).

(** The branch of the phase [showing_availability]. *)
Definition choose_time (text_lower : string) (context : gmap string pyval)
  : py (string * gmap string pyval) :=
  match Re.search "(\d{1,2}):?(\d{2})?\s*(am|pm|a\.m\.|p\.m\.)?" text_lower with
  | Some m =>
      let hour := Py.int (Re.group_or_empty m 1) in
      let minute := Py.int (Re.group_or_empty m 2) in
      let period := Re.group_or_empty m 3 in
      let hour := EntityExtractor.to_24h hour period in
      let context := <["time" := VStr (Py.fmt02d hour ++ ":" ++ Py.fmt02d minute)]> context in
      let context := <["intent" := VStr "schedule_appointment"]> context in
      let context := <["phase" := VStr "confirming"]> context in
      r ← schedule_question context; Ret (r, context)
  | None =>
      Ret ("I didn't understand the time you want. Please specify a time like '3:30 PM'.",
           context)
  end.

(** The branch of the phases [asking_change] and [asking_change_cancel]. *)
Definition change_block (intent : pyval) (text_lower : string)
    (context : gmap string pyval) : string * gmap string pyval :=
  let cancel := is_str intent "cancel_appointment" in
  if Py.contains "person" text_lower || Py.contains "who" text_lower
     || Py.contains "name" text_lower then
    (if is_str intent "schedule_appointment"
     then "Who would you like to schedule with instead?"
     else "Whose appointment would you like to cancel?",
     delete "person"
       (<["phase" := VStr (if cancel then "asking_person_cancel" else "asking_person")]>
          context))
  else if Py.contains "date" text_lower || Py.contains "day" text_lower
          || Py.contains "when" text_lower then
    ("What day would you prefer instead?",
     delete "date"
       (<["phase" := VStr (if cancel then "asking_date_cancel" else "asking_date")]>
          context))
  else if Py.contains "time" text_lower || Py.contains "hour" text_lower then
    ("What time would you prefer instead?",
     delete "time"
       (<["phase" := VStr (if cancel then "asking_time_cancel" else "asking_time")]>
          context))
  else ("Let's start over. What would you like to do?",
        <["phase" := VStr "init"]> context).

(** The branch of the phase [confirming].  The call [db.add_appointment] is
    a comment in the source. *)
Definition confirm_block (text_lower : string) (context : gmap string pyval)
  : string * gmap string pyval :=
  if Py.contains "yes" text_lower || Py.contains "correct" text_lower
     || Py.contains "right" text_lower then
    let person := get context "person" in
    let date_str := get context "date" in
    let time_str := get context "time" in
    if truthy person && truthy date_str && truthy time_str then
      ("Great! Your appointment with " ++ py_str person
       ++ " has been scheduled for " ++ py_str date_str ++ " at "
       ++ py_str time_str ++ ".",
       <["phase" := VStr "completed"]> context)
    else
      ("I'm missing some information. Let's start over. Who would you like to schedule with?",
       <["phase" := VStr "init"]> context)
  else
    ("What would you like to change about the appointment?",
     <["phase" := VStr "asking_change"]> context).

(** The cascade on the current phase. *)
Definition phase_block (E : env) (intent phase : pyval) (text_lower : string)
    (context : gmap string pyval) : py (string * gmap string pyval) :=
  if is_str phase "asking_person_check" then
    if filled context "person" then
      let context := <["phase" := VStr "asking_date_check"]> context in
      r ← ask_date_check context; Ret (r, context)
    else
      Ret ("I need to know whose availability you want to check. Please provide a name.",
           context)
  else if is_str phase "asking_date_check" then
    if filled context "date" then
      let context := <["phase" := VStr "showing_availability"]> context in
      r ← availability_answer context; Ret (r, context)
    else
      p ← item context "person";
      Ret ("I need a date to check availability for " ++ p
           ++ ". What day are you interested in?", context)
  else if is_str phase "showing_availability" && Py.contains "time" text_lower then
    choose_time text_lower context
  else if is_str phase "asking_person_cancel" then
    if filled context "person" then
      let context := <["phase" := VStr "asking_date_cancel"]> context in
      r ← ask_date_cancel context; Ret (r, context)
    else
      Ret ("I need to know whose appointment you want to cancel. Please provide a name.",
           context)
  else if is_str phase "asking_date_cancel" then
    if filled context "date" then
      let context := <["phase" := VStr "asking_time_cancel"]> context in
      r ← ask_time_cancel context; Ret (r, context)
    else
      p ← item context "person";
      Ret ("I need to know the date of the appointment with " ++ p
           ++ " that you want to cancel.", context)
  else if is_str phase "asking_time_cancel" then
    if filled context "time" then
      let context := <["phase" := VStr "confirming_cancel"]> context in
      p ← getitem context "person";
      let context := <["previous_person" := p]> context in
      t ← item context "time";
      r ← cancel_question context t; Ret (r, context)
    else
      r ← ask_time_cancel context; Ret (r, context)
  else if is_str phase "confirming_cancel" then
    if any_in confirming_cancel_yes_words text_lower then finish_cancel E context
    else Ret ("What would you like to change about the cancellation?",
              <["phase" := VStr "asking_change_cancel"]> context)
  else if is_str phase "asking_person" then
    if filled context "person" then
      let context := <["phase" := VStr "asking_date"]> context in
      r ← ask_date context; Ret (r, context)
    else
      Ret ("I need to know who you want to schedule with. Please provide a name.",
           context)
  else if is_str phase "asking_date" then
    if filled context "date" then
      let context := <["phase" := VStr "asking_time"]> context in
      r ← ask_time context; Ret (r, context)
    else
      p ← item context "person";
      Ret ("I need a date for your appointment with " ++ p
           ++ ". When would you like to schedule it?", context)
  else if is_str phase "asking_time" then
    if filled context "time" then
      let context := <["phase" := VStr "confirming"]> context in
      r ← schedule_question context; Ret (r, context)
    else
      r ← ask_time context; Ret (r, context)
  else if is_str phase "confirming" then Ret (confirm_block text_lower context)
  else if in_strs phase ["asking_change"; "asking_change_cancel"] then
    Ret (change_block intent text_lower context)
  else Ret ("", context).

(** The end of the function: the default response and the marks of a
    completed flow. *)
Definition finish (E : env) (phase : pyval) (r : string * gmap string pyval)
  : string * gmap string pyval :=
  let '(response, context) := r in
  let response :=
    if Py.nonempty response then response
    else "I'm not sure what you want to do with your appointment. Can you please be more specific?" in
  if is_str phase "completed" || is_str (get context "phase") "completed" then
    (response,
     <["ready_for_new_topic" := VTrue]>
       (<["appointment_completed_at" := VStr (now_iso E)]> context))
  else (response, context).

Definition process_appointment_intent (E : env) (message_text : string)
    (context : gmap string pyval) : py (string * gmap string pyval) :=
  let intent := get_or context "intent" (VStr "schedule_appointment") in
  let phase := get_or context "phase" (VStr "init") in
  let text_lower := Py.lower message_text in
  let context :=
    if is_str phase "asking_time" && negb (has context "time")
       && any_search anytime_patterns text_lower
    then <["time" := VStr "first available"]> context
    else context in
  if any_in cancel_current_patterns text_lower
     && truthy (get context "person") && truthy (get context "date") then
    let context := <["intent" := VStr "cancel_appointment"]> context in
    let context := <["phase" := VStr "confirming_cancel"]> context in
    r ← cancel_question context
          (py_str (get_or context "time" (VStr "the scheduled time")));
    Ret (r, context)
  else if is_str intent "check_availability" then check_availability_block context
  else if is_str intent "cancel_appointment" then
    cancel_block E text_lower phase context
  else
    r ← (if negb (truthy phase) || is_str phase "init"
         then init_block intent context
         else phase_block E intent phase text_lower context);
    Ret (finish E phase r).

(** ** main.py: one turn of an appointment conversation *)

(** A call to the persistence layer. *)
Inductive db_call :=
| add_appointment (person date time : pyval)
| cancel_appointment (person date time : pyval).

(** What a turn returns, with the persistence calls it made. *)
Record reply := Reply {
  response : string;
  context : option (gmap string pyval);   (* [None]: no "context" key *)
  persisted : list db_call
}.

Definition appointment_intents : list string :=
  ["schedule_appointment"; "cancel_appointment"; "check_availability";
   "list_appointments"].

Definition person_phases : list string :=
  ["init"; "asking_person"; "asking_person_cancel"; "asking_person_check"].

Definition asking_person_phases : list string :=
  ["asking_person"; "asking_person_cancel"; "asking_person_check"].

Definition domain_words_as_person : list string :=
  ["availability"; "availibility"; "appointment"].

(** The intent of the context after the message has been classified. *)
Definition classify (message_text : string) (context : gmap string pyval)
  : gmap string pyval :=
  let intent := identify_intent message_text in
  match context !! "intent" with
  | None =>
      if Py.mem intent appointment_intents
      then <["intent" := VStr intent]> context
      else <["intent" := VStr "schedule_appointment"]> context
  | Some current =>
      if Py.mem intent appointment_intents && negb (is_str current intent)
      then delete "phase" (<["intent" := VStr intent]> context)
      else context
  end.

(** [not entities.get(k) and not context.get(k)] *)
Definition lacks (value : option string) (context : gmap string pyval) (k : string)
  : bool :=
  negb (truthy_opt value) && negb (truthy (get context k)).

Definition missing_for (ents : entities) (context : gmap string pyval)
  : list string :=
  let intent := get context "intent" in
  if is_str intent "schedule_appointment" then
    ((if lacks (person ents) context "person" then ["person"] else [])
     ++ (if lacks (date ents) context "date" then ["date"] else [])
     ++ (if lacks (time ents) context "time" then ["time"] else []))%list
  else if is_str intent "cancel_appointment" then
    ((if lacks (person ents) context "person" then ["person"] else [])
     ++ (if lacks (date ents) context "date" && lacks (time ents) context "time"
         then ["date"; "time"] else []))%list
  else if is_str intent "check_availability" then
    (if lacks (person ents) context "person" then ["person"] else [])
  else [].

Definition nonnil {A} (l : list A) : bool :=
  match l with [] => false | _ => true end.

(** A short reply to a question about the person is taken as the name. *)
Definition interpret_name (message_text : string) (context : gmap string pyval)
    (ents : entities) (missing_entities : list string) : entities * list string :=
  if nonnil missing_entities && has context "phase"
     && in_strs (get context "phase") asking_person_phases
     && (Z.of_nat (length (Py.split message_text)) <=? 3) then
    let potential_name := Py.strip message_text in
    if Py.nonempty potential_name && (1 <? Py.len potential_name)
       && negb (Py.mem (Py.lower potential_name) EntityExtractor.domain_specific_words)
    then (Entities (Some (Py.capitalize potential_name)) (date ents) (time ents),
          filter (fun e => negb (Py.eqs e "person")) missing_entities)
    else (ents, missing_entities)
  else (ents, missing_entities).

(** The guard of a confirmed person: one was in the context when the turn
    began, in a phase that does not ask for the person. *)
Definition person_locked (original_person original_phase : pyval) : bool :=
  negb (is_none original_person) && negb (in_strs original_phase person_phases).

(** One round of the loop that writes the extractor's entities. *)
Definition merge_slot (locked : bool) (key : string) (value : option string)
    (context : gmap string pyval) : gmap string pyval :=
  match value with
  | Some v =>
      if negb (Py.nonempty v) then context
      else if Py.eqs key "person" && Py.mem (Py.lower v) domain_words_as_person
      then context
      else if Py.eqs key "person" && locked then context
      else <[key := VStr v]> context
  | None => context
  end.

Definition merge_entities (locked : bool) (ents : entities)
    (context : gmap string pyval) : gmap string pyval :=
  let context := merge_slot locked "person" (person ents) context in
  let context := merge_slot locked "date" (date ents) context in
  merge_slot locked "time" (time ents) context.

(** One round of the loop that writes the AI fallback's entities. *)
Definition merge_ai_slot (locked : bool) (ai_entities : gmap string pyval)
    (context : gmap string pyval) (key : string) : gmap string pyval :=
  match ai_entities !! key with
  | Some v =>
      if negb (truthy v) then context
      else if Py.eqs key "person"
              && (Re.found (Re.search iso_date_pattern (py_str v))
                  || Re.found (Re.search "\d{1,2}:\d{2}" (py_str v)))
      then context
      else if Py.eqs key "person" && locked then context
      else <[key := v]> context
  | None => context
  end.

Definition merge_ai (locked : bool) (ai_entities : gmap string pyval)
    (missing_entities : list string) (context : gmap string pyval)
  : gmap string pyval :=
  fold_left (merge_ai_slot locked ai_entities) missing_entities context.

(** The first half of the merge: the message classified and the
    extractor's entities written.  It returns the guard of the person, the
    entities still missing and the context.  The writes to the session
    memory, which nothing here reads, are left out. *)
Definition merge_extracted (E : env) (message_text : string)
    (context : gmap string pyval) : py (bool * list string * gmap string pyval) :=
  let original_person := get context "person" in
  let original_phase := get context "phase" in
  let locked := person_locked original_person original_phase in
  let context := classify message_text context in
  ents ← extract_entities E message_text;
  let missing_entities := missing_for ents context in
  let '(ents, missing_entities) :=
    interpret_name message_text context ents missing_entities in
  Ret (locked, missing_entities, merge_entities locked ents context).

(** The context as the state machine receives it: after the AI fallback
    has been asked for the missing entities. *)
Definition merged_context (E : env) (message_text : string)
    (context : gmap string pyval) : py (gmap string pyval) :=
  '(locked, missing_entities, context) ← merge_extracted E message_text context;
  Ret (if nonnil missing_entities
       then merge_ai locked (extract_entities_with_ai E message_text missing_entities)
                     missing_entities context
       else context).

(** No branch of the turn calls the [db] object, so the list of
    persistence calls of a turn is empty. *)
Definition handle_appointment_query (E : env) (message_text : string)
    (context : gmap string pyval) : py reply :=
  context ← merged_context E message_text context;
  '(response, context) ← process_appointment_intent E message_text context;
  Ret (Reply response (Some context) []).

(** A conversation: the context a turn returns is the context of the next. *)
Fixpoint converse (E : env) (messages : list string)
    (ctx : gmap string pyval) (calls : list db_call)
  : py (gmap string pyval * list db_call) :=
  match messages with
  | [] => Ret (ctx, calls)
  | message_text :: rest =>
      r ← handle_appointment_query E message_text ctx;
      converse E rest
        (match context r with Some c => c | None => ∅ end)
        (calls ++ persisted r)
  end.

(** ** main.py: the entry point of a turn *)

Definition summary_patterns : list string :=
  ["(conversation|chat) summary";
   "summarize (our|this) (conversation|chat|discussion)";
   "give me a summary";
   "what have we (talked|discussed) (about)?";
   "recap (our|this) (conversation|chat)";
   "sum( |)up (our|this|the) (conversation|chat|discussion)"].

Definition check_if_summary_requested (text : string) : bool :=
  any_search summary_patterns (Py.lower text).

(** Every return of [handle_knowledge_query] carries an empty context; the
    text of the answer is the collaborator's. *)
Definition handle_knowledge_query (E : env) (text : string) : reply :=
  Reply (knowledge_answer E text) (Some ∅) [].

Definition doctor_phrases : list string :=
  ["see a doctor"; "see the doctor"; "need a doctor"; "need to see a doctor"].

Definition knowledge_question_indicators : list string :=
  ["what is"; "what are"; "who is"; "who are"; "how does"; "how do"; "explain";
   "tell me about"; "when was"; "when is"; "where is"; "where are"; "why is";
   "why are"; "define"; "definition"; "defination"; "meaning of";
   "can you explain"; "what does"; "tell me more"].

Definition new_appointment_keywords : list string :=
  ["new appointment"; "another appointment"; "different appointment";
   "schedule another"; "book another"; "make another"].

(** The context rebuilt for a switch of intent: person and date are kept. *)
Definition switch_intent (intent : string) (ctx : gmap string pyval)
  : gmap string pyval :=
  let person := get ctx "person" in
  let date := get ctx "date" in
  let fresh := <["phase" := VStr "init"]> (<["intent" := VStr intent]> ∅) in
  let fresh := if truthy person then <["person" := person]> fresh else fresh in
  if truthy date then <["date" := date]> fresh else fresh.

Definition put_slot (key : string) (value : option string)
    (ctx : gmap string pyval) : gmap string pyval :=
  if truthy_opt value then <[key := of_opt value]> ctx else ctx.

(** [for key, value in temp_entities.items(): if value: context[key] = value] *)
Definition put_entities (ents : entities) (ctx : gmap string pyval)
  : gmap string pyval :=
  put_slot "time" (time ents) (put_slot "date" (date ents)
    (put_slot "person" (person ents) ctx)).

Definition asking_date_phases : list string :=
  ["asking_date"; "asking_date_cancel"; "asking_date_check"].
Definition asking_time_phases : list string :=
  ["asking_time"; "asking_time_cancel"; "asking_time_after_availability"].
Definition followup_intents : list string :=
  ["schedule_appointment"; "cancel_appointment"; "check_availability"].

(** The date or time read from a reply to the question about it. *)
Definition followup_slots (E : env) (message_text : string)
    (current_phase : pyval) (ctx : gmap string pyval) : py (gmap string pyval) :=
  ctx ← (if in_strs current_phase asking_date_phases && negb (has ctx "date") then
           date_result ← parse_relative_date E message_text;
           match date_result with
           | Some d => Ret (<["date" := VStr (format_date_for_display d)]> ctx)
           | None =>
               enhanced_entities ← enhance_entity_extraction E message_text;
               Ret (put_slot "date" (date enhanced_entities) ctx)
           end
         else Ret ctx);
  Ret (if in_strs current_phase asking_time_phases && negb (has ctx "time")
       then put_slot "time" (EntityExtractor._extract_time message_text) ctx
       else ctx).

(** The classification of a long message of unknown intent by the model. *)
Definition ai_dispatch (E : env) (message_text : string)
    (ctx : gmap string pyval) : py reply :=
  match agent_intent E message_text with
  | None => Raise
  | Some content =>
      let ai_intent := Py.lower (Py.strip content) in
      if Py.mem ai_intent appointment_intents then
        handle_appointment_query E message_text
          (<["phase" := VStr "init"]> (<["intent" := VStr ai_intent]> ctx))
      else if Py.contains "appointment" ai_intent then
        handle_appointment_query E message_text ctx
      else Ret (handle_knowledge_query E message_text)
  end.

(** The rest of [process_message] after the reset of a completed flow. *)
Definition dispatch (E : env) (message_text detected_intent : string)
    (current_phase current_intent : pyval) (ctx : gmap string pyval) : py reply :=
  let '(ctx, current_intent) :=
    if negb (truthy current_intent) && has_session E && truthy (previous_intent E)
    then (<["intent" := previous_intent E]> ctx, previous_intent E)
    else (ctx, current_intent) in
  if Py.mem detected_intent appointment_intents
     && negb (is_str current_intent detected_intent) then
    temp_entities ← extract_entities E message_text;
    handle_appointment_query E message_text
      (put_entities temp_entities
         (<["phase" := VStr "init"]> (<["intent" := VStr detected_intent]> ∅)))
  else if truthy current_phase && negb (is_str current_phase "init")
          && in_strs current_intent appointment_intents then
    ctx ← followup_slots E message_text current_phase ctx;
    handle_appointment_query E message_text ctx
  else
    temp_entities ← extract_entities E message_text;
    if (truthy_opt (date temp_entities) || truthy_opt (time temp_entities))
       && has_session E && in_strs (previous_intent E) followup_intents then
      handle_appointment_query E message_text
        (put_entities temp_entities (<["intent" := previous_intent E]> ctx))
    else
      let fallback :=
        if Py.mem detected_intent appointment_intents then
          handle_appointment_query E message_text
            (if negb (is_str current_intent detected_intent)
             then <["intent" := VStr detected_intent]> ∅ else ctx)
        else Ret (handle_knowledge_query E message_text) in
      if Py.eqs detected_intent "unknown"
         && (3 <? Z.of_nat (length (Py.split message_text)))
      then try_except (ai_dispatch E message_text ctx) fallback
      else fallback.

Definition process_message (E : env) (message_text : string)
    (conversation_context : gmap string pyval) : py reply :=
  if negb (Py.nonempty message_text) then
    Ret (Reply "I didn't receive any message. How can I help you?" None [])
  else if check_if_summary_requested message_text then
    Ret (Reply (conversation_summary E) (Some conversation_context) [])
  else
    let text_lower := Py.lower message_text in
    let ctx :=
      if any_in doctor_phrases text_lower
      then <["person" := VStr "Doctor"]>
             (<["intent" := VStr "schedule_appointment"]> conversation_context)
      else conversation_context in
    let ctx :=
      if Py.contains "check availability" text_lower
         || Py.contains "check availibility" text_lower
         || Py.contains "availability" text_lower
      then switch_intent "check_availability" ctx
      else if Py.contains "cancel" text_lower && Py.contains "appointment" text_lower
      then switch_intent "cancel_appointment" ctx
      else ctx in
    let detected_intent := identify_intent message_text in
    if Py.eqs detected_intent "knowledge" then
      Ret (handle_knowledge_query E message_text)
    else if any_in knowledge_question_indicators text_lower then
      Ret (handle_knowledge_query E message_text)
    else if any_in new_appointment_keywords text_lower then
      temp_entities ← extract_entities E message_text;
      handle_appointment_query E message_text
        (put_slot "person" (person temp_entities)
           (<["intent" := VStr "schedule_appointment"]> ∅))
    else
      let current_phase := get ctx "phase" in
      let current_intent := get ctx "intent" in
      if is_str current_phase "completed"
      then dispatch E message_text detected_intent VNone VNone ∅
      else dispatch E message_text detected_intent current_phase current_intent ctx.

(** * Specification *)

(** ** Definitions that the statements use: those that follow the
    specification's words, sample environments and contexts, and
    tactics *)

(** The ordered pattern families of the intent classifier. *)
Definition intent_families : list (list string * string) :=
  [(knowledge_patterns, "knowledge");
   (check_availability_patterns, "check_availability");
   (cancel_patterns, "cancel_appointment");
   (schedule_patterns, "schedule_appointment");
   (list_appointments_patterns, "list_appointments")].

(** The first family with a matching pattern wins; [unknown] if none. *)
Definition intent_by_precedence (text : string) : string :=
  match find (fun family => any_search family.1 (Py.lower text)) intent_families with
  | Some family => family.2
  | None => "unknown"
  end.

(** The text [HH:MM] of an hour and a minute, two digits each. *)
Definition hhmm (h m : Z) : string :=
  String (Py.digit_chr (h / 10)) (String (Py.digit_chr (h mod 10))
    (String ":" (String (Py.digit_chr (m / 10))
       (String (Py.digit_chr (m mod 10)) EmptyString)))).

Ltac each_weekday H :=
  unfold days_of_week in H; simpl in H;
  repeat (destruct H as [H|H]; [injection H as <- <-|]); [..|contradiction].

Definition wednesday_env : env :=
  Env 739924 "2026-11-04T09:00:00" (fun _ => None) (fun _ _ => None)
      (fun _ => JSONDecodeError) (fun _ => None) (fun _ => "") "" false VNone.

Definition smith_asking_date : gmap string pyval :=
  <["person" := VStr "Dr. Smith"]>
    (<["phase" := VStr "asking_date"]>
       (<["intent" := VStr "schedule_appointment"]> ∅)).

Definition smith_showing_availability : gmap string pyval :=
  <["date" := VStr "2025-06-10"]>
    (<["person" := VStr "Dr. Smith"]>
       (<["phase" := VStr "showing_availability"]>
          (<["intent" := VStr "check_availability"]> ∅))).

(** A response in prose that names the person in the form of a JSON
    member. *)
Definition prose_reply : string :=
  "The person is " ++ dq ++ "person" ++ dq ++ ": " ++ dq ++ "John Smith" ++ dq
  ++ " and no date was given.".

Definition prose_env : env :=
  Env 739924 "2026-11-04T09:00:00" (fun _ => None) (fun _ _ => Some prose_reply)
      (fun _ => JSONDecodeError) (fun _ => None) (fun _ => "") "" false VNone.

(** The object the cleaning loop of the AI fallback runs over: the decoded
    response, or what the pattern search made of a response that is not
    JSON; [None] when the call or the decoding raised before the loop. *)
Definition decoded (E : env) (text : string) (missing_entities : list string)
  : option (gmap string pyval) :=
  match agent_extract E text missing_entities with
  | None => None
  | Some response =>
      let json_str := clean_json (Py.strip response) in
      match json_loads E json_str with
      | JObject m => Some m
      | JNotObject => None
      | JSONDecodeError =>
          match regex_fallback json_str missing_entities with
          | Ret m => Some m
          | Raise => None
          end
      end
  end.

Definition noisy_object : gmap string pyval :=
  <["time" := VStr "ASAP please"]>
    (<["date" := VStr "5:30 pm"]> (<["person" := VStr "NULL"]> ∅)).

(** A decoded object whose values need cleaning. *)
Definition noisy_env : env :=
  Env 739924 "2026-11-04T09:00:00" (fun _ => None) (fun _ _ => Some "{}")
      (fun _ => JObject (<["time" := VStr "ASAP please"]>
                           (<["date" := VStr "5:30 pm"]>
                              (<["person" := VStr "NULL"]> ∅))))
      (fun _ => None) (fun _ => "") "" false VNone.

Definition completed_marks (E : env) (ctx : gmap string pyval)
  : gmap string pyval :=
  <["ready_for_new_topic" := VTrue]>
    (<["appointment_completed_at" := VStr (now_iso E)]> ctx).

Definition slots_john (phase intent : string) : gmap string pyval :=
  <["time" := VStr "15:00"]>
    (<["date" := VStr "2026-11-05"]>
       (<["person" := VStr "John"]>
          (<["phase" := VStr phase]> (<["intent" := VStr intent]> ∅)))).

(** The phase a turn of the state machine ends in. *)
Definition phase_after (r : py (string * gmap string pyval)) : py pyval :=
  rc ← r; Ret (get rc.2 "phase").

(** A context that is not in the phase completed, or carries the marks. *)
Definition marked (E : env) (ctx : gmap string pyval) : Prop :=
  get ctx "phase" = VStr "completed" ->
  ctx !! "ready_for_new_topic" = Some VTrue
  /\ ctx !! "appointment_completed_at" = Some (VStr (now_iso E)).

Ltac bind_ret H :=
  match type of H with
  | context [mbind _ ?m] =>
      destruct m; cbn [mbind py_bind] in H; [|discriminate H]
  end.

(** The person a reply carries in its context. *)
Definition replied_person (r : py reply) : py (option pyval) :=
  r ← r; Ret (context r ≫= fun c => c !! "person").

(** The AI fallback yields no value for the entities asked of it. *)
Definition quiet (E : env) (text : string) (missing : list string) : Prop :=
  forall k, truthy (get (extract_entities_with_ai E text missing) k) = false.

Definition start_context : gmap string pyval :=
  <["phase" := VStr "init"]> (<["intent" := VStr "schedule_appointment"]> ∅).

Definition after_john : gmap string pyval :=
  <["phase" := VStr "asking_date"]> (<["person" := VStr "John"]> start_context).

Definition after_date (d : string) : gmap string pyval :=
  <["phase" := VStr "asking_time"]> (<["date" := VStr d]> after_john).

Definition after_time (d : string) : gmap string pyval :=
  <["phase" := VStr "confirming"]> (<["time" := VStr "15:00"]> (after_date d)).

Definition after_yes (E : env) (d : string) : gmap string pyval :=
  completed_marks E (<["phase" := VStr "completed"]> (after_time d)).

Definition is_add_appointment (c : db_call) : bool :=
  match c with add_appointment _ _ _ => true | _ => false end.

(** The number of [add_appointment] calls of a conversation. *)
Definition add_appointment_calls (r : py (gmap string pyval * list db_call))
  : py nat :=
  rc ← r; Ret (length (filter is_add_appointment rc.2)).

(** Every pattern of the program, the ones built from a month, a weekday
    or an entity name included. *)
Definition all_patterns : list string :=
  ([EntityExtractor.of_pattern; EntityExtractor.with_pattern;
    EntityExtractor.for_pattern; EntityExtractor.see_pattern;
    EntityExtractor.hour12_pattern; EntityExtractor.simple_hour_pattern;
    "^\d+"; "\b(20\d{2})\b"; time_only_pattern; month_name_pattern;
    iso_date_pattern; "\d{1,2}:\d{2}"; "```(?:json)?\s*(.*?)\s*```";
    "(\d{1,2}):?(\d{2})?\s*(am|pm|a\.m\.|p\.m\.)?";
    "in\s+(\d+)\s+(day|days|week|weeks|month|months)";
    "after\s+(\d+)\s+(day|days|week|weeks|month|months)";
    "(\d+)\s+(day|days|week|weeks|month|months)\s+from\s+now";
    "(\d+)\s+(day|days|week|weeks|month|months)\s+from\s+(.+)"]
   ++ schedule_patterns ++ cancel_patterns ++ check_availability_patterns
   ++ list_appointments_patterns ++ knowledge_patterns ++ date_patterns
   ++ time_patterns ++ anytime_patterns ++ summary_patterns
   ++ map entity_pattern ["person"; "date"; "time"]
   ++ flat_map (fun day : string * Z =>
                  ["next\s+" ++ day.1; "this\s+" ++ day.1; "\b" ++ day.1 ++ "\b"]%string)
               days_of_week
   ++ flat_map (fun month =>
                  [(month ++ "\s+(\d{1,2})(st|nd|rd|th)?(?:,|\s)\s*(\d{4})")%string;
                   ("(\d{1,2})(st|nd|rd|th)?\s+(?:of\s+)?" ++ month
                      ++ "(?:,|\s)\s*(\d{4})")%string;
                   (month ++ "\s+(\d{1,2})(st|nd|rd|th)?")%string;
                   ("(\d{1,2})(st|nd|rd|th)?\s+(?:of\s+)?" ++ month)%string])
               (EntityExtractor.months ++ EntityExtractor.month_abbr))%list.

(** What the continuation of a successful match was called with. *)
Definition sound_at (dotall : bool) (r : Re.regex)
    (m : Re.mstate -> (Re.mstate -> option Re.captures) -> option Re.captures)
  : Prop :=
  forall st k res,
    m st k = Some res ->
    exists w st',
      Re.rest st = (w ++ Re.rest st')%string
      /\ Re.sem dotall r (Re.caps st) w (Re.caps st')
      /\ k st' = Some res.

(** The two am/pm patterns as [Re.compile] reads them. *)
Definition hour12_regex : Re.regex :=
  Eval vm_compute in
    match Re.compile EntityExtractor.hour12_pattern with
    | Some r => r
    | None => Re.REmpty
    end.

Definition simple_hour_regex : Re.regex :=
  Eval vm_compute in
    match Re.compile EntityExtractor.simple_hour_pattern with
    | Some r => r
    | None => Re.REmpty
    end.

(** One or two decimal digits. *)
Definition hour_text (s : string) : bool :=
  match s with
  | String a EmptyString => Py.is_digit a
  | String a (String b EmptyString) => Py.is_digit a && Py.is_digit b
  | _ => false
  end.

Definition markers : list string := ["am"; "pm"; "a.m."; "p.m."].

Ltac sem_inv :=
  repeat match goal with
  | H : Re.sem _ (Re.RSeq _ _) _ _ _ |- _ => inversion H; subst; clear H
  | H : Re.sem _ (Re.RAlt _ _) _ _ _ |- _ => inversion H; subst; clear H
  | H : Re.sem _ (Re.RGroup _ _) _ _ _ |- _ => inversion H; subst; clear H
  | H : Re.sem _ Re.REmpty _ _ _ |- _ => inversion H; subst; clear H
  | H : Re.sem _ (Re.RChar _) _ _ _ |- _ => inversion H; subst; clear H
  | H : Re.sem _ (Re.RSet _ _) _ _ _ |- _ => inversion H; subst; clear H
  end.

(** What the time extractor may return for a lower-cased text [s]: the
    text [HH:MM] of the 24-hour value of an hour of one or two digits
    reading 1 to 12 and of an am/pm marker that occurs in [s]. *)
Definition accepted_time (s t : string) : Prop :=
  exists hour p m,
    hour_text hour = true
    /\ 1 <= Py.int hour <= 12
    /\ Py.mem p markers = true
    /\ Py.contains p s = true
    /\ 0 <= EntityExtractor.to_24h (Py.int hour) p <= 23
    /\ 0 <= m <= 59
    /\ t = hhmm (EntityExtractor.to_24h (Py.int hour) p) m.

(** * Further parts of the program *)

(** ** main.py: topics and the session memory *)

Definition topic_keywords : list (string * list string) :=
  [("appointment", ["appointment"; "schedule"; "book"; "reservation"; "meeting"; "availability"]);
   ("time_management", ["time"; "schedule"; "calendar"; "availability"; "busy"; "free"]);
   ("contact", ["contact"; "person"; "people"; "name"; "meet with"; "call"]);
   ("health", ["doctor"; "health"; "medical"; "appointment"; "checkup"; "examination"]);
   ("business", ["business"; "meeting"; "client"; "customer"; "project"; "work"]);
   ("personal", ["family"; "friend"; "personal"; "vacation"; "holiday"; "break"])].

(** [for topic, keywords in topic_keywords.items(): if any(...): topics.append(topic)] *)
Fixpoint topics_loop (text_lower : string) (items : list (string * list string))
  : list string :=
  match items with
  | [] => []
  | (topic, keywords) :: items' =>
      if any_in keywords text_lower
      then topic :: topics_loop text_lower items'
      else topics_loop text_lower items'
  end.

Definition extract_topics_from_text (text : string) : list string :=
  topics_loop (Py.lower text) topic_keywords.

(** One stored exchange: the dictionary appended to the history of a
    session. *)
Record turn := Turn {
  t_user : string;
  t_ai : string;
  t_timestamp : string;
  t_context : gmap string pyval
}.

(** The global [memory], by session id.  The order of a dictionary's keys
    plays no part in what the functions below return. *)
Record memory := Memory {
  m_users : gmap string (gmap string pyval);
  m_conversations : gmap string (list turn);
  m_entities : gmap string (gmap string (list pyval));
  m_topics_discussed : gmap string (gset string);
  m_questions_asked : gmap string (gset string)
}.

Definition empty_memory : memory := Memory ∅ ∅ ∅ ∅ ∅.

(** [if k not in d: d[k] = v] *)
Definition init_key {A} (k : string) (v : A) (d : gmap string A) : gmap string A :=
  match d !! k with Some _ => d | None => <[k := v]> d end.

(** [d[k]] for a key that was initialised *)
Definition at_key {A} (k : string) (v : A) (d : gmap string A) : A :=
  match d !! k with Some x => x | None => v end.

(** [s in l] for a string and a list of values *)
Definition str_in (s : string) (l : list pyval) : bool :=
  existsb (fun x => is_str x s) l.

(** One round of the loop over the extracted entities. *)
Definition remember (key : string) (value : option string)
    (d : gmap string (list pyval)) : gmap string (list pyval) :=
  match value with
  | Some v =>
      if Py.nonempty v then
        let l := at_key key [] d in
        <[key := if str_in v l then l else (l ++ [VStr v])%list]> d
      else d
  | None => d
  end.

Definition remember_all (ents : entities) (d : gmap string (list pyval))
  : gmap string (list pyval) :=
  remember "time" (time ents) (remember "date" (date ents)
    (remember "person" (person ents) d)).

Definition add_all (l : list string) (s : gset string) : gset string :=
  fold_left (fun s x => {[x]} ∪ s) l s.

(** The memory after the call and whether the call returned or raised:
    what was written before an exception stays written. *)
Definition update_memory_with_conversation (E : env) (M : memory)
    (session_id : option string) (user_text ai_response : string)
    (context : gmap string pyval) : memory * py unit :=
  match session_id with
  | None => (M, Ret ())
  | Some sid =>
      if negb (Py.nonempty sid) then (M, Ret ())
      else
        let conversations := init_key sid [] (m_conversations M) in
        let ents := init_key sid ∅ (m_entities M) in
        let topics := init_key sid ∅ (m_topics_discussed M) in
        let questions := init_key sid ∅ (m_questions_asked M) in
        let timestamp := now_iso E in
        let context_copy := context in
        let conversations :=
          <[sid := (at_key sid [] conversations
                    ++ [Turn user_text ai_response timestamp context_copy])%list]>
            conversations in
        match extract_entities E user_text with
        | Raise =>
            (Memory (m_users M) conversations ents topics questions, Raise)
        | Ret found =>
            let ents := <[sid := remember_all found (at_key sid ∅ ents)]> ents in
            let topics :=
              <[sid := add_all (extract_topics_from_text user_text)
                         (at_key sid ∅ topics)]> topics in
            let questions :=
              if Py.contains "?" user_text
              then <[sid := {[Py.strip user_text]} ∪ at_key sid ∅ questions]> questions
              else questions in
            (Memory (m_users M) conversations ents topics questions, Ret ())
        end
  end.

(** [range(start, stop, -1)] *)
Definition range_down (start stop : Z) : list Z :=
  map (fun k => start - Z.of_nat k) (seq 0 (Z.to_nat (start - stop))).

(** [l[i]] for [i >= 0]: [IndexError] past the end. *)
Definition index_list {A} (l : list A) (i : Z) : py A :=
  match nth_error l (Z.to_nat i) with Some x => Ret x | None => Raise end.

(** The loop of [get_previous_intent] over the indices; every stored
    exchange has the key "context". *)
Fixpoint intent_loop (conversations : list turn) (indices : list Z) : py pyval :=
  match indices with
  | [] => Ret VNone
  | i :: indices' =>
      if 0 <=? i then
        t ← index_list conversations i;
        match t_context t !! "intent" with
        | Some v => Ret v
        | None => intent_loop conversations indices'
        end
      else intent_loop conversations indices'
  end.

Definition get_previous_intent (M : memory) (session_id : option string)
    (max_history : Z) : py pyval :=
  match session_id with
  | None => Ret VNone
  | Some sid =>
      if negb (Py.nonempty sid) then Ret VNone
      else match m_conversations M !! sid with
           | None => Ret VNone
           | Some conversations =>
               let n := Z.of_nat (length conversations) in
               intent_loop conversations
                 (range_down (n - 1) (Z.max (-1) (n - max_history)))
           end
  end.

Definition has_similar_question_been_asked (M : memory)
    (session_id : option string) (question : string) : bool :=
  match session_id with
  | None => false
  | Some sid =>
      if negb (Py.nonempty sid) then false
      else match m_questions_asked M !! sid with
           | None => false
           | Some asked_questions =>
               let question := Py.strip (Py.lower question) in
               existsb (fun asked_question =>
                          Py.contains question (Py.lower asked_question)
                          || Py.contains (Py.lower asked_question) question)
                       (elements asked_questions)
           end
  end.

(** [values[-1]] of a non-empty list *)
Definition last_value (values : list pyval) : pyval := List.last values VNone.

Definition get_memory_for_context (M : memory) (session_id : option string)
    (conversation_context : option (gmap string pyval)) : gmap string pyval :=
  let ctx := match conversation_context with Some c => c | None => ∅ end in
  match session_id with
  | None => ctx
  | Some sid =>
      if negb (Py.nonempty sid) then ctx
      else
        let ctx :=
          match m_users M !! sid with
          | Some user =>
              map_fold (fun key value c => if has c key then c else <[key := value]> c)
                       ctx user
          | None => ctx
          end in
        match m_entities M !! sid with
        | Some ents =>
            map_fold (fun key values c =>
                        if negb (has c key) && nonnil values
                        then <[key := last_value values]> c else c)
                     ctx ents
        | None => ctx
        end
  end.

(** The intent of the first exchange of a list that carries one. *)
Fixpoint first_intent (l : list turn) : pyval :=
  match l with
  | [] => VNone
  | t :: l' =>
      match t_context t !! "intent" with
      | Some v => v
      | None => first_intent l'
      end
  end.

(** The intent of the latest exchange that carries one. *)
Definition latest_intent (l : list turn) : pyval := first_intent (rev l).

(** No list of remembered entity values holds a value twice. *)
Definition no_repeats (M : memory) : Prop :=
  forall sid d key l,
    m_entities M !! sid = Some d -> d !! key = Some l -> NoDup l.

(** What is stored for a session. *)
Definition session_data (M : memory) (sid : string) :=
  (m_users M !! sid, m_conversations M !! sid, m_entities M !! sid,
   m_topics_discussed M !! sid, m_questions_asked M !! sid).

(** The value of a key by precedence: the context, then what is stored for
    the user, then the last remembered entity value. *)
Definition recalled (M : memory) (sid : string) (ctx : gmap string pyval)
    (k : string) : option pyval :=
  match ctx !! k with
  | Some v => Some v
  | None =>
      match m_users M !! sid ≫= (fun user => user !! k) with
      | Some v => Some v
      | None =>
          match m_entities M !! sid ≫= (fun ents => ents !! k) with
          | Some (x :: l) => Some (last_value (x :: l))
          | _ => None
          end
      end
  end.

Definition turn_with_intent (v : string) : turn :=
  Turn "book it" "ok" "t" (<["intent" := VStr v]> ∅).
Definition turn_without_intent : turn := Turn "hello" "hi" "t" ∅.

(** Five exchanges of which only the oldest carries an intent. *)
Definition five_turns : memory :=
  Memory ∅ (<["s1" := [turn_with_intent "cancel_appointment"; turn_without_intent;
                        turn_without_intent; turn_without_intent;
                        turn_without_intent]]> ∅) ∅ ∅ ∅.

(** A session that remembers two persons, John before Mary. *)
Definition john_mary_memory : memory :=
  Memory ∅ ∅ (<["s1" := <["person" := [VStr "John"; VStr "Mary"]]> ∅]> ∅) ∅ ∅.

(** ** Regular expressions: flags, the end of a match, substitution

    What [re.sub], [re.MULTILINE] and [datetime.strptime] need on top of
    the searches above: the matcher with the position a match ends at, the
    anchors under [re.MULTILINE], and the pattern syntax with the escapes
    [\n] and [\t], the bound [{n,}] and the class [[\s\S]]. *)

Module ReM.

Import Re.

Definition tab : ascii := Py.chr 9.

Definition step {A} (p : ascii -> bool) (st : mstate)
    (k : mstate -> option A) : option A :=
  match rest st with
  | String c s' => if p c then k (MState (Some c) s' (caps st)) else None
  | EmptyString => None
  end.

Fixpoint star_loop {A} (greedy : bool)
    (body : mstate -> (mstate -> option A) -> option A)
    (k : mstate -> option A) (n : nat) (st : mstate) {struct n} : option A :=
  match n with
  | O => k st
  | S n' =>
      let more :=
        body st (fun st1 =>
          if (String.length (rest st1) <? String.length (rest st))%nat
          then star_loop greedy body k n' st1 else None) in
      if greedy then orelse more (k st) else orelse (k st) more
  end.

(** [Re.rmatch] with a continuation of any result type and with the flag
    [re.MULTILINE]: under it [^] also matches after a line feed and [$]
    before every line feed. *)
Fixpoint rmatch {A} (multiline dotall : bool) (r : regex) (st : mstate)
    (k : mstate -> option A) {struct r} : option A :=
  match r with
  | REmpty => k st
  | RChar c => step (Ascii.eqb c) st k
  | RAny => step (fun c => dotall || negb (Ascii.eqb c newline)) st k
  | RSet neg items => step (set_has neg items) st k
  | RSeq a b => rmatch multiline dotall a st (fun st1 => rmatch multiline dotall b st1 k)
  | RAlt a b => orelse (rmatch multiline dotall a st k) (rmatch multiline dotall b st k)
  | RStar greedy a =>
      star_loop greedy (rmatch multiline dotall a) k (S (String.length (rest st))) st
  | RGroup i a => rmatch multiline dotall a st (fun st1 => k (set_cap i st st1))
  | RBol =>
      match prev st with
      | None => k st
      | Some c => if multiline && Ascii.eqb c newline then k st else None
      end
  | REol =>
      match rest st with
      | EmptyString => k st
      | String c s' =>
          if Ascii.eqb c newline && (multiline || negb (Py.nonempty s'))
          then k st else None
      end
  | RWordB =>
      if xorb (wordish (prev st)) (wordish (next_char st)) then k st else None
  end.

(** The state at the end of the first match at a position.  With
    [must_advance], which [re.sub] sets after an empty match, a match that
    ends where it began does not count. *)
Definition match_end (multiline dotall : bool) (r : regex) (must_advance : bool)
    (p : option ascii) (s : string) : option mstate :=
  rmatch multiline dotall r (MState p s [])
    (fun st => if must_advance && (String.length (rest st) =? String.length s)%nat
               then None else Some st).

(** *** Pattern syntax *)

Definition escape (c : ascii) : regex :=
  if Ascii.eqb c "n" then RChar newline
  else if Ascii.eqb c "t" then RChar tab
  else Re.escape c.

Definition class_escape (c : ascii) : citem :=
  if Ascii.eqb c "n" then CChar newline
  else if Ascii.eqb c "t" then CChar tab
  else Re.class_escape c.

Fixpoint parse_class (fuel : nat) (s : string) (acc : list citem)
  : option (list citem * string) :=
  match fuel with
  | O => None
  | S fuel' =>
      match s with
      | EmptyString => None
      | String "]" s' => Some (rev acc, s')
      | String "\" (String c s') =>
          parse_class fuel' s' (class_escape c :: acc)
      | String lo (String "-" (String hi s')) =>
          if Ascii.eqb hi "]"
          then parse_class fuel' (String "-" (String hi s')) (CChar lo :: acc)
          else parse_class fuel' s' (CRange lo hi :: acc)
      | String c s' => parse_class fuel' s' (CChar c :: acc)
      end
  end.

(** The bounds [n}], [n,}] or [n,m}] after an opening brace. *)
Definition parse_bounds (s : string) : option (nat * option nat * string) :=
  let '(a, s1) := take_digits s "" in
  if Py.nonempty a then
    match s1 with
    | String "}" s2 => Some (Z.to_nat (Py.int a), Some (Z.to_nat (Py.int a)), s2)
    | String "," s2 =>
        let '(b, s3) := take_digits s2 "" in
        match s3 with
        | String "}" s4 =>
            Some (Z.to_nat (Py.int a),
                  if Py.nonempty b then Some (Z.to_nat (Py.int b)) else None, s4)
        | _ => None
        end
    | _ => None
    end
  else None.

(** [r{lo,hi}] and [r{lo,}], greedy. *)
Definition rbounded (lo : nat) (hi : option nat) (r : regex) : regex :=
  match hi with
  | Some hi => rrange lo hi r
  | None => rcopies lo r (RStar true r)
  end.

Fixpoint parse_loop (fuel : nat) (stack : list frame) (cur : frame) (ng : nat)
    (s : string) : option regex :=
  match fuel with
  | O => None
  | S fuel' =>
      match s with
      | EmptyString =>
          match stack with [] => Some (close cur) | _ => None end
      | String "(" (String "?" (String ":" s')) =>
          parse_loop fuel' (cur :: stack) (Frame None [] []) ng s'
      | String "(" s' =>
          parse_loop fuel' (cur :: stack) (Frame (Some (S ng)) [] []) (S ng) s'
      | String ")" s' =>
          match stack with
          | [] => None
          | parent :: stack' =>
              let r := close cur in
              let r := match f_cap cur with
                       | Some i => RGroup i r
                       | None => r
                       end in
              parse_loop fuel' stack' (push r parent) ng s'
          end
      | String "|" s' => parse_loop fuel' stack (next_alt cur) ng s'
      | String "*" (String "?" s') =>
          f ← quantify (RStar false) cur; parse_loop fuel' stack f ng s'
      | String "*" s' =>
          f ← quantify (RStar true) cur; parse_loop fuel' stack f ng s'
      | String "+" s' =>
          f ← quantify rplus cur; parse_loop fuel' stack f ng s'
      | String "?" s' =>
          f ← quantify ropt cur; parse_loop fuel' stack f ng s'
      | String "{" s' =>
          '(lo, hi, s'') ← parse_bounds s';
          f ← quantify (rbounded lo hi) cur; parse_loop fuel' stack f ng s''
      | String "[" (String "\" (String "s" (String "\" (String "S" (String "]" s'))))) =>
          (* a character is a space or is not one: every character *)
          parse_loop fuel' stack (push (RSet true []) cur) ng s'
      | String "[" (String "^" s') =>
          '(items, s'') ← parse_class fuel' s' [];
          parse_loop fuel' stack (push (RSet true items) cur) ng s''
      | String "[" s' =>
          '(items, s'') ← parse_class fuel' s' [];
          parse_loop fuel' stack (push (RSet false items) cur) ng s''
      | String "\" (String c s') =>
          parse_loop fuel' stack (push (escape c) cur) ng s'
      | String "." s' => parse_loop fuel' stack (push RAny cur) ng s'
      | String "^" s' => parse_loop fuel' stack (push RBol cur) ng s'
      | String "$" s' => parse_loop fuel' stack (push REol cur) ng s'
      | String c s' => parse_loop fuel' stack (push (RChar c) cur) ng s'
      end
  end.

(** [re.compile(pattern)]; [None] stands for [re.error]. *)
Definition compile (pattern : string) : option regex :=
  parse_loop (S (String.length pattern)) [] (Frame None [] []) 0%nat pattern.

(** *** Substitution *)

(** The replacement for one match: the text of the template with the
    references [\1] to [\9] replaced by the groups, a group that took no
    part in the match by the empty text. *)
Fixpoint expand (template : string) (m : captures) : string :=
  match template with
  | EmptyString => EmptyString
  | String c t =>
      match t with
      | String d t' =>
          if Ascii.eqb c "\" && Py.is_digit d
          then group_or_empty m (Z.to_nat (Py.digit_val d)) ++ expand t' m
          else String c (expand t m)
      | EmptyString => String c EmptyString
      end
  end.

(** The scan of [re.sub] from a position: the text up to the next match
    is kept, the match is replaced, and the scan goes on behind it; after
    an empty match the next one has to advance. *)
Fixpoint sub_scan (fuel : nat) (multiline : bool) (r : regex) (repl : string)
    (must_advance : bool) (p : option ascii) (s : string) : string :=
  match fuel with
  | O => s
  | S fuel' =>
      match match_end multiline false r must_advance p s with
      | Some st =>
          expand repl (caps st)
          ++ (if (String.length (rest st) =? String.length s)%nat
              then sub_scan fuel' multiline r repl true p s
              else sub_scan fuel' multiline r repl false (prev st) (rest st))
      | None =>
          match s with
          | EmptyString => EmptyString
          | String c s' => String c (sub_scan fuel' multiline r repl false (Some c) s')
          end
      end
  end.

(** [re.sub(pattern, repl, s)], with [flags=re.MULTILINE] when [multiline]. *)
Definition sub (multiline : bool) (pattern repl s : string) : string :=
  match compile pattern with
  | Some r => sub_scan (2 * String.length s + 2) multiline r repl false None s
  | None => s
  end.

(** [re.search(pattern, s)] with the extended syntax. *)
Fixpoint search_from (r : regex) (p : option ascii) (s : string) : option captures :=
  match match_end false false r false p s with
  | Some st => Some (caps st)
  | None =>
      match s with
      | EmptyString => None
      | String c s' => search_from r (Some c) s'
      end
  end.

Definition search (pattern s : string) : option captures :=
  r ← compile pattern; search_from r None s.

(** A match at the start of [s] that has to reach its end. *)
Definition match_all (pattern s : string) : option captures :=
  r ← compile pattern;
  st ← match_end false false r false None s;
  if Py.nonempty (rest st) then None else Some (caps st).

(** Every character of a text passes a test. *)
Fixpoint sall (p : ascii -> bool) (s : string) : bool :=
  match s with
  | EmptyString => true
  | String c s' => p c && sall p s'
  end.

(** Whether every text a pattern matches holds a character that passes
    the test [p], decided from the shape of the pattern. *)
Definition all_ascii : list ascii :=
  map (fun n => ascii_of_nat n) (seq 0 256).

Fixpoint needs (p : ascii -> bool) (r : regex) : bool :=
  match r with
  | RChar c => p c
  | RSet neg items =>
      forallb (fun c => negb (set_has neg items c) || p c) all_ascii
  | RSeq a b => needs p a || needs p b
  | RAlt a b => needs p a && needs p b
  | RGroup _ a => needs p a
  | _ => false
  end.

End ReM.

(** ** main.py: text for speech output *)

(** The backquote. *)
Definition bq : string := String (Py.chr 96) EmptyString.

Definition strip_markdown (text : string) : string :=
  if negb (Py.nonempty text) then text
  else
    (* headers *)
    let text := ReM.sub false "#+\s+" "" text in
    (* bold and italic *)
    let text := ReM.sub false ("\*\*|\*|__|\^|~~|" ++ bq) "" text in
    (* bullet points *)
    let text := ReM.sub true "^\s*[\*\-\+]\s+" "" text in
    (* numbered lists *)
    let text := ReM.sub true "^\s*\d+\.\s+" "" text in
    (* code blocks *)
    let text := ReM.sub false (bq ++ bq ++ bq ++ "[\s\S]*?" ++ bq ++ bq ++ bq) "" text in
    let text := ReM.sub false (bq ++ "([^" ++ bq ++ "]*)" ++ bq) "\1" text in
    (* blockquotes *)
    let text := ReM.sub true "^\s*>\s+" "" text in
    (* horizontal rules *)
    let text := ReM.sub false "\n\s*[\-\*_]{3,}\s*\n" (nl ++ nl) text in
    (* links *)
    let text := ReM.sub false "\[([^\]]+)\]\([^)]+\)" "\1" text in
    (* HTML tags *)
    let text := ReM.sub false "<[^>]*>" "" text in
    (* double spaces *)
    let text := ReM.sub false "\s{2,}" " " text in
    (* multiple newlines *)
    let text := ReM.sub false "\n{3,}" (nl ++ nl) text in
    Py.strip text.

Definition format_response_for_output (text : string) (is_speech : bool) : string :=
  if is_speech then strip_markdown text else text.

(** [f"User: {msg['user']}\nAI: {msg['ai']}"] *)
Definition exchange_text (msg : turn) : string :=
  "User: " ++ t_user msg ++ nl ++ "AI: " ++ t_ai msg.

Definition summary_prompt (conversation_text : string) : string :=
  nl
  ++ "    Summarize the following conversation between a user and an AI assistant in a single paragraph." ++ nl
  ++ "    Focus on the main topics discussed, decisions made, and information gathered." ++ nl
  ++ "    Keep the summary concise but informative." ++ nl
  ++ "    Do not use any markdown formatting (no # or * characters) in your response." ++ nl
  ++ "    " ++ nl
  ++ "    Conversation:" ++ nl
  ++ "    " ++ conversation_text ++ nl
  ++ "    " ++ nl
  ++ "    Summary:" ++ nl
  ++ "    ".

Definition no_history : string := "No conversation history found.".

(** [agent_run prompt] is [agent.run(prompt).content], [None] when the
    call raises. *)
Definition generate_conversation_summary (agent_run : string -> option string)
    (M : memory) (session_id : option string) : string :=
  match session_id ≫= (fun sid => m_conversations M !! sid) with
  | None => no_history
  | Some conversation =>
      if negb (nonnil conversation) then no_history
      else
        let conversation_text := Py.join nl (map exchange_text conversation) in
        match agent_run (summary_prompt conversation_text) with
        | Some summary => strip_markdown summary
        | None =>
            "This conversation included "
            ++ Py.str_int (Z.of_nat (length conversation))
            ++ " exchanges about appointments and scheduling."
        end
  end.

(** ** entity_extractor.py: the person of a short reply *)

Definition person_common_words : list string :=
  ["yes"; "no"; "ok"; "okay"; "sure"; "correct"; "right"; "wrong"; "thanks"; "thank";
   "please"; "maybe"; "not"; "want"; "wanto"; "need"; "check"; "cancel"; "confirm";
   "wait"; "hold"; "stop"; "start"; "change"; "help"; "do"; "don't"; "dont"; "doesn't";
   "doesnt"; "available"; "availability"; "availibility"; "cannot"; "can't"; "cant";
   "schedule"; "appointment"; "booking"; "book"; "make"; "set"; "create"; "i'll"; "ill";
   "meet"; "meeting"; "time"; "date"; "hour"; "minute"; "day"; "month"; "year";
   "ai"; "what"; "who"; "when"; "where"; "why"; "how"; "which"; "that"; "this"; "it"].

(** The block for a text of at most three words: [Some r] when it
    returns [r], [None] when the function goes on to the patterns. *)
Definition short_reply_person (text : string) : option (option string) :=
  if Z.of_nat (length (Py.split text)) <=? 3 then
    let potential_name := Py.strip text in
    let potential_name := Py.strip (ReM.sub false "[^\w\s]" "" potential_name) in
    if Py.mem (Py.lower potential_name) person_common_words then Some None
    else if Py.len potential_name <=? 2 then Some None
    else if Re.found (Re.search "\d{1,2}:\d{2}" potential_name)
            || Re.found (Re.search "\d{1,2}(am|pm)" (Py.lower potential_name))
    then Some None
    else if Py.nonempty potential_name && (1 <? Py.len potential_name)
    then Some (Some (Py.capitalize potential_name))
    else None
  else None.

Definition _extract_person (text : string) : option string :=
  match short_reply_person text with
  | Some r => r
  | None =>
      match Re.search "with\s+([A-Z][a-z]+(?:\s+[A-Z][a-z]+)*)" text with
      | Some with_match => Re.group with_match 1
      | None =>
          match Re.search "of\s+([A-Z][a-z]+(?:\s+[A-Z][a-z]+)*)" text with
          | Some of_match => Re.group of_match 1
          | None => None
          end
      end
  end.

(** The patterns of the substitutions. *)
Definition sub_patterns : list string :=
  ["#+\s+"; "\*\*|\*|__|\^|~~|" ++ bq; "^\s*[\*\-\+]\s+"; "^\s*\d+\.\s+";
   bq ++ bq ++ bq ++ "[\s\S]*?" ++ bq ++ bq ++ bq; bq ++ "([^" ++ bq ++ "]*)" ++ bq;
   "^\s*>\s+"; "\n\s*[\-\*_]{3,}\s*\n"; "\[([^\]]+)\]\([^)]+\)"; "<[^>]*>";
   "\s{2,}"; "\n{3,}"; "[^\w\s]"].

(** A character other than the asterisk, the caret and the backquote. *)
Definition markup_free (c : ascii) : bool :=
  negb (Ascii.eqb c "*" || Ascii.eqb c "^" || Ascii.eqb c (Py.chr 96)).

(** A character that is a letter, a digit, a space or one of the marks
    [. , ! ? ' : ; - ( ) /]. *)
Definition plain_char (c : ascii) : bool :=
  Py.is_alpha c || Py.is_digit c
  || existsb (Ascii.eqb c) (list_ascii_of_string " .,!?':;-()/").

Definition starts_with_letter (s : string) : bool :=
  match s with
  | String c _ => Py.is_alpha c
  | EmptyString => false
  end.

(** A plain sentence: it starts with a letter, is made of plain
    characters, has no two spaces in a row and does not end with one. *)
Definition plain (s : string) : bool :=
  starts_with_letter s && ReM.sall plain_char s
  && negb (Py.contains "  " s) && negb (Py.endswith " " s).

(** The exchanges stored for a session id, none if there is no id or no
    entry. *)
Definition history (M : memory) (session_id : option string) : list turn :=
  match session_id ≫= (fun sid => m_conversations M !! sid) with
  | Some conversation => conversation
  | None => []
  end.

(** A character of a word or a white space: what [[^\w\s]] does not
    match. *)
Definition word_or_space (c : ascii) : bool := Py.is_word c || Py.is_space c.

(** A pattern without groups. *)
Fixpoint no_groups (r : Re.regex) : bool :=
  match r with
  | Re.RGroup _ _ => false
  | Re.RSeq a b | Re.RAlt a b => no_groups a && no_groups b
  | Re.RStar _ a => no_groups a
  | _ => true
  end.

(** ** database.py

    [datetime.strptime] turns a format into a pattern, matches it at the
    start of the text and refuses a text that goes on behind the match;
    the patterns below are the ones it builds for the two formats of the
    program, with numbered groups for its named ones. *)

Definition hm_pattern : string := "(2[0-3]|[0-1]\d|\d):([0-5]\d|\d)".
Definition ymd_pattern : string :=
  "(\d\d\d\d)-(1[0-2]|0[1-9]|[1-9])-(3[0-1]|[1-2]\d|0[1-9]|[1-9]| [1-9])".

(** [datetime.strptime(s, "%H:%M").time()] as hour and minute; [None]
    stands for [ValueError]. *)
Definition strptime_hm (s : string) : option (Z * Z) :=
  m ← ReM.match_all hm_pattern s;
  Some (Py.int (Re.group_or_empty m 1), Py.int (Re.group_or_empty m 2)).

(** [datetime.strptime(s, "%Y-%m-%d").date()] as an ordinal. *)
Definition strptime_ymd (s : string) : option Z :=
  m ← ReM.match_all ymd_pattern s;
  let y := Py.int (Re.group_or_empty m 1) in
  let mo := Py.int (Re.group_or_empty m 2) in
  let d := Py.int (Py.lstrip (Re.group_or_empty m 3)) in
  if Date.valid_ymd y mo d then Some (Date.ymd2ord y mo d) else None.

(** [int(''.join(filter(str.isdigit, time)))]: [ValueError] without a
    digit. *)
Definition int_of_digits (time : string) : option Z :=
  let digits := sfilter Py.is_digit time in
  if Py.nonempty digits then Some (Py.int digits) else None.

(** The conversion of a time given as text, the same in
    [add_appointment], [check_availability] and [cancel_appointment];
    [None] where the method returns [False]. *)
Definition time_obj_of (time : string) : option (Z * Z) :=
  match strptime_hm time with
  | Some time_obj => Some time_obj
  | None =>
      if negb (Py.contains ":" time) then
        if Py.contains "pm" (Py.lower time) then
          hour ← int_of_digits time;
          let hour := if hour <? 12 then hour + 12 else hour in
          strptime_hm (Py.str_int hour ++ ":00")
        else if Py.contains "am" (Py.lower time) then
          hour ← int_of_digits time;
          let hour := if hour =? 12 then 0 else hour in
          strptime_hm (Py.str_int hour ++ ":00")
        else strptime_hm (time ++ ":00")
      else None
  end.

(** The conversion of a date given as text; [dateutil text] is
    [dateutil.parser.parse(text).date()], [None] when it raises. *)
Definition date_obj_of (dateutil : string -> option Z) (date : string) : option Z :=
  match strptime_ymd date with
  | Some date_obj => Some date_obj
  | None => dateutil date
  end.

(** A date or a time as the methods take it: a text, or the object
    itself. *)
Inductive date_arg := DateText (s : string) | DateObj (ordinal : Z).
Inductive time_arg := TimeText (s : string) | TimeObj (hour minute : Z).

Definition to_date_obj (dateutil : string -> option Z) (date : date_arg) : option Z :=
  match date with
  | DateText s => date_obj_of dateutil s
  | DateObj o => Some o
  end.

Definition to_time_obj (time : time_arg) : option (Z * Z) :=
  match time with
  | TimeText s => time_obj_of s
  | TimeObj h m => Some (h, m)
  end.

(** What the connection and the cursor answer during one call of
    [check_availability], in the order of the statements; [Raise] is an
    exception of the statement. *)
Record db_answers := DbAnswers {
  (* self.connection and self.connection.is_connected() *)
  is_connected : bool;
  (* self.connect_with_retry() *)
  connect_with_retry : bool;
  (* dateutil.parser.parse(text).date() *)
  dateutil : string -> option Z;
  (* the number of appointments of the person at the date and time *)
  booked_count : string -> Z -> Z * Z -> py Z;
  (* the number of availability rows of the person *)
  person_rows : string -> py Z;
  (* self.set_default_availability(person), whose result is not used *)
  set_default_availability : string -> py bool;
  (* the number of availability rows of the person that cover the time
     on the day of the week *)
  available_count : string -> Z -> Z * Z -> py Z
}.

Definition check_availability (D : db_answers) (person : string)
    (date : date_arg) (time : time_arg) : bool :=
  if negb (is_connected D) && negb (connect_with_retry D) then false
  else
    match to_date_obj (dateutil D) date with
    | None => false
    | Some date_obj =>
        match to_time_obj time with
        | None => false
        | Some time_obj =>
            let answer : py bool :=
              count ← booked_count D person date_obj time_obj;
              if 0 <? count then Ret false
              else
                rows ← person_rows D person;
                _ ← (if negb (0 <? rows)
                     then set_default_availability D person
                     else Ret true);
                let day_of_week := Date.weekday date_obj in
                available ← available_count D person day_of_week time_obj;
                if 0 <? available then Ret true
                else if (day_of_week <? 5) && (9 <=? time_obj.1) && (time_obj.1 <? 17)
                then Ret true
                else Ret false in
            match answer with
            | Ret b => b
            | Raise => false
            end
        end
    end.

(** All hours and minutes of a day. *)
Definition clock_times : list (Z * Z) :=
  flat_map (fun h => map (fun m => (Z.of_nat h, Z.of_nat m)) (seq 0 60)) (seq 0 24).

Definition hm_regex : Re.regex :=
  Eval vm_compute in
    match ReM.compile hm_pattern with Some r => r | None => Re.REmpty end.

(** A free weekday slot of a database without availability rows that
    cover it. *)
Definition quiet_db : db_answers :=
  DbAnswers true true (fun _ => None) (fun _ _ _ => Ret 0) (fun _ => Ret 3)
            (fun _ => Ret true) (fun _ _ _ => Ret 0).

(** The pattern that matches a text letter by letter. *)
Fixpoint literal (w : string) : Re.regex :=
  match w with
  | EmptyString => Re.REmpty
  | String c EmptyString => Re.RChar c
  | String c w' => Re.RSeq (Re.RChar c) (literal w')
  end.

(** A context in which the person has just been asked for. *)
Definition asking_person_context : gmap string pyval :=
  <["phase" := VStr "asking_person"]>
    (<["intent" := VStr "schedule_appointment"]> ∅).

(** ** Definitions for the statements below *)

(** What the continuation of a successful match was called with, for
    the matcher with flags. *)
Definition ends_at {A} (dotall : bool) (r : Re.regex)
    (m : Re.mstate -> (Re.mstate -> option A) -> option A) : Prop :=
  forall st k res,
    m st k = Some res ->
    exists w st',
      Re.rest st = (w ++ Re.rest st')%string
      /\ Re.sem dotall r (Re.caps st) w (Re.caps st')
      /\ k st' = Some res.

Definition emphasis_regex : Re.regex :=
  Eval vm_compute in
    match ReM.compile ("\*\*|\*|__|\^|~~|" ++ bq) with
    | Some r => r
    | None => Re.REmpty
    end.

(** A text without white space in front. *)
Definition no_lead (s : string) : bool :=
  match s with
  | String c _ => negb (Py.is_space c)
  | EmptyString => true
  end.

Definition bullet_regex : Re.regex :=
  Eval vm_compute in
    match ReM.compile "^\s*[\*\-\+]\s+" with Some r => r | None => Re.REmpty end.

Definition number_regex : Re.regex :=
  Eval vm_compute in
    match ReM.compile "^\s*\d+\.\s+" with Some r => r | None => Re.REmpty end.

Definition spaces_regex : Re.regex :=
  Eval vm_compute in
    match ReM.compile "\s{2,}" with Some r => r | None => Re.REmpty end.

Definition punctuation_regex : Re.regex :=
  Eval vm_compute in
    match ReM.compile "[^\w\s]" with Some r => r | None => Re.REmpty end.

Definition with_regex : Re.regex :=
  Eval vm_compute in
    match Re.compile "with\s+([A-Z][a-z]+(?:\s+[A-Z][a-z]+)*)" with
    | Some r => r
    | None => Re.REmpty
    end.

Definition of_regex : Re.regex :=
  Eval vm_compute in
    match Re.compile "of\s+([A-Z][a-z]+(?:\s+[A-Z][a-z]+)*)" with
    | Some r => r
    | None => Re.REmpty
    end.

(** A text that begins with a capital letter. *)
Definition capitalised (s : string) : bool :=
  match s with
  | String c _ => Py.is_upper c
  | EmptyString => false
  end.

(** * Properties *)

(** ** Patterns *)

(** No pattern of the program is rejected by [Re.compile]: a search that
    finds nothing is a search that ran. *)
Lemma patterns_compile :
  forallb (fun p => match Re.compile p with Some _ => true | None => false end)
          all_patterns = true.
Proof. vm_compute. reflexivity. Qed.

Lemma sapp_assoc (a b c : string) : ((a ++ b) ++ c = a ++ (b ++ c))%string.
Proof.
  induction a as [|x a IH]; [reflexivity|].
  change (String x ((a ++ b) ++ c) = String x (a ++ (b ++ c)))%string.
  f_equal. exact IH.
Qed.

Lemma slength_app (a b : string) :
  String.length (a ++ b) = (String.length a + String.length b)%nat.
Proof.
  induction a as [|x a IH]; [reflexivity|].
  change (S (String.length (a ++ b)) = S (String.length a + String.length b))%nat.
  f_equal. exact IH.
Qed.

Lemma stake_app (a b : string) : Py.stake (String.length a) (a ++ b) = a.
Proof.
  induction a as [|x a IH]; [destruct b; reflexivity|].
  change (String x (Py.stake (String.length a) (a ++ b)) = String x a).
  f_equal. exact IH.
Qed.

Lemma consumed_app (st st1 : Re.mstate) (w : string) :
  Re.rest st = (w ++ Re.rest st1)%string -> Re.consumed st st1 = w.
Proof.
  intros H. unfold Re.consumed. rewrite H, slength_app.
  replace (String.length w + String.length (Re.rest st1)
           - String.length (Re.rest st1))%nat with (String.length w) by lia.
  apply stake_app.
Qed.

Lemma step_sound (p : ascii -> bool) (st : Re.mstate)
    (k : Re.mstate -> option Re.captures) (res : Re.captures) :
  Re.step p st k = Some res ->
  exists c s',
    Re.rest st = String c s' /\ p c = true
    /\ k (Re.MState (Some c) s' (Re.caps st)) = Some res.
Proof.
  unfold Re.step. destruct (Re.rest st) as [|c s']; [discriminate|].
  destruct (p c) eqn:Hp; [|discriminate]. eauto.
Qed.

Lemma star_loop_sound (dotall greedy : bool) (a : Re.regex)
    (body : Re.mstate -> (Re.mstate -> option Re.captures) -> option Re.captures)
    (k : Re.mstate -> option Re.captures) :
  sound_at dotall a body ->
  forall n st res,
    Re.star_loop greedy body k n st = Some res ->
    exists w st',
      Re.rest st = (w ++ Re.rest st')%string
      /\ Re.sem dotall (Re.RStar greedy a) (Re.caps st) w (Re.caps st')
      /\ k st' = Some res.
Proof.
  intros Hbody. induction n as [|n IH]; intros st res H; simpl in H.
  - exists EmptyString, st. repeat split; [constructor|exact H].
  - assert (Hstop : k st = Some res ->
                    exists w st',
                      Re.rest st = (w ++ Re.rest st')%string
                      /\ Re.sem dotall (Re.RStar greedy a) (Re.caps st) w (Re.caps st')
                      /\ k st' = Some res).
    { intros Hk. exists EmptyString, st. repeat split; [constructor|exact Hk]. }
    assert (Hmore : body st (fun st1 =>
                      if (String.length (Re.rest st1) <? String.length (Re.rest st))%nat
                      then Re.star_loop greedy body k n st1 else None) = Some res ->
                    exists w st',
                      Re.rest st = (w ++ Re.rest st')%string
                      /\ Re.sem dotall (Re.RStar greedy a) (Re.caps st) w (Re.caps st')
                      /\ k st' = Some res).
    { intros Hm. apply Hbody in Hm as (w1 & st1 & E1 & S1 & Hk).
      destruct (String.length (Re.rest st1) <? String.length (Re.rest st))%nat;
        [|discriminate].
      apply IH in Hk as (w2 & st2 & E2 & S2 & Hk).
      exists (w1 ++ w2)%string, st2. split; [|split; [|exact Hk]].
      - rewrite E1, E2, sapp_assoc. reflexivity.
      - econstructor; eauto. }
    destruct greedy; unfold Re.orelse in H.
    + destruct (body st _) eqn:Hb; [injection H as ->; auto|auto].
    + destruct (k st) eqn:Hk; [injection H as ->; auto|auto].
Qed.

(** The matcher is sound for the declarative reading of a pattern. *)
Lemma rmatch_sound (dotall : bool) (r : Re.regex) :
  sound_at dotall r (Re.rmatch dotall r).
Proof.
  induction r as [|a| |neg items|a IHa b IHb|a IHa b IHb|g a IHa|i a IHa| | |];
    intros st k res H; simpl in H.
  - exists EmptyString, st. repeat split; [constructor|exact H].
  - apply step_sound in H as (c & s' & E & Hp & Hk). apply Ascii.eqb_eq in Hp. subst c.
    exists (String a EmptyString), (Re.MState (Some a) s' (Re.caps st)).
    repeat split; [exact E|constructor|exact Hk].
  - apply step_sound in H as (c & s' & E & Hp & Hk).
    exists (String c EmptyString), (Re.MState (Some c) s' (Re.caps st)).
    repeat split; [exact E|constructor; exact Hp|exact Hk].
  - apply step_sound in H as (c & s' & E & Hp & Hk).
    exists (String c EmptyString), (Re.MState (Some c) s' (Re.caps st)).
    repeat split; [exact E|constructor; exact Hp|exact Hk].
  - apply IHa in H as (w1 & st1 & E1 & S1 & Hk).
    apply IHb in Hk as (w2 & st2 & E2 & S2 & Hk).
    exists (w1 ++ w2)%string, st2. split; [|split; [|exact Hk]].
    + rewrite E1, E2, sapp_assoc. reflexivity.
    + econstructor; eauto.
  - unfold Re.orelse in H. destruct (Re.rmatch dotall a st k) eqn:Ha.
    + injection H as ->. apply IHa in Ha as (w & st' & E & S & Hk).
      exists w, st'. repeat split; [exact E|apply Re.sem_alt_l; exact S|exact Hk].
    + apply IHb in H as (w & st' & E & S & Hk).
      exists w, st'. repeat split; [exact E|apply Re.sem_alt_r; exact S|exact Hk].
  - apply (star_loop_sound dotall g a (Re.rmatch dotall a) k IHa
             (S (String.length (Re.rest st))) st res).
    exact H.
  - apply IHa in H as (w & st1 & E & S & Hk).
    exists w, (Re.set_cap i st st1). split; [exact E|]. split; [|exact Hk].
    unfold Re.set_cap. cbn [Re.caps]. rewrite (consumed_app st st1 w E).
    constructor. exact S.
  - destruct (Re.prev st); [discriminate|].
    exists EmptyString, st. repeat split; [constructor|exact H].
  - exists EmptyString, st.
    destruct (Re.rest st) as [|c [|c' s']]; try discriminate;
      [|destruct (Ascii.eqb c Re.newline); [|discriminate]];
      repeat split; try constructor; exact H.
  - destruct (xorb _ _); [|discriminate].
    exists EmptyString, st. repeat split; [constructor|exact H].
Qed.

(** A successful search found a part of the text that the pattern can
    match, with the captures of that match. *)
Lemma search_sound (pattern text : string) (m : Re.captures) :
  Re.search pattern text = Some m ->
  exists r pre w post,
    Re.compile pattern = Some r
    /\ text = (pre ++ w ++ post)%string
    /\ Re.sem false r [] w m.
Proof.
  unfold Re.search. destruct (Re.compile pattern) as [r|]; [|discriminate].
  cbn [mbind option_bind]. intros H. exists r.
  assert (Hgen : forall s p, Re.search_from false r p s = Some m ->
                 exists pre w post, s = (pre ++ w ++ post)%string
                                    /\ Re.sem false r [] w m).
  { induction s as [|c s IH]; intros p Hs; simpl in Hs.
    - destruct (Re.match_at false r p EmptyString) eqn:Hm; [|discriminate].
      injection Hs as ->. unfold Re.match_at in Hm.
      apply rmatch_sound in Hm as (w & st' & E & S & Hk). cbn in E, S.
      injection Hk as <-. exists EmptyString, w, (Re.rest st'). split; [exact E|exact S].
    - destruct (Re.match_at false r p (String c s)) eqn:Hm.
      + injection Hs as ->. unfold Re.match_at in Hm.
        apply rmatch_sound in Hm as (w & st' & E & S & Hk). cbn in E, S.
        injection Hk as <-. exists EmptyString, w, (Re.rest st').
        split; [exact E|exact S].
      + apply IH in Hs as (pre & w & post & E & S).
        exists (String c pre), w, post. split; [rewrite E; reflexivity|exact S]. }
  destruct (Hgen text None H) as (pre & w & post & E & S).
  exists pre, w, post. auto.
Qed.

Lemma star_set_caps (d : bool) (r : Re.regex) (c c' : Re.captures) (w : string) :
  Re.sem d r c w c' -> forall g n it, r = Re.RStar g (Re.RSet n it) -> c' = c.
Proof.
  induction 1; intros g0 n0 it0 Hr; try discriminate Hr; [reflexivity|].
  injection Hr as -> ->. inversion H; subst. eapply IHsem2. reflexivity.
Qed.

Lemma set_digit (x : ascii) :
  Re.set_has false [Re.CDigit] x = true -> Py.is_digit x = true.
Proof.
  unfold Re.set_has. cbn [existsb Re.citem_has xorb]. rewrite orb_false_r.
  destruct (Py.is_digit x); [reflexivity|discriminate].
Qed.

Lemma startswith_app (p b : string) : Py.startswith p (p ++ b) = true.
Proof.
  induction p as [|x p IH]; [reflexivity|].
  change (Ascii.eqb x x && Py.startswith p (p ++ b) = true).
  rewrite Ascii.eqb_refl, IH. reflexivity.
Qed.

Lemma contains_intro (a p b : string) : Py.contains p (a ++ p ++ b) = true.
Proof.
  induction a as [|x a IH].
  - change (Py.contains p (p ++ b) = true).
    destruct (p ++ b)%string eqn:E; unfold Py.contains; fold Py.contains;
      rewrite <- E, startswith_app; reflexivity.
  - change (Py.startswith p (String x (a ++ p ++ b))
            || Py.contains p (a ++ p ++ b) = true).
    rewrite IH. apply orb_true_r.
Qed.

Lemma hour12_shape (w : string) (g : Re.captures) :
  Re.sem false hour12_regex [] w g ->
  exists h p a,
    Re.group g 1 = Some h /\ hour_text h = true
    /\ Re.group g 3 = Some p /\ Py.mem p markers = true
    /\ w = (a ++ p)%string.
Proof.
  unfold hour12_regex. intros H. sem_inv.
  all: match goal with
       | H : Re.sem _ (Re.RStar _ _) _ _ _ |- _ =>
           pose proof (star_set_caps _ _ _ _ _ H _ _ _ eq_refl); subst; clear H
       end.
  all: repeat match goal with
              | H : Re.set_has false [Re.CDigit] _ = true |- _ => apply set_digit in H
              end.
  all: eexists _, _, _; split; [reflexivity|]; split;
    [cbv [String.append hour_text];
     repeat match goal with
            | H : Py.is_digit _ = true |- _ => rewrite H; clear H
            end; reflexivity|];
    split; [reflexivity|]; split; [reflexivity|];
    match goal with
    | |- _ = (_ ++ ?P)%string =>
        generalize P; intros; rewrite <- ?sapp_assoc; reflexivity
    end.
Qed.

Lemma simple_hour_shape (w : string) (g : Re.captures) :
  Re.sem false simple_hour_regex [] w g ->
  exists h p a,
    Re.group g 1 = Some h /\ hour_text h = true
    /\ Re.group g 2 = Some p /\ Py.mem p markers = true
    /\ w = (a ++ p)%string.
Proof.
  unfold simple_hour_regex. intros H. sem_inv.
  all: match goal with
       | H : Re.sem _ (Re.RStar _ _) _ _ _ |- _ =>
           pose proof (star_set_caps _ _ _ _ _ H _ _ _ eq_refl); subst; clear H
       end.
  all: repeat match goal with
              | H : Re.set_has false [Re.CDigit] _ = true |- _ => apply set_digit in H
              end.
  all: eexists _, _, _; split; [reflexivity|]; split;
    [cbv [String.append hour_text];
     repeat match goal with
            | H : Py.is_digit _ = true |- _ => rewrite H; clear H
            end; reflexivity|];
    split; [reflexivity|]; split; [reflexivity|];
    match goal with
    | |- _ = (_ ++ ?P)%string =>
        generalize P; intros; rewrite <- ?sapp_assoc; reflexivity
    end.
Qed.

(** A match of either am/pm pattern has an hour group of one or two
    digits and an am/pm marker that occurs in the searched text. *)
Lemma marker_in_text (pre a p post : string) :
  Py.contains p (pre ++ (a ++ p) ++ post) = true.
Proof.
  rewrite sapp_assoc, <- (sapp_assoc pre a). apply contains_intro.
Qed.

Lemma hour12_search (s : string) (g : Re.captures) :
  Re.search EntityExtractor.hour12_pattern s = Some g ->
  hour_text (Re.group_or_empty g 1) = true
  /\ exists p, Re.group g 3 = Some p /\ Py.mem p markers = true
               /\ Py.contains p s = true.
Proof.
  intros H. apply search_sound in H as (r & pre & w & post & Hc & -> & S).
  assert (Hr : Re.compile EntityExtractor.hour12_pattern = Some hour12_regex)
    by (vm_compute; reflexivity).
  rewrite Hr in Hc. injection Hc as <-.
  apply hour12_shape in S as (h & p & a & G1 & Hh & G3 & Hp & ->).
  split; [unfold Re.group_or_empty; rewrite G1; exact Hh|].
  exists p. repeat split; [exact G3|exact Hp|apply marker_in_text].
Qed.

Lemma simple_hour_search (s : string) (g : Re.captures) :
  Re.search EntityExtractor.simple_hour_pattern s = Some g ->
  hour_text (Re.group_or_empty g 1) = true
  /\ exists p, Re.group g 2 = Some p /\ Py.mem p markers = true
               /\ Py.contains p s = true.
Proof.
  intros H. apply search_sound in H as (r & pre & w & post & Hc & -> & S).
  assert (Hr : Re.compile EntityExtractor.simple_hour_pattern = Some simple_hour_regex)
    by (vm_compute; reflexivity).
  rewrite Hr in Hc. injection Hc as <-.
  apply simple_hour_shape in S as (h & p & a & G1 & Hh & G2 & Hp & ->).
  split; [unfold Re.group_or_empty; rewrite G1; exact Hh|].
  exists p. repeat split; [exact G2|exact Hp|apply marker_in_text].
Qed.

(** ** Pattern extractor *)

(** C5. The intent classifier tries the families in the order knowledge,
    check_availability, cancel_appointment, schedule_appointment,
    list_appointments; the first family one of whose patterns matches
    gives the label, and a text that matches no pattern is [unknown]. *)
Theorem identify_intent_precedence (text : string) :
  identify_intent text = intent_by_precedence text.
Proof.
  unfold identify_intent, intent_by_precedence, intent_families.
  cbn [find fst snd].
  repeat match goal with
         | |- context [any_search ?ps ?t] => destruct (any_search ps t)
         end; reflexivity.
Qed.

Example identify_intent_knowledge_first :
  identify_intent "What is my schedule with Bob?" = "knowledge"
  /\ any_search list_appointments_patterns "what is my schedule with bob?" = true.
Proof. split; vm_compute; reflexivity. Qed.

Example identify_intent_availability_before_schedule :
  identify_intent "book a slot when Bob is available with me" = "check_availability"
  /\ any_search schedule_patterns "book a slot when bob is available with me" = true.
Proof. split; vm_compute; reflexivity. Qed.

Example identify_intent_unknown : identify_intent "John" = "unknown".
Proof. vm_compute; reflexivity. Qed.

Lemma days_in_month_le_31 (y m : Z) : Date.days_in_month y m <= 31.
Proof.
  unfold Date.days_in_month.
  repeat match goal with |- context [if ?b then _ else _] => destruct b end; lia.
Qed.

Lemma date_str_accepts (year : string) (midx : Z) (day : string) :
  is_Some (EntityExtractor.date_str year midx day)
  <-> (Py.int day <= 31 /\ 1 <= midx <= 12).
Proof.
  unfold EntityExtractor.date_str.
  destruct (Z.leb_spec (Py.int day) 31), (Z.leb_spec 1 midx),
    (Z.leb_spec midx 12); simpl; split;
    try (intros [? ?]; discriminate); try (intros; lia); eauto.
Qed.

Lemma first_date_feb31 (cy : Z) :
  EntityExtractor.first_date cy "february 31"
    (EntityExtractor.months ++ EntityExtractor.month_abbr)
  = Some (Py.str_int cy ++ "-02-31").
Proof. cbv -[Py.str_int]. reflexivity. Qed.

Lemma first_date_june0 (cy : Z) :
  EntityExtractor.first_date cy "june 0"
    (EntityExtractor.months ++ EntityExtractor.month_abbr)
  = Some (Py.str_int cy ++ "-06-00").
Proof. cbv -[Py.str_int]. reflexivity. Qed.

(** C9. The date extractor checks only that the day is at most 31 and the
    month index between 1 and 12: "february 31" and "june 0" give the
    texts of February 31 and of June 0 of the current year, which are no
    days of the calendar. *)
Theorem extract_date_accepts_invalid_days (E : env) :
  let y := Date.year_of (today E) in
  (forall year midx day,
      is_Some (EntityExtractor.date_str year midx day)
      <-> (Py.int day <= 31 /\ 1 <= midx <= 12))
  /\ EntityExtractor._extract_date E "february 31" = Some (Py.str_int y ++ "-02-31")
  /\ Date.valid_ymd y 2 31 = false
  /\ EntityExtractor._extract_date E "june 0" = Some (Py.str_int y ++ "-06-00")
  /\ Date.valid_ymd y 6 0 = false.
Proof.
  intros y. split; [exact date_str_accepts|].
  split; [apply first_date_feb31|].
  split.
  { unfold Date.valid_ymd.
    assert (H : (31 <=? Date.days_in_month y 2) = false).
    { unfold Date.days_in_month; simpl. destruct (Date.is_leap y); reflexivity. }
    rewrite H. apply andb_false_r. }
  split; [apply first_date_june0|].
  unfold Date.valid_ymd. simpl. rewrite andb_false_r. reflexivity.
Qed.

Lemma fmt02d_two_digits (n : Z) :
  0 <= n < 100 ->
  Py.fmt02d n
  = String (Py.digit_chr (n / 10)) (String (Py.digit_chr (n mod 10)) EmptyString).
Proof.
  intros Hn.
  pose (two := fun k : Z =>
    String (Py.digit_chr (k / 10)) (String (Py.digit_chr (k mod 10)) EmptyString)).
  assert (Hall : forallb (fun k => Py.eqs (Py.fmt02d k) (two k))
                         (map Z.of_nat (seq 0 100)) = true)
    by (vm_compute; reflexivity).
  rewrite forallb_forall in Hall.
  assert (Hin : In n (map Z.of_nat (seq 0 100))).
  { apply in_map_iff. exists (Z.to_nat n). split; [lia|apply in_seq; lia]. }
  apply Hall in Hin. apply String.eqb_eq in Hin. exact Hin.
Qed.

Lemma to_24h_range (hour : Z) (period : string) :
  1 <= hour <= 12 -> 0 <= EntityExtractor.to_24h hour period <= 23.
Proof.
  intros H. unfold EntityExtractor.to_24h.
  destruct (Py.startswith "p" period), (Py.startswith "a" period),
    (Z.ltb_spec hour 12), (Z.eqb_spec hour 12); simpl; lia.
Qed.

Lemma time_of_hour12_spec (g : Re.captures) (t : string) :
  EntityExtractor.time_of_hour12 g = Some t ->
  exists m, 0 <= m <= 59
            /\ 1 <= Py.int (Re.group_or_empty g 1) <= 12
            /\ t = hhmm (EntityExtractor.to_24h (Py.int (Re.group_or_empty g 1))
                                                (Re.group_or_empty g 3)) m.
Proof.
  unfold EntityExtractor.time_of_hour12.
  set (hour := Py.int (Re.group_or_empty g 1)).
  set (minute := match Re.group g 2 with
                 | Some s => if Py.nonempty s then Py.int s else 0
                 | None => 0
                 end).
  destruct (Z.leb_spec 1 hour), (Z.leb_spec hour 12), (Z.leb_spec 0 minute),
    (Z.leb_spec minute 59); simpl; try discriminate.
  intros [= <-].
  pose proof (to_24h_range hour (Re.group_or_empty g 3) ltac:(lia)) as Hh.
  exists minute. repeat split; try lia.
  rewrite !fmt02d_two_digits by lia. reflexivity.
Qed.

Lemma time_of_simple_spec (g : Re.captures) (t : string) :
  EntityExtractor.time_of_simple g = Some t ->
  1 <= Py.int (Re.group_or_empty g 1) <= 12
  /\ t = hhmm (EntityExtractor.to_24h (Py.int (Re.group_or_empty g 1))
                                      (Re.group_or_empty g 2)) 0.
Proof.
  unfold EntityExtractor.time_of_simple.
  set (hour := Py.int (Re.group_or_empty g 1)).
  destruct (Z.leb_spec 1 hour), (Z.leb_spec hour 12); simpl; try discriminate.
  intros [= <-].
  pose proof (to_24h_range hour (Re.group_or_empty g 2) ltac:(lia)) as Hh.
  repeat split; try lia.
  rewrite fmt02d_two_digits by lia. reflexivity.
Qed.

Lemma time_of_hour12_found (s t : string) (g : Re.captures) :
  Re.search EntityExtractor.hour12_pattern s = Some g ->
  EntityExtractor.time_of_hour12 g = Some t ->
  accepted_time s t.
Proof.
  intros Hs Ht.
  destruct (time_of_hour12_spec _ _ Ht) as (m & Hm & Hg & ->).
  destruct (hour12_search _ _ Hs) as (Hd & p & G3 & Hp & Hin).
  assert (Hgp : Re.group_or_empty g 3 = p)
    by (unfold Re.group_or_empty; rewrite G3; reflexivity).
  rewrite Hgp.
  exists (Re.group_or_empty g 1), p, m.
  pose proof (to_24h_range _ p Hg). repeat split; auto; lia.
Qed.

Lemma time_of_simple_found (s t : string) (g : Re.captures) :
  Re.search EntityExtractor.simple_hour_pattern s = Some g ->
  EntityExtractor.time_of_simple g = Some t ->
  accepted_time s t.
Proof.
  intros Hs Ht.
  destruct (time_of_simple_spec _ _ Ht) as (Hg & ->).
  destruct (simple_hour_search _ _ Hs) as (Hd & p & G2 & Hp & Hin).
  assert (Hgp : Re.group_or_empty g 2 = p)
    by (unfold Re.group_or_empty; rewrite G2; reflexivity).
  rewrite Hgp.
  exists (Re.group_or_empty g 1), p, 0.
  pose proof (to_24h_range _ p Hg). repeat split; auto; lia.
Qed.

(** C10. The time extractor returns nothing or a text [HH:MM] of two
    digits each with the hour in 0..23 and the minute in 0..59; a result
    is built from an hour of one or two digits that reads 1 to 12 and from
    an am/pm marker that occurs in the lower-cased text, the hour shown
    being the 24-hour value of that hour and marker; 12 am gives 00:00 and
    12 pm gives 12:00, while 13 pm, 0 am and a bare 15:00 give nothing. *)
Theorem extract_time_format (text : string) :
  match EntityExtractor._extract_time text with
  | None => True
  | Some t => accepted_time (Py.lower text) t
  end
  /\ EntityExtractor._extract_time "12 am" = Some "00:00"
  /\ EntityExtractor._extract_time "12 pm" = Some "12:00"
  /\ EntityExtractor._extract_time "13 pm" = None
  /\ EntityExtractor._extract_time "0 am" = None
  /\ EntityExtractor._extract_time "15:00" = None.
Proof.
  split; [|repeat split; vm_compute; reflexivity].
  unfold EntityExtractor._extract_time.
  destruct (Re.search EntityExtractor.hour12_pattern (Py.lower text))
    as [g1|] eqn:H1; cbn [mbind option_bind Re.orelse].
  - destruct (EntityExtractor.time_of_hour12 g1) as [t|] eqn:Ht; cbn [Re.orelse].
    + exact (time_of_hour12_found _ _ _ H1 Ht).
    + destruct (Re.search EntityExtractor.simple_hour_pattern (Py.lower text))
        as [g2|] eqn:H2; cbn [mbind option_bind]; [|exact I].
      destruct (EntityExtractor.time_of_simple g2) as [t|] eqn:Ht2; [|exact I].
      exact (time_of_simple_found _ _ _ H2 Ht2).
  - destruct (Re.search EntityExtractor.simple_hour_pattern (Py.lower text))
      as [g2|] eqn:H2; cbn [mbind option_bind]; [|exact I].
    destruct (EntityExtractor.time_of_simple g2) as [t|] eqn:Ht2; [|exact I].
    exact (time_of_simple_found _ _ _ H2 Ht2).
Qed.

(** ** Temporal resolver *)

Lemma add_days_in_range (d n : Z) :
  1 <= d -> 0 <= n <= 7 -> d + 7 <= Date.max_ordinal ->
  add_days d n = Ret (d + n).
Proof.
  intros Hd Hn Hmax. unfold add_days, Date.in_range, Date.min_ordinal, Date.max_ordinal in *.
  destruct (Z.leb_spec (Z.abs n) 999999999), (Z.leb_spec 1 (d + n)),
    (Z.leb_spec (d + n) 3652059); simpl; try reflexivity; lia.
Qed.

Lemma days_ahead_range (num d : Z) : 0 <= days_ahead num d < 7.
Proof. unfold days_ahead. apply Z.mod_pos_bound. lia. Qed.

Lemma parse_next_weekday (E : env) (name : string) (num : Z) :
  In (name, num) days_of_week ->
  parse_relative_date E ("next " ++ name)
  = (d ← add_days (today E)
           (if days_ahead num (today E) =? 0 then 7 else days_ahead num (today E));
     Ret (Some d)).
Proof.
  intros H. each_weekday H; cbv -[add_days days_ahead today]; reflexivity.
Qed.

Lemma parse_this_weekday (E : env) (name : string) (num : Z) :
  In (name, num) days_of_week ->
  parse_relative_date E ("this " ++ name)
  = (d ← (if days_ahead num (today E) =? 0 then Ret (today E)
          else if days_ahead num (today E) <? 0
               then add_days (today E) (days_ahead num (today E) + 7)
               else add_days (today E) (days_ahead num (today E)));
     Ret (Some d)).
Proof.
  intros H. each_weekday H; cbv -[add_days days_ahead today]; reflexivity.
Qed.

Lemma parse_bare_weekday (E : env) (name : string) (num : Z) :
  In (name, num) days_of_week ->
  parse_relative_date E name
  = (d ← (if days_ahead num (today E) =? 0 then Ret (today E)
          else if 0 <? days_ahead num (today E)
               then add_days (today E) (days_ahead num (today E))
               else add_days (today E) (days_ahead num (today E) + 7));
     Ret (Some d)).
Proof.
  intros H. each_weekday H; cbv -[add_days days_ahead today]; reflexivity.
Qed.

Lemma weekday_rule (E : env) (name : string) (num : Z) :
  1 <= today E -> today E + 7 <= Date.max_ordinal ->
  In (name, num) days_of_week ->
  let off := (num - Date.weekday (today E)) mod 7 in
  parse_relative_date E ("next " ++ name)
  = Ret (Some (today E + (if off =? 0 then 7 else off)))
  /\ parse_relative_date E ("this " ++ name) = Ret (Some (today E + off))
  /\ parse_relative_date E name = Ret (Some (today E + off)).
Proof.
  intros Hlo Hhi Hin off.
  pose proof (days_ahead_range num (today E)) as Hr.
  fold (days_ahead num (today E)) in off. subst off.
  rewrite (parse_next_weekday E name num Hin),
    (parse_this_weekday E name num Hin), (parse_bare_weekday E name num Hin).
  destruct (Z.eqb_spec (days_ahead num (today E)) 0) as [H0|H0].
  - rewrite H0, Z.add_0_r, add_days_in_range by lia. repeat split; reflexivity.
  - destruct (Z.ltb_spec (days_ahead num (today E)) 0); [lia|].
    destruct (Z.ltb_spec 0 (days_ahead num (today E))); [|lia].
    rewrite add_days_in_range by lia. repeat split; reflexivity.
Qed.

(** C6. With the calendar a week away from its end: "next <weekday>"
    resolves to today plus (weekday - today's weekday) mod 7 days, or plus 7
    when that is 0; "this <weekday>" and the bare weekday resolve to today
    plus that offset, which is today itself when the offset is 0.  On a
    Wednesday "next Monday" is today + 5 and "Monday" resolves to the
    same date. *)
Theorem weekday_resolution (E : env) :
  1 <= today E -> today E + 7 <= Date.max_ordinal ->
  Forall (fun day : string * Z =>
            let off := (day.2 - Date.weekday (today E)) mod 7 in
            parse_relative_date E ("next " ++ day.1)
            = Ret (Some (today E + (if off =? 0 then 7 else off)))
            /\ parse_relative_date E ("this " ++ day.1)
               = Ret (Some (if off =? 0 then today E else today E + off))
            /\ parse_relative_date E day.1
               = Ret (Some (if off =? 0 then today E else today E + off)))
         days_of_week
  /\ (Date.weekday (today E) = 2 ->
      parse_relative_date E "next Monday" = Ret (Some (today E + 5))
      /\ parse_relative_date E "Monday" = parse_relative_date E "next Monday").
Proof.
  intros Hlo Hhi. split.
  - apply Forall_forall. intros [name num] Hin. cbn [fst snd].
    apply list_elem_of_In in Hin.
    destruct (weekday_rule E name num Hlo Hhi Hin) as (Hn & Ht & Hb).
    rewrite Hn, Ht, Hb.
    destruct (Z.eqb_spec ((num - Date.weekday (today E)) mod 7) 0) as [->|_];
      rewrite ?Z.add_0_r; repeat split; reflexivity.
  - intros Hwed.
    assert (Hin : In ("monday", 0) days_of_week) by (left; reflexivity).
    destruct (weekday_rule E "monday" 0 Hlo Hhi Hin) as (Hn & _ & Hb).
    rewrite Hwed in Hn, Hb. change ((0 - 2) mod 7) with 5 in Hn, Hb.
    change (5 =? 0) with false in Hn. cbn iota in Hn.
    assert (Hl1 : parse_relative_date E "next Monday"
                  = parse_relative_date E "next monday") by reflexivity.
    assert (Hl2 : parse_relative_date E "Monday"
                  = parse_relative_date E "monday") by reflexivity.
    rewrite Hl1, Hl2. change ("next " ++ "monday") with "next monday" in Hn.
    rewrite Hn, Hb. split; reflexivity.
Qed.

Lemma weekday_resolution_witness :
  Date.weekday (today wednesday_env) = 2
  /\ parse_relative_date wednesday_env "next Monday" = Ret (Some 739929)
  /\ parse_relative_date wednesday_env "Monday" = Ret (Some 739929)
  /\ parse_relative_date wednesday_env "this wednesday" = Ret (Some 739924)
  /\ parse_relative_date wednesday_env "next wednesday" = Ret (Some 739931).
Proof.
  assert (Hlo : 1 <= today wednesday_env) by (simpl; lia).
  assert (Hhi : today wednesday_env + 7 <= Date.max_ordinal)
    by (unfold Date.max_ordinal; simpl; lia).
  destruct (weekday_resolution wednesday_env Hlo Hhi) as [Hall Hwed].
  assert (Hw : Date.weekday (today wednesday_env) = 2) by reflexivity.
  destruct (Hwed Hw) as [Hn Hb].
  split; [exact Hw|]. split; [exact Hn|]. split; [rewrite Hb; exact Hn|].
  rewrite Forall_forall in Hall.
  assert (Hin : ("wednesday", 2) ∈ days_of_week)
    by (apply list_elem_of_In; right; right; left; reflexivity).
  destruct (Hall _ Hin) as (H1 & H2 & _).
  split; [exact H2|exact H1].
Defined.

(** ** Slot merger *)

Lemma eqs_false_ne (a b : string) : Py.eqs a b = false -> a <> b.
Proof. unfold Py.eqs. apply String.eqb_neq. Qed.

Lemma classify_person (text : string) (ctx : gmap string pyval) :
  classify text ctx !! "person" = ctx !! "person".
Proof.
  unfold classify.
  repeat case_match; rewrite ?lookup_delete_ne, ?lookup_insert_ne by done; done.
Qed.

Lemma merge_slot_person (key : string) (value : option string)
    (ctx : gmap string pyval) :
  merge_slot true key value ctx !! "person" = ctx !! "person".
Proof.
  unfold merge_slot. destruct value as [v|]; [|done].
  destruct (Py.eqs key "person") eqn:Hk; simpl.
  - repeat case_match; done.
  - apply eqs_false_ne in Hk.
    repeat case_match; rewrite ?lookup_insert_ne by done; done.
Qed.

Lemma merge_ai_slot_person (ai : gmap string pyval) (ctx : gmap string pyval)
    (key : string) :
  merge_ai_slot true ai ctx key !! "person" = ctx !! "person".
Proof.
  unfold merge_ai_slot. destruct (ai !! key) as [v|]; [|done].
  destruct (Py.eqs key "person") eqn:Hk; simpl.
  - repeat case_match; done.
  - apply eqs_false_ne in Hk.
    repeat case_match; rewrite ?lookup_insert_ne by done; done.
Qed.

Lemma merge_ai_person (ai : gmap string pyval) (missing : list string)
    (ctx : gmap string pyval) :
  merge_ai true ai missing ctx !! "person" = ctx !! "person".
Proof.
  unfold merge_ai. revert ctx.
  induction missing as [|key missing IH]; intros ctx; simpl; [done|].
  rewrite IH. apply merge_ai_slot_person.
Qed.

Lemma person_locked_true (ctx : gmap string pyval) (p : pyval) :
  ctx !! "person" = Some p -> p <> VNone ->
  in_strs (get ctx "phase") person_phases = false ->
  person_locked (get ctx "person") (get ctx "phase") = true.
Proof.
  intros Hp Hn Hphase. unfold person_locked, get at 1. rewrite Hp, Hphase. simpl.
  destruct p; simpl; congruence.
Qed.

Lemma merged_context_keeps_person (E : env) (text : string)
    (ctx ctx' : gmap string pyval) (p : pyval) :
  ctx !! "person" = Some p -> p <> VNone ->
  in_strs (get ctx "phase") person_phases = false ->
  merged_context E text ctx = Ret ctx' ->
  ctx' !! "person" = Some p.
Proof.
  intros Hp Hn Hphase. unfold merged_context, merge_extracted.
  rewrite (person_locked_true ctx p Hp Hn Hphase).
  destruct (extract_entities E text) as [ents|]; cbn [mbind py_bind]; [|discriminate].
  destruct (interpret_name text (classify text ctx) ents
              (missing_for ents (classify text ctx))) as [ents' missing].
  cbn [mbind py_bind]. intros [= <-].
  assert (Hm : merge_entities true ents' (classify text ctx) !! "person" = Some p).
  { unfold merge_entities. rewrite !merge_slot_person, classify_person. exact Hp. }
  destruct (nonnil missing); [rewrite merge_ai_person|]; exact Hm.
Qed.

(** The guard of [handle_appointment_query].  When the context holds a
    person that is not None and the phase at the start of the turn is none
    of init, asking_person, asking_person_cancel and asking_person_check,
    the merge of the extractor's and of the AI fallback's entities leaves
    context["person"] as it was; so "Dr. Smith" stays through a turn whose
    text has the noisy word "available", whatever the AI fallback
    answers. *)
Theorem confirmed_person_not_overwritten (E : env) (text : string)
    (ctx : gmap string pyval) (p : pyval) :
  ctx !! "person" = Some p -> p <> VNone ->
  in_strs (get ctx "phase") person_phases = false ->
  match merged_context E text ctx with
  | Ret ctx' => ctx' !! "person" = Some p
  | Raise => True
  end
  /\ extract_entities E "anybody available?"
     = Ret (Entities (Some "Anybody") None None)
  /\ exists ctx',
       merged_context E "anybody available?" smith_asking_date = Ret ctx'
       /\ ctx' !! "person" = Some (VStr "Dr. Smith").
Proof.
  intros Hp Hn Hphase. split.
  - destruct (merged_context E text ctx) as [ctx'|] eqn:Hm; [|exact I].
    eapply merged_context_keeps_person; eauto.
  - assert (He : extract_entities E "anybody available?"
                 = Ret (Entities (Some "Anybody") None None))
      by (vm_compute; reflexivity).
    split; [exact He|].
    destruct (merged_context E "anybody available?" smith_asking_date)
      as [ctx'|] eqn:Hm.
    + exists ctx'. split; [reflexivity|].
      apply (merged_context_keeps_person E "anybody available?"
               smith_asking_date ctx' (VStr "Dr. Smith"));
        [reflexivity|discriminate|reflexivity|exact Hm].
    + unfold merged_context, merge_extracted in Hm. rewrite He in Hm.
      cbn [mbind py_bind] in Hm.
      destruct (interpret_name _ _ _ _) in Hm. discriminate Hm.
Qed.

Lemma confirmed_person_not_overwritten_witness :
  smith_asking_date !! "person" = Some (VStr "Dr. Smith")
  /\ in_strs (get smith_asking_date "phase") person_phases = false
  /\ match merged_context wednesday_env "maybe available at 3pm" smith_asking_date with
     | Ret ctx' => ctx' !! "person" = Some (VStr "Dr. Smith")
     | Raise => True
     end.
Proof.
  assert (Hp : smith_asking_date !! "person" = Some (VStr "Dr. Smith"))
    by (vm_compute; reflexivity).
  assert (Hn : VStr "Dr. Smith" <> VNone) by discriminate.
  assert (Hphase : in_strs (get smith_asking_date "phase") person_phases = false)
    by (vm_compute; reflexivity).
  split; [exact Hp|]. split; [exact Hphase|].
  pose proof (confirmed_person_not_overwritten wednesday_env
                "maybe available at 3pm" smith_asking_date (VStr "Dr. Smith")
                Hp Hn Hphase) as [H _].
  exact H.
Defined.

Example noisy_reply_keeps_person :
  extract_entities wednesday_env "maybe available at 3pm"
  = Ret (Entities (Some "Maybe") None (Some "15:00"))
  /\ (ctx ← merged_context wednesday_env "maybe available at 3pm" smith_asking_date;
      Ret (get ctx "person", get ctx "time"))
     = Ret (VStr "Dr. Smith", VStr "15:00").
Proof. split; vm_compute; reflexivity. Qed.

(** C2, as the code runs.  The guard is in [handle_appointment_query]
    only.  [process_message] reads the person at the start of the turn and
    never uses it: when the classifier finds another appointment intent in
    the message it builds a new context and writes the extractor's person
    into it.  With "Dr. Smith" confirmed at asking_date, the message
    "is anybody available?" ends with the person "Anybody", whatever the
    collaborators answer; the same message handed to
    [handle_appointment_query] keeps "Dr. Smith". *)
Theorem entry_point_overwrites_person (E : env) :
  smith_asking_date !! "person" = Some (VStr "Dr. Smith")
  /\ in_strs (get smith_asking_date "phase") person_phases = false
  /\ identify_intent "is anybody available?" = "check_availability"
  /\ extract_entities E "is anybody available?"
     = Ret (Entities (Some "Anybody") None None)
  /\ process_message E "is anybody available?" smith_asking_date
     = Ret (Reply "For which date would you like to check Anybody's availability?"
              (Some (<["person" := VStr "Anybody"]>
                       (<["phase" := VStr "asking_date_check"]>
                          (<["intent" := VStr "check_availability"]> ∅))))
              [])
  /\ replied_person
       (handle_appointment_query E "is anybody available?" smith_asking_date)
     = Ret (Some (VStr "Dr. Smith")).
Proof.
  split; [reflexivity|]. split; [reflexivity|].
  split; [vm_compute; reflexivity|]. split; [vm_compute; reflexivity|].
  split; vm_compute; reflexivity.
Qed.

(** ** Dialogue state machine *)

(** C3, as the code runs.  At showing_availability with Dr. Smith and
    2025-06-10 the reply "2:00 pm works" leaves the intent
    check_availability and the phase showing_availability and lists the
    times again; only the slot merger stores the time 14:00. *)
Theorem time_reply_keeps_availability_intent (E : env) :
  handle_appointment_query E "2:00 pm works" smith_showing_availability
  = Ret (Reply
           ("Dr. Smith is available on 2025-06-10 at the following times: "
            ++ times_str)
           (Some (<["time" := VStr "14:00"]> smith_showing_availability)) [])
  /\ get (<["time" := VStr "14:00"]> smith_showing_availability) "intent"
     = VStr "check_availability"
  /\ get (<["time" := VStr "14:00"]> smith_showing_availability) "phase"
     = VStr "showing_availability"
  /\ process_appointment_intent E "2:00 pm works" smith_showing_availability
     = Ret ("Dr. Smith is available on 2025-06-10 at the following times: "
            ++ times_str, smith_showing_availability).
Proof. repeat split; vm_compute; reflexivity. Qed.

(** ** AI fallback extractor *)

Lemma all_none_lookup (missing : list string) (k : string) (v : pyval) :
  all_none missing !! k = Some v -> v = VNone.
Proof.
  unfold all_none. induction missing as [|e missing IH]; simpl.
  - rewrite lookup_empty. discriminate.
  - destruct (decide (e = k)) as [->|Hne].
    + rewrite lookup_insert_eq. congruence.
    + rewrite lookup_insert_ne by done. exact IH.
Qed.

Lemma all_none_covers (missing : list string) (e : string) :
  In e missing -> all_none missing !! e = Some VNone.
Proof.
  unfold all_none. induction missing as [|e' missing IH]; simpl; [tauto|].
  intros [->|Hin].
  - apply lookup_insert_eq.
  - destruct (decide (e' = e)) as [->|Hne].
    + apply lookup_insert_eq.
    + rewrite lookup_insert_ne by done. auto.
Qed.

Lemma fill_missing_lookup (missing : list string) (r : gmap string pyval)
    (k : string) (v : pyval) :
  fill_missing missing r !! k = Some v -> r !! k = Some v \/ v = VNone.
Proof.
  induction missing as [|e missing IH]; simpl; [auto|].
  destruct (fill_missing missing r !! e) eqn:He; [exact IH|].
  destruct (decide (e = k)) as [->|Hne].
  - rewrite lookup_insert_eq. intros [= <-]. auto.
  - rewrite lookup_insert_ne by done. exact IH.
Qed.

Lemma fill_missing_keeps (missing : list string) (r : gmap string pyval)
    (k : string) (v : pyval) :
  r !! k = Some v -> fill_missing missing r !! k = Some v.
Proof.
  intros Hr. induction missing as [|e missing IH]; simpl; [exact Hr|].
  destruct (fill_missing missing r !! e) eqn:He; [exact IH|].
  destruct (decide (e = k)) as [->|Hne]; [congruence|].
  rewrite lookup_insert_ne by done. exact IH.
Qed.

Lemma fill_missing_covers (missing : list string) (r : gmap string pyval)
    (e : string) :
  In e missing -> is_Some (fill_missing missing r !! e).
Proof.
  induction missing as [|e' missing IH]; simpl; [tauto|].
  intros [->|Hin].
  - destruct (fill_missing missing r !! e) eqn:He; [rewrite He; eauto|].
    rewrite lookup_insert_eq. eauto.
  - destruct (fill_missing missing r !! e') eqn:He; [auto|].
    destruct (decide (e' = e)) as [->|Hne].
    + rewrite lookup_insert_eq. eauto.
    + rewrite lookup_insert_ne by done. auto.
Qed.

Lemma sanitize_all_lookup (m r : gmap string pyval) (k : string) (v : pyval) :
  sanitize_all m = Ret r -> r !! k = Some v ->
  exists v0, m !! k = Some v0 /\ sanitize k v0 = Ret v.
Proof.
  unfold sanitize_all. destruct (forallb sanitize_ok (map_to_list m)); [|discriminate].
  intros [= <-]. rewrite map_lookup_imap.
  destruct (m !! k) as [v0|]; simpl; [|discriminate].
  unfold sanitize_opt. destruct (sanitize k v0) eqn:Hs; [|discriminate].
  intros [= <-]. eauto.
Qed.

(** Where a value of the result comes from: it is None, or a cleaned value
    of the decoded response. *)
Lemma ai_value_origin (E : env) (text : string) (missing : list string)
    (k : string) (v : pyval) :
  extract_entities_with_ai E text missing !! k = Some v ->
  v = VNone \/ exists v0, sanitize k v0 = Ret v.
Proof.
  unfold extract_entities_with_ai.
  destruct (extract_body E text missing) as [r|] eqn:Hb.
  - unfold extract_body in Hb.
    destruct (agent_extract E text missing) as [resp|]; [|discriminate].
    cbn zeta in Hb.
    destruct (match json_loads E (clean_json (Py.strip resp)) with
              | JSONDecodeError => _ | JObject m => _ | JNotObject => _ end)
      as [m|]; cbn [mbind py_bind] in Hb; [|discriminate].
    destruct (sanitize_all m) as [r'|] eqn:Hs; cbn [mbind py_bind] in Hb;
      [|discriminate].
    injection Hb as <-. intros Hl.
    apply fill_missing_lookup in Hl as [Hl | ->]; [|auto].
    right. destruct (sanitize_all_lookup _ _ _ _ Hs Hl) as (v0 & _ & Hv0). eauto.
  - intros Hl. left. eapply all_none_lookup; eauto.
Qed.

Lemma denull_cases (v : pyval) :
  denull v = VNone
  \/ (denull v = v /\ forall s, v = VStr s -> Py.mem (Py.lower s) null_words = false).
Proof.
  destruct v as [|s|t r]; unfold denull;
    [auto| |right; split; [done|discriminate]].
  destruct (Py.mem (Py.lower s) null_words) eqn:Hm; [auto|].
  right. split; [done|]. intros s' [= <-]. exact Hm.
Qed.

Lemma first_available_facts :
  Py.mem (Py.lower "first available") null_words = false
  /\ looks_like_date (VStr "first available") = false.
Proof. split; vm_compute; reflexivity. Qed.

(** What one cleaning step can return. *)
Lemma sanitize_cases (k : string) (v w : pyval) :
  sanitize k v = Ret w ->
  w = VNone
  \/ (w = VStr "first available" /\ Py.eqs k "time" = true)
  \/ (w = denull v
      /\ (Py.eqs k "date" = true -> looks_like_time w = false)
      /\ (Py.eqs k "time" = true ->
          looks_like_date w = false
          /\ forall s, w = VStr s -> is_flexible (Py.lower s) = false)).
Proof.
  unfold sanitize. cbv zeta. set (v1 := denull v).
  destruct (Py.eqs k "date") eqn:Hd; destruct (Py.eqs k "time") eqn:Ht;
    cbn [andb negb].
  - unfold Py.eqs in *. apply String.eqb_eq in Hd, Ht. congruence.
  - destruct (is_none v1) eqn:Hn; cbn [andb negb].
    + destruct v1; try discriminate. intros [= <-]. auto.
    + destruct (looks_like_time v1) eqn:Hl; intros [= <-]; [auto|].
      right; right. split; [done|]. split; [auto|discriminate].
  - destruct (is_none v1) eqn:Hn; cbn [andb negb].
    + destruct v1; try discriminate. intros [= <-]. auto.
    + destruct (looks_like_date v1) eqn:Hl; [intros [= <-]; auto|].
      destruct (truthy v1) eqn:Htr.
      * destruct v1 as [|s|t r]; cbn [lower_of mbind py_bind]; try discriminate.
        destruct (is_flexible (Py.lower s)) eqn:Hf; intros [= <-]; [auto|].
        right; right. split; [done|]. split; [discriminate|].
        intros _. split; [exact Hl|]. intros s' [= <-]. exact Hf.
      * intros [= <-]. right; right. split; [done|]. split; [discriminate|].
        intros _. split; [exact Hl|].
        intros s' ->. cbn [truthy] in Htr. destruct s'; [reflexivity|discriminate].
  - intros [= <-]. right; right. split; [done|].
    split; discriminate.
Qed.

Lemma sanitize_none (k : string) : sanitize k VNone = Ret VNone.
Proof.
  unfold sanitize. cbv zeta. cbn [denull is_none negb].
  destruct (Py.eqs k "date"), (Py.eqs k "time"); reflexivity.
Qed.

Lemma regex_fallback_none (json_str : string) (missing : list string)
    (r : gmap string pyval) (e : string) :
  regex_fallback json_str missing = Ret r -> In e missing ->
  Re.search (entity_pattern e) json_str = None ->
  r !! e = Some VNone.
Proof.
  revert r. induction missing as [|e0 missing IH]; intros r; simpl; [tauto|].
  destruct (Re.compile (entity_pattern e0)) as [r0|] eqn:Hc; [|discriminate].
  destruct (regex_fallback json_str missing) as [r1|]; cbn [mbind py_bind];
    [|discriminate].
  intros [= <-] Hin Hs. destruct (decide (e0 = e)) as [->|Hne].
  - rewrite lookup_insert_eq. unfold Re.search in Hs. rewrite Hc in Hs.
    cbn [mbind option_bind] in Hs. rewrite Hs. reflexivity.
  - rewrite lookup_insert_ne by done. destruct Hin as [?|Hin]; [done|]. auto.
Qed.

Lemma sanitize_all_none (m r : gmap string pyval) (k : string) :
  sanitize_all m = Ret r -> m !! k = Some VNone -> r !! k = Some VNone.
Proof.
  unfold sanitize_all. destruct (forallb sanitize_ok (map_to_list m)); [|discriminate].
  intros [= <-] Hm. rewrite map_lookup_imap, Hm. simpl.
  unfold sanitize_opt. rewrite sanitize_none. reflexivity.
Qed.

(** What the result of the AI fallback never holds, and what it is when
    the call fails. *)
Lemma ai_fallback_clean (E : env) (text : string) (missing : list string) :
  let out := extract_entities_with_ai E text missing in
  (forall k s, out !! k = Some (VStr s) -> Py.mem (Py.lower s) null_words = false)
  /\ (forall v, out !! "date" = Some v -> v <> VNone -> looks_like_time v = false)
  /\ (forall v, out !! "time" = Some v -> v <> VNone -> looks_like_date v = false)
  /\ (forall s, out !! "time" = Some (VStr s) ->
                is_flexible (Py.lower s) = true -> s = "first available")
  /\ (forall e, In e missing -> is_Some (out !! e))
  /\ (agent_extract E text missing = None -> out = all_none missing)
  /\ (forall resp,
        agent_extract E text missing = Some resp ->
        json_loads E (clean_json (Py.strip resp)) = JNotObject ->
        out = all_none missing)
  /\ (forall resp e,
        agent_extract E text missing = Some resp ->
        json_loads E (clean_json (Py.strip resp)) = JSONDecodeError ->
        In e missing ->
        Re.search (entity_pattern e) (clean_json (Py.strip resp)) = None ->
        out !! e = Some VNone)
  /\ (forall e, In e missing -> all_none missing !! e = Some VNone).
Proof.
  intros out. subst out.
  destruct first_available_facts as [Hfa1 Hfa2].
  split; [|split; [|split; [|split; [|split; [|split; [|split; [|split]]]]]]].
  - intros k s Hl. destruct (ai_value_origin _ _ _ _ _ Hl) as [|[v0 Hs]];
      [discriminate|].
    destruct (sanitize_cases _ _ _ Hs) as [|[[[= ->] _]|[Hw _]]];
      [discriminate|exact Hfa1|].
    destruct (denull_cases v0) as [Hn|[Hn Hp]]; [congruence|].
    apply Hp. congruence.
  - intros v Hl Hv. destruct (ai_value_origin _ _ _ _ _ Hl) as [|[v0 Hs]]; [done|].
    destruct (sanitize_cases _ _ _ Hs) as [|[[_ Hk]|[_ [Hd _]]]];
      [done|discriminate|auto].
  - intros v Hl Hv. destruct (ai_value_origin _ _ _ _ _ Hl) as [|[v0 Hs]]; [done|].
    destruct (sanitize_cases _ _ _ Hs) as [|[[-> _]|[_ [_ Ht]]]];
      [done|exact Hfa2|].
    apply Ht. reflexivity.
  - intros s Hl Hf. destruct (ai_value_origin _ _ _ _ _ Hl) as [|[v0 Hs]];
      [discriminate|].
    destruct (sanitize_cases _ _ _ Hs) as [|[[[= ->] _]|[_ [_ Ht]]]];
      [discriminate|reflexivity|].
    destruct (Ht eq_refl) as [_ Hnf]. rewrite (Hnf s eq_refl) in Hf. discriminate.
  - intros e Hin. unfold extract_entities_with_ai.
    destruct (extract_body E text missing) as [r|] eqn:Hb.
    + unfold extract_body in Hb.
      destruct (agent_extract E text missing); [|discriminate]. cbn zeta in Hb.
      destruct (match json_loads E _ with
                | JSONDecodeError => _ | JObject m => _ | JNotObject => _ end)
        as [m|]; cbn [mbind py_bind] in Hb; [|discriminate].
      destruct (sanitize_all m); cbn [mbind py_bind] in Hb; [|discriminate].
      injection Hb as <-. apply fill_missing_covers, Hin.
    + rewrite all_none_covers by done. eauto.
  - intros Ha. unfold extract_entities_with_ai, extract_body. rewrite Ha. reflexivity.
  - intros resp Ha Hj. unfold extract_entities_with_ai, extract_body.
    rewrite Ha. cbn zeta. rewrite Hj. reflexivity.
  - intros resp e Ha Hj Hin Hs. unfold extract_entities_with_ai, extract_body.
    rewrite Ha. cbn zeta. rewrite Hj.
    destruct (regex_fallback (clean_json (Py.strip resp)) missing) as [r0|] eqn:Hr;
      cbn [mbind py_bind]; [|apply all_none_covers, Hin].
    destruct (sanitize_all r0) as [r1|] eqn:Hsa; cbn [mbind py_bind];
      [|apply all_none_covers, Hin].
    apply fill_missing_keeps. eapply sanitize_all_none; [exact Hsa|].
    eapply regex_fallback_none; eauto.
  - intros e Hin. apply all_none_covers, Hin.
Qed.

Lemma extract_body_decoded (E : env) (text : string) (missing : list string) :
  extract_body E text missing
  = match decoded E text missing with
    | Some m => result ← sanitize_all m; Ret (fill_missing missing result)
    | None => Raise
    end.
Proof.
  unfold extract_body, decoded.
  destruct (agent_extract E text missing) as [resp|]; [|reflexivity].
  cbv zeta. destruct (json_loads E (clean_json (Py.strip resp))); [|reflexivity..].
  destruct (regex_fallback (clean_json (Py.strip resp)) missing); reflexivity.
Qed.

(** A cleaning step raises only on a time that is neither a string nor
    None and does not look like a date. *)
Lemma sanitize_raise (k : string) (v : pyval) :
  sanitize k v = Raise ->
  k = "time" /\ looks_like_date v = false /\ exists t r, v = VOther t r.
Proof.
  unfold sanitize. cbv zeta.
  destruct (Py.eqs k "time") eqn:Ht; cbn [andb].
  2:{ discriminate. }
  apply String.eqb_eq in Ht. subst k. cbn [Py.eqs String.eqb Ascii.eqb Bool.eqb andb].
  destruct v as [|s|t r]; cbn [denull].
  - cbn [is_none negb]. discriminate.
  - destruct (Py.mem (Py.lower s) null_words); cbn [is_none negb]; [discriminate|].
    destruct (looks_like_date (VStr s)); cbn [truthy]; [discriminate|].
    destruct (Py.nonempty s); cbn [lower_of mbind py_bind]; discriminate.
  - cbn [is_none negb].
    destruct (looks_like_date (VOther t r)) eqn:Hl; cbn [truthy]; [discriminate|].
    intros _. eauto.
Qed.

Lemma forallb_false_elim {A} (f : A -> bool) (l : list A) :
  forallb f l = false -> exists x, In x l /\ f x = false.
Proof.
  induction l as [|a l IH]; [discriminate|].
  cbn [forallb]. destruct (f a) eqn:Ha; cbn [andb].
  - intros H. destruct (IH H) as (x & Hin & Hx). exists x. split; [right; exact Hin|exact Hx].
  - intros _. exists a. split; [left; reflexivity|exact Ha].
Qed.

Lemma sanitize_all_forward (m : gmap string pyval) (k : string) (v : pyval) :
  m !! k = Some v ->
  match sanitize_all m with
  | Ret r => exists w, sanitize k v = Ret w /\ r !! k = Some w
  | Raise => exists v', m !! "time" = Some v' /\ sanitize "time" v' = Raise
  end.
Proof.
  intros Hm. unfold sanitize_all.
  destruct (forallb sanitize_ok (map_to_list m)) eqn:Hall.
  - rewrite forallb_forall in Hall.
    assert (Hok : sanitize_ok (k, v) = true).
    { apply Hall. apply list_elem_of_In, elem_of_map_to_list. exact Hm. }
    unfold sanitize_ok in Hok. cbn [fst snd] in Hok.
    destruct (sanitize k v) as [w|] eqn:Hs; [|discriminate].
    exists w. split; [reflexivity|].
    rewrite map_lookup_imap, Hm. cbn. unfold sanitize_opt. rewrite Hs. reflexivity.
  - apply forallb_false_elim in Hall.
    destruct Hall as ([k' v'] & Hin & Hbad).
    apply list_elem_of_In, elem_of_map_to_list in Hin.
    unfold sanitize_ok in Hbad. cbn [fst snd] in Hbad.
    destruct (sanitize k' v') eqn:Hs; [discriminate|].
    destruct (sanitize_raise _ _ Hs) as [-> _]. eauto.
Qed.

Lemma null_word_sanitized (k s : string) :
  Py.mem (Py.lower s) null_words = true -> sanitize k (VStr s) = Ret VNone.
Proof.
  intros Hn. unfold sanitize. cbv zeta. cbn [denull]. rewrite Hn.
  cbn [is_none negb]. rewrite !andb_false_r. reflexivity.
Qed.

Lemma timelike_date_sanitized (v : pyval) :
  looks_like_time v = true -> sanitize "date" v = Ret VNone.
Proof.
  intros Hl. unfold sanitize. cbv zeta.
  change (Py.eqs "date" "date") with true. change (Py.eqs "date" "time") with false.
  cbn [andb].
  destruct v as [|s|t r]; cbn [denull]; [reflexivity| |].
  - destruct (Py.mem (Py.lower s) null_words); [reflexivity|].
    cbn [is_none negb]. rewrite Hl. reflexivity.
  - cbn [is_none negb]. rewrite Hl. reflexivity.
Qed.


Lemma null_word_not_flexible (s : string) :
  Py.mem (Py.lower s) null_words = true -> is_flexible (Py.lower s) = false.
Proof.
  unfold null_words, Py.mem. cbn [existsb]. rewrite orb_false_r. unfold Py.eqs.
  intros H. apply orb_true_iff in H as [H|H]; [|apply orb_true_iff in H as [H|H]];
    apply String.eqb_eq in H; rewrite H; vm_compute; reflexivity.
Qed.

Lemma datelike_time_sanitized (v : pyval) :
  looks_like_date v = true -> sanitize "time" v = Ret VNone.
Proof.
  intros Hl. unfold sanitize. cbv zeta.
  change (Py.eqs "time" "date") with false. change (Py.eqs "time" "time") with true.
  cbn [andb].
  destruct v as [|s|t r]; cbn [denull]; [reflexivity| |].
  - destruct (Py.mem (Py.lower s) null_words); [reflexivity|].
    cbn [is_none negb]. rewrite Hl. reflexivity.
  - cbn [is_none negb]. rewrite Hl. reflexivity.
Qed.

Lemma flexible_time_sanitized (s : string) :
  is_flexible (Py.lower s) = true -> looks_like_date (VStr s) = false ->
  sanitize "time" (VStr s) = Ret (VStr "first available").
Proof.
  intros Hf Hl. unfold sanitize. cbv zeta.
  change (Py.eqs "time" "date") with false. change (Py.eqs "time" "time") with true.
  cbn [andb denull].
  destruct (Py.mem (Py.lower s) null_words) eqn:Hn.
  - rewrite (null_word_not_flexible s Hn) in Hf. discriminate Hf.
  - cbn [is_none negb]. rewrite Hl.
    assert (Hne : Py.nonempty s = true).
    { destruct s; [vm_compute in Hf; discriminate Hf|reflexivity]. }
    cbn [truthy]. rewrite Hne. cbn [lower_of mbind py_bind]. rewrite Hf. reflexivity.
Qed.

(** How the result follows from the object the cleaning loop ran over. *)
Lemma ai_result_of_decoded (E : env) (text : string) (missing : list string)
    (m : gmap string pyval) (k : string) (v w : pyval) :
  decoded E text missing = Some m -> m !! k = Some v -> sanitize k v = Ret w ->
  extract_entities_with_ai E text missing !! k = Some w
  \/ (exists v', m !! "time" = Some v' /\ sanitize "time" v' = Raise)
      /\ extract_entities_with_ai E text missing = all_none missing.
Proof.
  intros Hd Hm Hs. unfold extract_entities_with_ai.
  rewrite extract_body_decoded, Hd.
  pose proof (sanitize_all_forward m k v Hm) as Hf.
  destruct (sanitize_all m) as [r|]; cbn [mbind py_bind].
  - left. destruct Hf as (w' & Hs' & Hr). apply fill_missing_keeps. congruence.
  - right. split; [exact Hf|reflexivity].
Qed.

(** C7, amended.  In the object the cleaning loop runs over, a requested
    slot whose value reads null, unknown or empty in any case of letters
    becomes None, a requested date that looks like a time of day becomes
    None, a time that names a month or holds an ISO date becomes None, and
    any other time that holds a flexible phrase such as "anytime" or "asap"
    becomes "first available".  The result holds no such string, date or
    time and no flexible phrase other than "first available"; it has a
    value for every requested slot; when the call raises or the decoded
    value is not an object every requested slot is None; when the response
    is not JSON a requested slot is None unless the response holds it in
    the form "slot": "value". *)
Theorem ai_fallback_sanitized (E : env) (text : string) (missing : list string) :
  let out := extract_entities_with_ai E text missing in
  (forall m, decoded E text missing = Some m ->
     (forall k s, In k missing -> m !! k = Some (VStr s) ->
                  Py.mem (Py.lower s) null_words = true -> out !! k = Some VNone)
     /\ (forall v, In "date" missing -> m !! "date" = Some v ->
                   looks_like_time v = true -> out !! "date" = Some VNone)
     /\ (forall v, m !! "time" = Some v -> looks_like_date v = true ->
                   out !! "time" = Some VNone)
     /\ (forall s, m !! "time" = Some (VStr s) -> looks_like_date (VStr s) = false ->
                   is_flexible (Py.lower s) = true ->
                   out !! "time" = Some (VStr "first available")))
  /\ (is_flexible "anytime" = true /\ is_flexible "asap" = true)
  /\ (forall k s, out !! k = Some (VStr s) -> Py.mem (Py.lower s) null_words = false)
  /\ (forall v, out !! "date" = Some v -> v <> VNone -> looks_like_time v = false)
  /\ (forall v, out !! "time" = Some v -> v <> VNone -> looks_like_date v = false)
  /\ (forall s, out !! "time" = Some (VStr s) ->
                is_flexible (Py.lower s) = true -> s = "first available")
  /\ (forall e, In e missing -> is_Some (out !! e))
  /\ (agent_extract E text missing = None -> out = all_none missing)
  /\ (forall resp,
        agent_extract E text missing = Some resp ->
        json_loads E (clean_json (Py.strip resp)) = JNotObject ->
        out = all_none missing)
  /\ (forall resp e,
        agent_extract E text missing = Some resp ->
        json_loads E (clean_json (Py.strip resp)) = JSONDecodeError ->
        In e missing ->
        Re.search (entity_pattern e) (clean_json (Py.strip resp)) = None ->
        out !! e = Some VNone)
  /\ (forall e, In e missing -> all_none missing !! e = Some VNone).
Proof.
  intros out. subst out.
  split; [|split; [split; vm_compute; reflexivity|exact (ai_fallback_clean E text missing)]].
  intros m Hd. split; [|split; [|split]].
  - intros k s Hin Hm Hn.
    destruct (ai_result_of_decoded E text missing m k _ _ Hd Hm
                (null_word_sanitized k s Hn))
      as [H|[_ ->]]; [exact H|apply all_none_covers, Hin].
  - intros v Hin Hm Hl.
    destruct (ai_result_of_decoded E text missing m _ _ _ Hd Hm
                (timelike_date_sanitized v Hl))
      as [H|[_ ->]]; [exact H|apply all_none_covers, Hin].
  - intros v Hm Hl.
    destruct (ai_result_of_decoded E text missing m _ _ _ Hd Hm
                (datelike_time_sanitized v Hl))
      as [H|[(v' & Hm' & Hr) _]]; [exact H|].
    rewrite Hm in Hm'. injection Hm' as <-.
    rewrite (datelike_time_sanitized v Hl) in Hr. discriminate Hr.
  - intros s Hm Hl Hf.
    destruct (ai_result_of_decoded E text missing m _ _ _ Hd Hm
                (flexible_time_sanitized s Hf Hl))
      as [H|[(v' & Hm' & Hr) _]]; [exact H|].
    rewrite Hm in Hm'. injection Hm' as <-.
    rewrite (flexible_time_sanitized s Hf Hl) in Hr. discriminate Hr.
Qed.

Lemma ai_fallback_sanitized_witness :
  decoded noisy_env "x" ["person"; "date"; "time"] = Some noisy_object
  /\ extract_entities_with_ai noisy_env "x" ["person"; "date"; "time"] !! "person"
     = Some VNone
  /\ extract_entities_with_ai noisy_env "x" ["person"; "date"; "time"] !! "date"
     = Some VNone
  /\ extract_entities_with_ai noisy_env "x" ["person"; "date"; "time"] !! "time"
     = Some (VStr "first available").
Proof.
  assert (Hd : decoded noisy_env "x" ["person"; "date"; "time"] = Some noisy_object)
    by (vm_compute; reflexivity).
  pose proof (ai_fallback_sanitized noisy_env "x" ["person"; "date"; "time"]) as H.
  cbv zeta in H. destruct H as [H _].
  destruct (H noisy_object Hd) as (Hnull & Hdate & _ & Hflex).
  split; [exact Hd|]. split; [|split].
  - apply (Hnull "person" "NULL"); [left; reflexivity|reflexivity|reflexivity].
  - apply (Hdate (VStr "5:30 pm")); [right; left; reflexivity|reflexivity|].
    vm_compute. reflexivity.
  - apply (Hflex "ASAP please"); [reflexivity| |]; vm_compute; reflexivity.
Defined.

(** C7 as stated fails: a response that is not JSON still yields a
    person through the pattern fallback. *)
Lemma unparsable_response_yields_person :
  json_loads prose_env (clean_json (Py.strip prose_reply)) = JSONDecodeError
  /\ extract_entities_with_ai prose_env "set up something with John Smith"
       ["person"; "date"] !! "person" = Some (VStr "John Smith")
  /\ extract_entities_with_ai prose_env "set up something with John Smith"
       ["person"; "date"] <> all_none ["person"; "date"].
Proof.
  split; [reflexivity|].
  assert (H : extract_entities_with_ai prose_env "set up something with John Smith"
                ["person"; "date"] !! "person" = Some (VStr "John Smith"))
    by (vm_compute; reflexivity).
  split; [exact H|].
  intros Heq. rewrite Heq in H. vm_compute in H. discriminate H.
Qed.

Example noisy_object_cleaned :
  map_to_list (extract_entities_with_ai noisy_env "x" ["person"; "date"; "time"])
  = map_to_list (<["time" := VStr "first available"]>
                   (<["date" := VNone]> (<["person" := VNone]> ∅))).
Proof. vm_compute. reflexivity. Qed.

(** ** Confirmation and change of an appointment *)

Lemma get_lookup (ctx : gmap string pyval) (k : string) (v : pyval) :
  ctx !! k = Some v -> get ctx k = v.
Proof. unfold get. intros ->. reflexivity. Qed.

(** The flow of [process_appointment_intent] for the intent
    schedule_appointment in a phase other than init and asking_time, when
    no phrase cancels the current appointment. *)
Lemma schedule_flow (E : env) (text : string) (ctx : gmap string pyval)
    (phase : string) :
  ctx !! "intent" = Some (VStr "schedule_appointment") ->
  ctx !! "phase" = Some (VStr phase) ->
  Py.eqs phase "asking_time" = false -> Py.eqs phase "init" = false ->
  Py.nonempty phase = true ->
  any_in cancel_current_patterns (Py.lower text) = false ->
  process_appointment_intent E text ctx
  = (r ← phase_block E (VStr "schedule_appointment") (VStr phase) (Py.lower text) ctx;
     Ret (finish E (VStr phase) r)).
Proof.
  intros Hi Hp Hat Hinit Hne Hc. unfold process_appointment_intent, get_or.
  rewrite Hi, Hp. cbn [is_str truthy]. rewrite Hat, Hinit, Hne, Hc.
  cbn [andb orb negb]. reflexivity.
Qed.

Lemma confirming_flow (E : env) (text : string) (ctx : gmap string pyval) :
  ctx !! "intent" = Some (VStr "schedule_appointment") ->
  ctx !! "phase" = Some (VStr "confirming") ->
  any_in cancel_current_patterns (Py.lower text) = false ->
  process_appointment_intent E text ctx
  = Ret (finish E (VStr "confirming") (confirm_block (Py.lower text) ctx)).
Proof.
  intros Hi Hp Hc.
  rewrite (schedule_flow E text ctx "confirming" Hi Hp) by (reflexivity || exact Hc).
  reflexivity.
Qed.

Lemma asking_change_flow (E : env) (text : string) (ctx : gmap string pyval) :
  ctx !! "intent" = Some (VStr "schedule_appointment") ->
  ctx !! "phase" = Some (VStr "asking_change") ->
  any_in cancel_current_patterns (Py.lower text) = false ->
  process_appointment_intent E text ctx
  = Ret (finish E (VStr "asking_change")
           (change_block (VStr "schedule_appointment") (Py.lower text) ctx)).
Proof.
  intros Hi Hp Hc.
  rewrite (schedule_flow E text ctx "asking_change" Hi Hp) by (reflexivity || exact Hc).
  reflexivity.
Qed.

(** The affirmative words of the specification contain the three words
    that the phase confirming looks for. *)
Lemma no_yes_word_no_confirmation (t : string) :
  any_in cancel_yes_words t = false ->
  Py.contains "yes" t || Py.contains "correct" t || Py.contains "right" t = false.
Proof.
  unfold any_in, cancel_yes_words. cbn [existsb].
  destruct (Py.contains "yes" t), (Py.contains "correct" t),
    (Py.contains "right" t); cbn [orb]; intros H; try discriminate H; reflexivity.
Qed.

Lemma confirm_yes (E : env) (text : string) (ctx : gmap string pyval) :
  ctx !! "intent" = Some (VStr "schedule_appointment") ->
  ctx !! "phase" = Some (VStr "confirming") ->
  filled ctx "person" = true -> filled ctx "date" = true -> filled ctx "time" = true ->
  any_in cancel_current_patterns (Py.lower text) = false ->
  Py.contains "yes" (Py.lower text) || Py.contains "correct" (Py.lower text)
    || Py.contains "right" (Py.lower text) = true ->
  exists resp,
    process_appointment_intent E text ctx
    = Ret (resp, completed_marks E (<["phase" := VStr "completed"]> ctx)).
Proof.
  intros Hi Hp Hpe Hda Hti Hc Hyes. rewrite confirming_flow by assumption.
  unfold confirm_block, filled in *. rewrite Hyes, Hpe, Hda, Hti. cbn [andb].
  unfold finish. cbn [is_str]. rewrite (get_lookup _ "phase" (VStr "completed"))
    by apply lookup_insert_eq.
  eexists. reflexivity.
Qed.

Lemma confirm_other (E : env) (text : string) (ctx : gmap string pyval) :
  ctx !! "intent" = Some (VStr "schedule_appointment") ->
  ctx !! "phase" = Some (VStr "confirming") ->
  any_in cancel_current_patterns (Py.lower text) = false ->
  any_in cancel_yes_words (Py.lower text) = false ->
  process_appointment_intent E text ctx
  = Ret ("What would you like to change about the appointment?",
         <["phase" := VStr "asking_change"]> ctx).
Proof.
  intros Hi Hp Hc Hno. rewrite confirming_flow by assumption.
  unfold confirm_block. rewrite (no_yes_word_no_confirmation _ Hno).
  unfold finish. cbn [is_str]. rewrite (get_lookup _ "phase" (VStr "asking_change"))
    by apply lookup_insert_eq.
  reflexivity.
Qed.

Lemma confirm_cancel_yes (E : env) (text : string) (ctx : gmap string pyval)
    (p : string) :
  ctx !! "intent" = Some (VStr "cancel_appointment") ->
  ctx !! "phase" = Some (VStr "confirming_cancel") ->
  ctx !! "person" = Some (VStr p) -> Py.nonempty p = true ->
  filled ctx "date" = true -> filled ctx "time" = true ->
  any_in cancel_current_patterns (Py.lower text) = false ->
  any_in cancel_yes_words (Py.lower text) = true ->
  exists resp person,
    process_appointment_intent E text ctx
    = Ret (resp, <["person" := person]>
                   (completed_marks E (<["phase" := VStr "completed"]> ctx))).
Proof.
  intros Hi Hp Hpe Hne Hda Hti Hc Hyes.
  unfold process_appointment_intent, get_or. rewrite Hi, Hp.
  cbn [is_str truthy]. rewrite Hc.
  change (Py.eqs "confirming_cancel" "asking_time") with false.
  change (Py.eqs "cancel_appointment" "check_availability") with false.
  change (Py.eqs "cancel_appointment" "cancel_appointment") with true.
  cbn [andb orb negb]. unfold cancel_block, filled in *.
  rewrite (get_lookup _ _ _ Hpe), Hda, Hti. cbn [truthy]. rewrite Hne, Hyes.
  cbn [negb andb is_str]. change (Py.eqs "confirming_cancel" "confirming_cancel") with true.
  cbn [andb]. unfold finish_cancel, restore_person.
  rewrite (get_lookup _ _ _ Hpe). cbn [truthy lower_of mbind py_bind]. rewrite Hne.
  cbn [mbind py_bind].
  destruct (Py.eqs (Py.lower p) "that" && truthy (get ctx "previous_person"));
    cbn [mbind py_bind try_except]; eexists _, _; reflexivity.
Qed.

Lemma phase_after_change (k phase : string) (ctx : gmap string pyval) :
  k <> "phase" ->
  get (delete k (<["phase" := VStr phase]> ctx)) "phase" = VStr phase.
Proof.
  intros Hk. apply get_lookup. rewrite lookup_delete_ne by done.
  apply lookup_insert_eq.
Qed.

Lemma change_request (E : env) (text : string) (ctx : gmap string pyval) :
  ctx !! "intent" = Some (VStr "schedule_appointment") ->
  ctx !! "phase" = Some (VStr "asking_change") ->
  any_in cancel_current_patterns (Py.lower text) = false ->
  let t := Py.lower text in
  exists resp,
    process_appointment_intent E text ctx
    = Ret (resp,
           if Py.contains "person" t || Py.contains "who" t || Py.contains "name" t
           then delete "person" (<["phase" := VStr "asking_person"]> ctx)
           else if Py.contains "date" t || Py.contains "day" t || Py.contains "when" t
           then delete "date" (<["phase" := VStr "asking_date"]> ctx)
           else if Py.contains "time" t || Py.contains "hour" t
           then delete "time" (<["phase" := VStr "asking_time"]> ctx)
           else <["phase" := VStr "init"]> ctx).
Proof.
  intros Hi Hp Hc t. rewrite asking_change_flow by assumption. fold t.
  unfold change_block. cbn [is_str].
  change (Py.eqs "schedule_appointment" "cancel_appointment") with false.
  change (Py.eqs "schedule_appointment" "schedule_appointment") with true.
  cbv iota.
  destruct (Py.contains "person" t || Py.contains "who" t || Py.contains "name" t);
    [|destruct (Py.contains "date" t || Py.contains "day" t || Py.contains "when" t);
      [|destruct (Py.contains "time" t || Py.contains "hour" t)]];
    unfold finish; cbn [is_str];
    rewrite ?phase_after_change by done;
    rewrite ?(get_lookup _ "phase" (VStr "init")) by apply lookup_insert_eq;
    eexists; reflexivity.
Qed.

(** C4, amended.  When the reply holds no phrase that cancels the current
    appointment: at confirming (intent schedule_appointment) a reply with
    "yes", "correct" or "right" and all three slots filled ends in
    completed with the marks of completion, and a reply with none of the
    ten affirmative words moves to asking_change; at confirming_cancel
    (intent cancel_appointment, a person name and the other slots filled)
    a reply with one of the ten words ends in completed; at asking_change
    the first of the keyword families person/who/name, date/day/when,
    time/hour found in the reply removes that one slot and moves to the
    phase that asks for it, and a reply with no keyword moves to init and
    removes nothing. *)
Theorem confirmation_and_change (E : env) (text : string)
    (ctx : gmap string pyval) :
  any_in cancel_current_patterns (Py.lower text) = false ->
  let t := Py.lower text in
  (ctx !! "intent" = Some (VStr "schedule_appointment") ->
   ctx !! "phase" = Some (VStr "confirming") ->
   (filled ctx "person" = true -> filled ctx "date" = true ->
    filled ctx "time" = true ->
    Py.contains "yes" t || Py.contains "correct" t || Py.contains "right" t = true ->
    exists resp,
      process_appointment_intent E text ctx
      = Ret (resp, completed_marks E (<["phase" := VStr "completed"]> ctx)))
   /\ (any_in cancel_yes_words t = false ->
       process_appointment_intent E text ctx
       = Ret ("What would you like to change about the appointment?",
              <["phase" := VStr "asking_change"]> ctx)))
  /\ (ctx !! "intent" = Some (VStr "cancel_appointment") ->
      ctx !! "phase" = Some (VStr "confirming_cancel") ->
      forall p, ctx !! "person" = Some (VStr p) -> Py.nonempty p = true ->
      filled ctx "date" = true -> filled ctx "time" = true ->
      any_in cancel_yes_words t = true ->
      exists resp person,
        process_appointment_intent E text ctx
        = Ret (resp, <["person" := person]>
                       (completed_marks E (<["phase" := VStr "completed"]> ctx))))
  /\ (ctx !! "intent" = Some (VStr "schedule_appointment") ->
      ctx !! "phase" = Some (VStr "asking_change") ->
      exists resp,
        process_appointment_intent E text ctx
        = Ret (resp,
               if Py.contains "person" t || Py.contains "who" t || Py.contains "name" t
               then delete "person" (<["phase" := VStr "asking_person"]> ctx)
               else if Py.contains "date" t || Py.contains "day" t
                       || Py.contains "when" t
               then delete "date" (<["phase" := VStr "asking_date"]> ctx)
               else if Py.contains "time" t || Py.contains "hour" t
               then delete "time" (<["phase" := VStr "asking_time"]> ctx)
               else <["phase" := VStr "init"]> ctx)).
Proof.
  intros Hc t. split; [|split].
  - intros Hi Hp. split.
    + intros. apply confirm_yes; assumption.
    + intros. apply confirm_other; assumption.
  - intros Hi Hp p Hpe Hne Hd Ht Hyes. eapply confirm_cancel_yes; eassumption.
  - intros Hi Hp. apply change_request; assumption.
Qed.

Lemma confirmation_and_change_witness :
  any_in cancel_current_patterns (Py.lower "Yes, that is right") = false
  /\ exists resp,
       process_appointment_intent wednesday_env "Yes, that is right"
         (slots_john "confirming" "schedule_appointment")
       = Ret (resp, completed_marks wednesday_env
                      (<["phase" := VStr "completed"]>
                         (slots_john "confirming" "schedule_appointment"))).
Proof.
  assert (Hc : any_in cancel_current_patterns (Py.lower "Yes, that is right") = false)
    by (vm_compute; reflexivity).
  split; [exact Hc|].
  destruct (confirmation_and_change wednesday_env "Yes, that is right"
              (slots_john "confirming" "schedule_appointment") Hc) as [Hconf _].
  apply Hconf; vm_compute; reflexivity.
Defined.

(** C4 as stated fails: "ok" is one of the affirmative words and does not
    finish the appointment at confirming; a reply with no affirmative
    word at confirming_cancel stays at confirming_cancel; a reply with no
    keyword at asking_change clears no slot. *)
Lemma affirmative_ok_not_accepted :
  any_in cancel_yes_words (Py.lower "ok") = true
  /\ phase_after (process_appointment_intent wednesday_env "ok"
                    (slots_john "confirming" "schedule_appointment"))
     = Ret (VStr "asking_change")
  /\ any_in cancel_yes_words (Py.lower "wait") = false
  /\ phase_after (process_appointment_intent wednesday_env "wait"
                    (slots_john "confirming_cancel" "cancel_appointment"))
     = Ret (VStr "confirming_cancel")
  /\ process_appointment_intent wednesday_env "hmm"
       (slots_john "asking_change" "schedule_appointment")
     = Ret ("Let's start over. What would you like to do?",
            slots_john "init" "schedule_appointment").
Proof. repeat split; vm_compute; reflexivity. Qed.

(** ** Completion and reset *)

Lemma phase_marked (E : env) (p : string) (ctx : gmap string pyval) :
  Py.eqs p "completed" = false -> marked E (<["phase" := VStr p]> ctx).
Proof.
  intros Hp Hph. rewrite (get_lookup _ _ (VStr p)) in Hph by apply lookup_insert_eq.
  injection Hph as ->. discriminate Hp.
Qed.

Lemma marks_marked (E : env) (ctx : gmap string pyval) :
  marked E (completed_marks E ctx).
Proof.
  intros _. unfold completed_marks. split.
  - apply lookup_insert_eq.
  - rewrite lookup_insert_ne by done. apply lookup_insert_eq.
Qed.

Lemma finish_marked (E : env) (phase : pyval) (r : string * gmap string pyval) :
  marked E (finish E phase r).2.
Proof.
  destruct r as [resp c]. unfold finish.
  destruct (is_str phase "completed" || is_str (get c "phase") "completed") eqn:Hc;
    cbn [snd].
  - apply marks_marked.
  - intros Hph. rewrite Hph, orb_true_r in Hc. discriminate Hc.
Qed.

Lemma check_availability_marked (E : env) (ctx ctx' : gmap string pyval)
    (resp : string) :
  check_availability_block ctx = Ret (resp, ctx') -> marked E ctx'.
Proof.
  unfold check_availability_block. cbv zeta.
  destruct (negb (filled ctx "person")); [|destruct (negb (filled ctx "date"))];
    intros H; try bind_ret H; injection H as <- <-;
    apply phase_marked; reflexivity.
Qed.

Lemma finish_cancel_marked (E : env) (ctx ctx' : gmap string pyval)
    (resp : string) :
  marked E ctx -> finish_cancel E ctx = Ret (resp, ctx') -> marked E ctx'.
Proof.
  intros Hm. unfold finish_cancel. cbv zeta.
  destruct (restore_person ctx) as [person|]; cbn [mbind py_bind try_except].
  - intros [= <- <-] _. split.
    + rewrite lookup_insert_ne by done. apply lookup_insert_eq.
    + rewrite !lookup_insert_ne by done. apply lookup_insert_eq.
  - intros [= <- <-]. exact Hm.
Qed.

Lemma not_completed_marked (E : env) (ctx : gmap string pyval) (p : string) :
  get ctx "phase" = VStr p -> Py.eqs p "completed" = false -> marked E ctx.
Proof. intros Hg Hp Hph. rewrite Hg in Hph. injection Hph as ->. discriminate Hp. Qed.

Lemma cancel_block_marked (E : env) (t : string) (phase : pyval)
    (ctx ctx' : gmap string pyval) (resp : string) :
  (is_str phase "confirming_cancel" = true -> marked E ctx) ->
  cancel_block E t phase ctx = Ret (resp, ctx') -> marked E ctx'.
Proof.
  intros Hm. unfold cancel_block. cbv zeta.
  destruct (negb (filled ctx "person"));
    [|destruct (negb (filled ctx "date"));
      [|destruct (negb (filled ctx "time"));
        [|destruct (is_str phase "confirming_cancel") eqn:Hph;
          cbn [andb]; [destruct (any_in cancel_yes_words t)|]]]].
  - intros [= <- <-]. apply phase_marked; reflexivity.
  - intros H. bind_ret H. injection H as <- <-. apply phase_marked; reflexivity.
  - intros H. bind_ret H. injection H as <- <-. apply phase_marked; reflexivity.
  - apply finish_cancel_marked. auto.
  - intros H. bind_ret H.
    match type of H with context [if ?b then _ else _] => destruct b end;
      repeat bind_ret H; injection H as <- <-.
    + eapply not_completed_marked with (p := "confirming_cancel"); [|reflexivity].
      apply get_lookup. rewrite lookup_insert_ne by done. apply lookup_insert_eq.
    + apply phase_marked; reflexivity.
  - intros H. bind_ret H.
    match type of H with context [if ?b then _ else _] => destruct b end;
      repeat bind_ret H; injection H as <- <-.
    + eapply not_completed_marked with (p := "confirming_cancel"); [|reflexivity].
      apply get_lookup. rewrite lookup_insert_ne by done. apply lookup_insert_eq.
    + apply phase_marked; reflexivity.
Qed.

(** Every context that the state machine returns in the phase completed
    carries both marks. *)
Lemma completed_is_marked (E : env) (text : string)
    (ctx ctx' : gmap string pyval) (resp : string) :
  process_appointment_intent E text ctx = Ret (resp, ctx') -> marked E ctx'.
Proof.
  unfold process_appointment_intent. cbv zeta.
  set (phase := get_or ctx "phase" (VStr "init")).
  set (intent := get_or ctx "intent" (VStr "schedule_appointment")).
  set (c1 := if is_str phase "asking_time" && negb (has ctx "time")
                && any_search anytime_patterns (Py.lower text)
             then <["time" := VStr "first available"]> ctx else ctx).
  destruct (any_in cancel_current_patterns (Py.lower text)
            && truthy (get c1 "person") && truthy (get c1 "date")).
  { intros H. bind_ret H. injection H as <- <-. apply phase_marked; reflexivity. }
  destruct (is_str intent "check_availability").
  { apply check_availability_marked. }
  destruct (is_str intent "cancel_appointment").
  { apply cancel_block_marked. intros Hph.
    assert (Hg : get c1 "phase" = VStr "confirming_cancel").
    { subst c1 phase. unfold get_or, get in *.
      destruct (is_str _ "asking_time" && _ && _);
        rewrite ?lookup_insert_ne by done;
        destruct (ctx !! "phase") as [[|s|]|]; cbn [is_str] in Hph;
        try discriminate Hph; apply String.eqb_eq in Hph; subst; reflexivity. }
    eapply not_completed_marked; [exact Hg|reflexivity]. }
  intros H.
  match type of H with
  | context [mbind _ ?m] => destruct m as [r|]; cbn [mbind py_bind] in H
  end; [|discriminate H].
  injection H as H.
  pose proof (finish_marked E phase r) as Hf. rewrite H in Hf. exact Hf.
Qed.

Lemma handle_appointment_query_marked (E : env) (text : string)
    (ctx ctx' : gmap string pyval) (r : reply) :
  handle_appointment_query E text ctx = Ret r -> context r = Some ctx' ->
  marked E ctx'.
Proof.
  unfold handle_appointment_query.
  destruct (merged_context E text ctx) as [c|]; cbn [mbind py_bind]; [|discriminate].
  destruct (process_appointment_intent E text c) as [[resp c']|] eqn:Hp;
    cbn [mbind py_bind]; [|discriminate].
  intros [= <-]. cbn [context]. intros [= <-].
  eapply completed_is_marked; eauto.
Qed.

(** After the early routes, a turn that starts in the phase completed
    goes on from the empty context. *)
Lemma completed_context_dropped (E : env) (text : string)
    (ctx : gmap string pyval) :
  get ctx "phase" = VStr "completed" ->
  check_if_summary_requested text = false ->
  Py.contains "check availability" (Py.lower text)
    || Py.contains "check availibility" (Py.lower text)
    || Py.contains "availability" (Py.lower text) = false ->
  Py.contains "cancel" (Py.lower text) && Py.contains "appointment" (Py.lower text)
    = false ->
  process_message E text ctx
  = if negb (Py.nonempty text) then
      Ret (Reply "I didn't receive any message. How can I help you?" None [])
    else if Py.eqs (identify_intent text) "knowledge" then
      Ret (handle_knowledge_query E text)
    else if any_in knowledge_question_indicators (Py.lower text) then
      Ret (handle_knowledge_query E text)
    else if any_in new_appointment_keywords (Py.lower text) then
      temp_entities ← extract_entities E text;
      handle_appointment_query E text
        (put_slot "person" (person temp_entities)
           (<["intent" := VStr "schedule_appointment"]> ∅))
    else dispatch E text (identify_intent text) VNone VNone ∅.
Proof.
  intros Hph Hsum Hav Hca. unfold process_message.
  destruct (negb (Py.nonempty text)); [reflexivity|].
  rewrite Hsum. cbv zeta. rewrite Hav, Hca.
  destruct (Py.eqs (identify_intent text) "knowledge"); [reflexivity|].
  destruct (any_in knowledge_question_indicators (Py.lower text)); [reflexivity|].
  destruct (any_in new_appointment_keywords (Py.lower text)); [reflexivity|].
  assert (Hg : get (if any_in doctor_phrases (Py.lower text)
                    then <["person" := VStr "Doctor"]>
                           (<["intent" := VStr "schedule_appointment"]> ctx)
                    else ctx) "phase" = VStr "completed").
  { destruct (any_in doctor_phrases (Py.lower text)); [|exact Hph].
    unfold get in *. rewrite !lookup_insert_ne by done. exact Hph. }
  rewrite Hg. reflexivity.
Qed.

(** C8, amended.  Every context that the state machine or a turn returns
    in the phase completed carries ready_for_new_topic and the time stamp
    appointment_completed_at.  A next turn that starts in the phase
    completed and is neither a request for a summary nor a message that
    mentions availability or both "cancel" and "appointment" is processed
    from the empty context: its outcome is that of a context holding
    nothing but the phase, and, without a see-a-doctor phrase, that of the
    empty context. *)
Theorem completed_marks_and_reset (E : env) (text : string)
    (ctx : gmap string pyval) :
  get ctx "phase" = VStr "completed" ->
  check_if_summary_requested text = false ->
  Py.contains "check availability" (Py.lower text)
    || Py.contains "check availibility" (Py.lower text)
    || Py.contains "availability" (Py.lower text) = false ->
  Py.contains "cancel" (Py.lower text) && Py.contains "appointment" (Py.lower text)
    = false ->
  (forall text0 ctx0 resp ctx',
      process_appointment_intent E text0 ctx0 = Ret (resp, ctx') ->
      get ctx' "phase" = VStr "completed" ->
      ctx' !! "ready_for_new_topic" = Some VTrue
      /\ ctx' !! "appointment_completed_at" = Some (VStr (now_iso E)))
  /\ (forall text0 ctx0 r ctx',
        handle_appointment_query E text0 ctx0 = Ret r -> context r = Some ctx' ->
        get ctx' "phase" = VStr "completed" ->
        ctx' !! "ready_for_new_topic" = Some VTrue
        /\ ctx' !! "appointment_completed_at" = Some (VStr (now_iso E)))
  /\ process_message E text ctx
     = process_message E text (<["phase" := VStr "completed"]> ∅)
  /\ (any_in doctor_phrases (Py.lower text) = false ->
      process_message E text ctx = process_message E text ∅).
Proof.
  intros Hph Hsum Hav Hca. split; [|split; [|split]].
  - intros text0 ctx0 resp ctx' H. exact (completed_is_marked E text0 ctx0 ctx' resp H).
  - intros text0 ctx0 r ctx' H Hc.
    exact (handle_appointment_query_marked E text0 ctx0 ctx' r H Hc).
  - assert (Hph' : get (<["phase" := VStr "completed"]> ∅) "phase"
                   = VStr "completed") by (vm_compute; reflexivity).
    rewrite (completed_context_dropped E text ctx Hph Hsum Hav Hca).
    rewrite (completed_context_dropped E text _ Hph' Hsum Hav Hca). reflexivity.
  - intros Hdoc. rewrite (completed_context_dropped E text ctx Hph Hsum Hav Hca).
    unfold process_message. rewrite Hsum. cbv zeta. rewrite Hdoc, Hav, Hca.
    reflexivity.
Qed.

Lemma completed_marks_and_reset_witness :
  get (slots_john "completed" "schedule_appointment") "phase" = VStr "completed"
  /\ process_message wednesday_env "Sarah"
       (slots_john "completed" "schedule_appointment")
     = process_message wednesday_env "Sarah" ∅.
Proof.
  assert (Hph : get (slots_john "completed" "schedule_appointment") "phase"
                = VStr "completed") by (vm_compute; reflexivity).
  split; [exact Hph|].
  assert (Hsum : check_if_summary_requested "Sarah" = false)
    by (vm_compute; reflexivity).
  assert (Hav : Py.contains "check availability" (Py.lower "Sarah")
                || Py.contains "check availibility" (Py.lower "Sarah")
                || Py.contains "availability" (Py.lower "Sarah") = false)
    by (vm_compute; reflexivity).
  assert (Hca : Py.contains "cancel" (Py.lower "Sarah")
                && Py.contains "appointment" (Py.lower "Sarah") = false)
    by (vm_compute; reflexivity).
  assert (Hdoc : any_in doctor_phrases (Py.lower "Sarah") = false)
    by (vm_compute; reflexivity).
  destruct (completed_marks_and_reset wednesday_env "Sarah"
              (slots_john "completed" "schedule_appointment") Hph Hsum Hav Hca)
    as (_ & _ & _ & Hreset).
  exact (Hreset Hdoc).
Defined.

(** C8 as stated fails: after a completed flow a message that mentions
    availability is handled before the reset and keeps the old person
    and date. *)
Lemma availability_request_keeps_person :
  get (slots_john "completed" "schedule_appointment") "phase" = VStr "completed"
  /\ replied_person (process_message wednesday_env "check availability"
                       (slots_john "completed" "schedule_appointment"))
     = Ret (Some (VStr "John"))
  /\ replied_person (process_message wednesday_env "check availability" ∅)
     = Ret None.
Proof. repeat split; vm_compute; reflexivity. Qed.

(** ** A whole scheduling conversation *)

Lemma merge_ai_quiet (E : env) (locked : bool) (text : string)
    (missing asked : list string) (ctx : gmap string pyval) :
  quiet E text asked ->
  merge_ai locked (extract_entities_with_ai E text asked) missing ctx = ctx.
Proof.
  intros Hq. unfold merge_ai. revert ctx.
  induction missing as [|k missing IH]; intros ctx; simpl; [reflexivity|].
  rewrite <- (IH ctx) at 2. f_equal.
  unfold merge_ai_slot. specialize (Hq k). unfold get in Hq.
  destruct (extract_entities_with_ai E text asked !! k) as [v|]; [|reflexivity].
  rewrite Hq. reflexivity.
Qed.

Lemma failing_agent_quiet (E : env) (text : string) (missing : list string) :
  agent_extract E text missing = None -> quiet E text missing.
Proof.
  intros Ha k. unfold extract_entities_with_ai, extract_body. rewrite Ha.
  unfold get. destruct (all_none missing !! k) as [v|] eqn:Hl; [|reflexivity].
  apply all_none_lookup in Hl. subst. reflexivity.
Qed.

Lemma display_nonempty (d : Z) : Py.nonempty (format_date_for_display d) = true.
Proof.
  unfold format_date_for_display, Date.strftime_long.
  destruct (Date.ord2ymd d) as [[y m] dd].
  destruct (nth _ Date.weekday_names _); reflexivity.
Qed.

Lemma turn_john (E : env) :
  quiet E "John" ["date"; "time"] ->
  handle_appointment_query E "John" start_context
  = Ret (Reply "What day would you like to schedule with John?"
               (Some after_john) []).
Proof.
  intros Hq. unfold handle_appointment_query, merged_context.
  assert (Hm : merge_extracted E "John" start_context
               = Ret (false, ["date"; "time"],
                      <["person" := VStr "John"]> start_context))
    by (vm_compute; reflexivity).
  rewrite Hm. cbn [mbind py_bind nonnil]. rewrite merge_ai_quiet by exact Hq.
  vm_compute. reflexivity.
Qed.

Lemma tomorrow_basic_entities (E : env) :
  EntityExtractor.extract_entities E "tomorrow" = Entities None None None.
Proof. vm_compute. reflexivity. Qed.

Lemma tomorrow_relative_date (E : env) :
  parse_relative_date E "tomorrow" = (d ← add_days (today E) 1; Ret (Some d)).
Proof. cbv -[add_days today]. reflexivity. Qed.

Lemma tomorrow_entities (E : env) :
  1 <= today E -> today E + 1 <= Date.max_ordinal ->
  extract_entities E "tomorrow"
  = Ret (Entities None (Some (format_date_for_display (today E + 1))) None).
Proof.
  intros Hlo Hhi.
  assert (Ha : add_days (today E) 1 = Ret (today E + 1)).
  { unfold add_days, Date.in_range, Date.min_ordinal, Date.max_ordinal in *.
    destruct (Z.leb_spec 1 (today E + 1)), (Z.leb_spec (today E + 1) 3652059);
      try lia. reflexivity. }
  unfold extract_entities, enhance_entity_extraction.
  rewrite tomorrow_basic_entities. cbn [date person time truthy_opt].
  rewrite tomorrow_relative_date, Ha. reflexivity.
Qed.

Lemma turn_tomorrow (E : env) (d : string) :
  extract_entities E "tomorrow" = Ret (Entities None (Some d) None) ->
  Py.nonempty d = true ->
  quiet E "tomorrow" ["time"] ->
  handle_appointment_query E "tomorrow" after_john
  = Ret (Reply ("What time would you like for your appointment with John on "
                ++ d ++ "?")
               (Some (after_date d)) []).
Proof.
  intros He Hd Hq. destruct d as [|a d]; [discriminate Hd|].
  unfold handle_appointment_query, merged_context.
  assert (Hm : merge_extracted E "tomorrow" after_john
               = Ret (true, ["time"], <["date" := VStr (String a d)]> after_john)).
  { unfold merge_extracted. rewrite He. vm_compute. reflexivity. }
  rewrite Hm. cbn [mbind py_bind nonnil]. rewrite merge_ai_quiet by exact Hq.
  vm_compute. reflexivity.
Qed.

Lemma turn_3pm (E : env) (d : string) :
  Py.nonempty d = true ->
  handle_appointment_query E "3pm" (after_date d)
  = Ret (Reply ("I'll schedule your appointment with John on " ++ d
                ++ " at 15:00. Is that correct?")
               (Some (after_time d)) []).
Proof.
  intros Hd. destruct d as [|a d]; [discriminate Hd|]. vm_compute. reflexivity.
Qed.

Lemma turn_yes (E : env) (d : string) :
  Py.nonempty d = true ->
  handle_appointment_query E "yes" (after_time d)
  = Ret (Reply ("Great! Your appointment with John has been scheduled for "
                ++ d ++ " at 15:00.")
               (Some (after_yes E d)) []).
Proof.
  intros Hd. destruct d as [|a d]; [discriminate Hd|]. vm_compute. reflexivity.
Qed.

(** C1, amended.  With today and tomorrow inside the calendar and an AI
    fallback that yields no value at the two turns where a slot is still
    missing, the turns "John", "tomorrow", "3pm", "yes" from
    (schedule_appointment, init) end in (schedule_appointment, completed)
    with person John, the date of tomorrow in the long form and time
    15:00; the list of persistence calls stays empty. *)
Theorem schedule_conversation (E : env) :
  1 <= today E -> today E + 1 <= Date.max_ordinal ->
  quiet E "John" ["date"; "time"] ->
  quiet E "tomorrow" ["time"] ->
  let tomorrow := format_date_for_display (today E + 1) in
  converse E ["John"; "tomorrow"; "3pm"; "yes"] start_context []
  = Ret (after_yes E tomorrow, [])
  /\ get (after_yes E tomorrow) "intent" = VStr "schedule_appointment"
  /\ get (after_yes E tomorrow) "phase" = VStr "completed"
  /\ get (after_yes E tomorrow) "person" = VStr "John"
  /\ get (after_yes E tomorrow) "date" = VStr tomorrow
  /\ get (after_yes E tomorrow) "time" = VStr "15:00".
Proof.
  intros Hlo Hhi Hq1 Hq2 tomorrow.
  pose proof (display_nonempty (today E + 1)) as Hd. fold tomorrow in Hd.
  split.
  - unfold converse.
    rewrite (turn_john E Hq1). cbn [mbind py_bind context persisted app].
    rewrite (turn_tomorrow E tomorrow (tomorrow_entities E Hlo Hhi) Hd Hq2).
    cbn [mbind py_bind context persisted app].
    rewrite (turn_3pm E tomorrow Hd).
    cbn [mbind py_bind context persisted app].
    rewrite (turn_yes E tomorrow Hd).
    cbn [mbind py_bind context persisted app]. reflexivity.
  - generalize tomorrow. intros d. repeat split; vm_compute; reflexivity.
Qed.

Lemma schedule_conversation_witness :
  converse wednesday_env ["John"; "tomorrow"; "3pm"; "yes"] start_context []
  = Ret (after_yes wednesday_env "Thursday, November 05, 2026", []).
Proof.
  assert (Hlo : 1 <= today wednesday_env) by (vm_compute; discriminate).
  assert (Hhi : today wednesday_env + 1 <= Date.max_ordinal)
    by (vm_compute; discriminate).
  assert (Hq1 : quiet wednesday_env "John" ["date"; "time"])
    by (apply failing_agent_quiet; reflexivity).
  assert (Hq2 : quiet wednesday_env "tomorrow" ["time"])
    by (apply failing_agent_quiet; reflexivity).
  destruct (schedule_conversation wednesday_env Hlo Hhi Hq1 Hq2) as [H _].
  exact H.
Defined.

(** C1 as stated fails: the conversation reaches completed without a
    single call of [add_appointment]. *)
Lemma completed_without_add_appointment :
  add_appointment_calls
    (converse wednesday_env ["John"; "tomorrow"; "3pm"; "yes"] start_context [])
  = Ret 0%nat
  /\ (rc ← converse wednesday_env ["John"; "tomorrow"; "3pm"; "yes"]
            start_context [];
      Ret (get rc.1 "phase"))
     = Ret (VStr "completed").
Proof. split; vm_compute; reflexivity. Qed.

(** ** Topics *)

Lemma startswith_elim (p s : string) :
  Py.startswith p s = true -> exists b, s = (p ++ b)%string.
Proof.
  revert s. induction p as [|x p IH]; intros s H.
  - exists s. reflexivity.
  - destruct s as [|y s]; [discriminate H|].
    cbn [Py.startswith] in H. apply andb_true_iff in H as [Hxy Hp].
    apply Ascii.eqb_eq in Hxy. subst y.
    destruct (IH s Hp) as [b ->]. exists b. reflexivity.
Qed.

Lemma contains_elim (p s : string) :
  Py.contains p s = true -> exists a b, s = (a ++ p ++ b)%string.
Proof.
  induction s as [|x s IH]; intros H.
  - cbn [Py.contains] in H. rewrite orb_false_r in H.
    destruct (startswith_elim _ _ H) as [b Hb]. exists EmptyString, b. exact Hb.
  - cbn [Py.contains] in H. apply orb_true_iff in H as [H|H].
    + destruct (startswith_elim _ _ H) as [b Hb]. exists EmptyString, b. exact Hb.
    + destruct (IH H) as (a & b & ->). exists (String x a), b. reflexivity.
Qed.

Lemma contains_trans (k a b : string) :
  Py.contains k a = true -> Py.contains a b = true -> Py.contains k b = true.
Proof.
  intros Hk Ha.
  destruct (contains_elim _ _ Hk) as (a1 & a2 & ->).
  destruct (contains_elim _ _ Ha) as (b1 & b2 & ->).
  rewrite !sapp_assoc, <- (sapp_assoc b1 a1). apply contains_intro.
Qed.

Lemma topics_loop_in (text_lower topic : string) (items : list (string * list string)) :
  In topic (topics_loop text_lower items)
  <-> exists keywords, In (topic, keywords) items /\ any_in keywords text_lower = true.
Proof.
  induction items as [|[t ks] items IH]; simpl.
  - split; [contradiction|]. intros (? & [] & _).
  - destruct (any_in ks text_lower) eqn:Hk; simpl; rewrite IH; split.
    + intros [<-|(ks' & Hin & Hany)]; eauto.
    + intros (ks' & [[= <- <-]|Hin] & Hany); eauto.
    + intros (ks' & Hin & Hany); eauto.
    + intros (ks' & [[= <- <-]|Hin] & Hany); [congruence|eauto].
Qed.

Lemma any_in_mono (ks : list string) (a b : string) :
  Py.contains a b = true -> any_in ks a = true -> any_in ks b = true.
Proof.
  intros Hab. unfold any_in. rewrite !existsb_exists.
  intros (k & Hin & Hk). exists k. split; [exact Hin|]. eapply contains_trans; eauto.
Qed.

Lemma topics_loop_sublist (text_lower : string) (items : list (string * list string)) :
  sublist (topics_loop text_lower items) (map fst items).
Proof.
  induction items as [|[t ks] items IH]; simpl; [constructor|].
  destruct (any_in ks text_lower); [apply sublist_skip|apply sublist_cons]; exact IH.
Qed.

(** X1. The topics of a text come in the fixed order appointment,
    time_management, contact, health, business, personal, each at most
    once. *)
Theorem topics_in_order_once (text : string) :
  sublist (extract_topics_from_text text)
          ["appointment"; "time_management"; "contact"; "health"; "business"; "personal"]
  /\ NoDup (extract_topics_from_text text).
Proof.
  pose proof (topics_loop_sublist (Py.lower text) topic_keywords) as H.
  split; [exact H|].
  refine (sublist_NoDup _ _ _ H).
  apply (bool_decide_unpack (NoDup (map fst topic_keywords))). vm_compute. exact I.
Qed.

(** X2. A text that contains another one, letter case apart, has all the
    topics of the text it contains. *)
Theorem topics_monotone (a b topic : string) :
  Py.contains (Py.lower a) (Py.lower b) = true ->
  In topic (extract_topics_from_text a) ->
  In topic (extract_topics_from_text b).
Proof.
  unfold extract_topics_from_text. rewrite !topics_loop_in.
  intros Hab (ks & Hin & Hany). exists ks. split; [exact Hin|].
  eapply any_in_mono; eauto.
Qed.

Lemma topics_monotone_witness :
  Py.contains (Py.lower "Book") (Py.lower "I want to BOOK a table") = true
  /\ In "appointment" (extract_topics_from_text "Book")
  /\ In "appointment" (extract_topics_from_text "I want to BOOK a table").
Proof.
  assert (H1 : Py.contains (Py.lower "Book") (Py.lower "I want to BOOK a table") = true)
    by (vm_compute; reflexivity).
  assert (H2 : In "appointment" (extract_topics_from_text "Book"))
    by (vm_compute; left; reflexivity).
  split; [exact H1|]. split; [exact H2|].
  exact (topics_monotone "Book" "I want to BOOK a table" "appointment" H1 H2).
Defined.

Lemma topic_of_keyword (text topic kw : string) (keywords : list string) :
  In (topic, keywords) topic_keywords -> In kw keywords ->
  Py.contains kw (Py.lower text) = true ->
  In topic (extract_topics_from_text text).
Proof.
  intros Ht Hk Hc. apply topics_loop_in. exists keywords. split; [exact Ht|].
  apply existsb_exists. exists kw. split; assumption.
Qed.

(** X3. The keyword lists overlap: a text that mentions "appointment" is
    tagged health as well as appointment, one that mentions "schedule" or
    "availability" is tagged appointment and time_management, and one that
    mentions "meeting" is tagged appointment and business. *)
Theorem shared_keywords_tag_twice (text kw t1 t2 : string) :
  In (kw, (t1, t2))
     [("appointment", ("appointment", "health"));
      ("schedule", ("appointment", "time_management"));
      ("availability", ("appointment", "time_management"));
      ("meeting", ("appointment", "business"))] ->
  Py.contains kw (Py.lower text) = true ->
  In t1 (extract_topics_from_text text) /\ In t2 (extract_topics_from_text text).
Proof.
  intros Hin Hc. simpl in Hin.
  repeat (destruct Hin as [[= <- <- <-]|Hin];
          [split;
           (refine (topic_of_keyword _ _ _ _ _ _ Hc);
            [unfold topic_keywords; simpl; repeat (first [left; reflexivity|right])
            |simpl; repeat (first [left; reflexivity|right])])|]).
  contradiction.
Qed.

Lemma shared_keywords_tag_twice_witness :
  In "appointment" (extract_topics_from_text "My APPOINTMENT is late")
  /\ In "health" (extract_topics_from_text "My APPOINTMENT is late").
Proof.
  apply (shared_keywords_tag_twice "My APPOINTMENT is late" "appointment").
  - left. reflexivity.
  - vm_compute. reflexivity.
Defined.

(** ** Session memory *)

Lemma init_key_lookup {A} (k k' : string) (v : A) (d : gmap string A) :
  k' <> k -> init_key k v d !! k' = d !! k'.
Proof.
  intros Hne. unfold init_key. destruct (d !! k); [reflexivity|].
  apply lookup_insert_ne. congruence.
Qed.

Lemma at_key_init {A} (k : string) (v : A) (d : gmap string A) :
  at_key k v (init_key k v d) = at_key k v d.
Proof.
  unfold at_key, init_key. destruct (d !! k) eqn:Hk.
  - rewrite Hk. reflexivity.
  - rewrite lookup_insert_eq. reflexivity.
Qed.

(** What every path of [update_memory_with_conversation] for a session
    leaves in the memory. *)
Lemma update_memory_shape (E : env) (M : memory) (sid user_text ai_response : string)
    (ctx : gmap string pyval) :
  Py.nonempty sid = true ->
  let M' := (update_memory_with_conversation E M (Some sid) user_text ai_response ctx).1 in
  m_conversations M' !! sid
  = Some (at_key sid [] (m_conversations M)
          ++ [Turn user_text ai_response (now_iso E) ctx])%list
  /\ m_users M' = m_users M
  /\ forall other, other <> sid -> session_data M' other = session_data M other.
Proof.
  intros Hs. unfold update_memory_with_conversation. rewrite Hs. cbn [negb].
  destruct (extract_entities E user_text) as [found|]; cbn [fst m_conversations m_users];
    (split; [rewrite lookup_insert_eq, at_key_init; reflexivity|]);
    (split; [reflexivity|]);
    intros other Hne; unfold session_data;
    cbn [m_users m_conversations m_entities m_topics_discussed m_questions_asked].
  - destruct (Py.contains "?" user_text);
      rewrite ?lookup_insert_ne by congruence; rewrite !init_key_lookup by exact Hne;
      reflexivity.
  - rewrite ?lookup_insert_ne by congruence. rewrite !init_key_lookup by exact Hne.
    reflexivity.
Qed.

(** X4. A call for a session appends one exchange to the history of that
    session, whether or not the extraction of entities raises afterwards;
    it leaves what is stored for every other session as it was, and a call
    without a session id, or with an empty one, changes nothing. *)
Theorem update_memory_appends_one_exchange (E : env) (M : memory)
    (sid user_text ai_response : string) (ctx : gmap string pyval) :
  Py.nonempty sid = true ->
  let M' := (update_memory_with_conversation E M (Some sid) user_text ai_response ctx).1 in
  m_conversations M' !! sid
  = Some (at_key sid [] (m_conversations M)
          ++ [Turn user_text ai_response (now_iso E) ctx])%list
  /\ (forall other, other <> sid -> session_data M' other = session_data M other)
  /\ update_memory_with_conversation E M None user_text ai_response ctx = (M, Ret ())
  /\ update_memory_with_conversation E M (Some "") user_text ai_response ctx = (M, Ret ()).
Proof.
  intros Hs M'.
  destruct (update_memory_shape E M sid user_text ai_response ctx Hs) as (Hc & _ & Ho).
  repeat split; try reflexivity; [exact Hc|exact Ho].
Qed.

Lemma update_memory_appends_one_exchange_witness :
  m_conversations
    (update_memory_with_conversation wednesday_env five_turns (Some "s2")
       "tomorrow?" "ok" ∅).1 !! "s2"
  = Some [Turn "tomorrow?" "ok" "2026-11-04T09:00:00" ∅]
  /\ session_data
       (update_memory_with_conversation wednesday_env five_turns (Some "s2")
          "tomorrow?" "ok" ∅).1 "s1"
     = session_data five_turns "s1".
Proof.
  assert (Hs : Py.nonempty "s2" = true) by reflexivity.
  destruct (update_memory_appends_one_exchange wednesday_env five_turns "s2"
              "tomorrow?" "ok" ∅ Hs) as (Hc & Ho & _).
  split; [exact Hc|]. apply Ho. discriminate.
Defined.

Lemma intent_loop_recent (recent old tail : list turn) :
  intent_loop (old ++ recent ++ tail)
    (map (fun j => Z.of_nat (length old + length recent) - 1 - Z.of_nat j)
         (seq 0 (length recent)))
  = Ret (first_intent (rev recent)).
Proof.
  revert tail. induction recent as [|t r IH] using rev_ind; intros tail; [reflexivity|].
  replace (length (r ++ [t])) with (S (length r))
    by (rewrite length_app; cbn [length]; lia).
  cbn [seq map].
  rewrite rev_app_distr. cbn [rev app first_intent intent_loop].
  assert (Hi : Z.of_nat (length old + S (length r)) - 1 - Z.of_nat 0
               = Z.of_nat (length old + length r)) by lia.
  rewrite Hi. clear Hi.
  destruct (Z.leb_spec 0 (Z.of_nat (length old + length r))); [|lia].
  unfold index_list. rewrite Nat2Z.id.
  rewrite nth_error_app2 by lia.
  replace (length old + length r - length old)%nat with (length r) by lia.
  rewrite <- app_assoc. rewrite nth_error_app2 by lia.
  rewrite Nat.sub_diag. cbn [app nth_error mbind py_bind].
  destruct (t_context t !! "intent"); [reflexivity|].
  rewrite <- seq_shift, map_map.
  rewrite <- (IH ([t] ++ tail)%list). f_equal.
  apply map_ext. intros j. lia.
Qed.

(** What [get_previous_intent] returns with the default [max_history]. *)
Lemma previous_intent_of_history (M : memory) (sid : string) (conversations : list turn) :
  Py.nonempty sid = true ->
  m_conversations M !! sid = Some conversations ->
  get_previous_intent M (Some sid) 5
  = Ret (latest_intent (drop (length conversations - 4) conversations)).
Proof.
  intros Hs Hc. unfold get_previous_intent. rewrite Hs, Hc. cbn [negb].
  set (n := length conversations).
  set (old := take (n - 4) conversations).
  set (recent := drop (n - 4) conversations).
  assert (Hlen : length recent = Nat.min n 4).
  { unfold recent. rewrite length_drop. fold n. lia. }
  assert (Hold : (length old + length recent)%nat = n).
  { rewrite <- length_app. unfold old, recent. rewrite take_drop. reflexivity. }
  assert (Hr : range_down (Z.of_nat n - 1) (Z.max (-1) (Z.of_nat n - 5))
               = map (fun j => Z.of_nat (length old + length recent) - 1 - Z.of_nat j)
                     (seq 0 (length recent))).
  { unfold range_down. rewrite Hold.
    replace (Z.to_nat (Z.of_nat n - 1 - Z.max (-1) (Z.of_nat n - 5)))
      with (length recent) by lia.
    reflexivity. }
  rewrite Hr.
  rewrite <- (take_drop (n - 4) conversations) at 1. fold old recent.
  rewrite <- (app_nil_r recent) at 1.
  apply intent_loop_recent.
Qed.

(** X5. With the default history bound of five, [get_previous_intent]
    reads the last four exchanges of the session, not five: it returns the
    intent of the latest of these four that carries one, and [None] if
    none does, whatever the older exchanges hold. *)
Theorem previous_intent_reads_last_four (M : memory) (sid : string)
    (conversations : list turn) :
  Py.nonempty sid = true ->
  m_conversations M !! sid = Some conversations ->
  get_previous_intent M (Some sid) 5
  = Ret (latest_intent (drop (length conversations - 4) conversations)).
Proof. apply previous_intent_of_history. Qed.

Lemma previous_intent_reads_last_four_witness :
  get_previous_intent five_turns (Some "s1") 5 = Ret VNone.
Proof.
  assert (Hs : Py.nonempty "s1" = true) by reflexivity.
  assert (Hc : m_conversations five_turns !! "s1"
               = Some [turn_with_intent "cancel_appointment"; turn_without_intent;
                       turn_without_intent; turn_without_intent; turn_without_intent])
    by (vm_compute; reflexivity).
  exact (previous_intent_reads_last_four five_turns "s1" _ Hs Hc).
Defined.

(** X6. After a call for a session with a context that carries an intent,
    [get_previous_intent] returns that intent, also when the extraction of
    entities raised during the call. *)
Theorem stored_intent_is_previous_intent (E : env) (M : memory)
    (sid user_text ai_response : string) (ctx : gmap string pyval) (v : pyval) :
  Py.nonempty sid = true ->
  ctx !! "intent" = Some v ->
  get_previous_intent
    (update_memory_with_conversation E M (Some sid) user_text ai_response ctx).1
    (Some sid) 5
  = Ret v.
Proof.
  intros Hs Hv.
  destruct (update_memory_shape E M sid user_text ai_response ctx Hs) as (Hc & _).
  rewrite (previous_intent_of_history _ sid _ Hs Hc).
  set (old := at_key sid [] (m_conversations M)).
  set (t := Turn user_text ai_response (now_iso E) ctx).
  rewrite length_app. cbn [length].
  replace (length old + 1 - 4)%nat with (length old - 3)%nat by lia.
  rewrite drop_app_le by lia.
  unfold latest_intent. rewrite rev_app_distr. cbn [rev app first_intent t_context t].
  rewrite Hv. reflexivity.
Qed.

Lemma stored_intent_is_previous_intent_witness :
  get_previous_intent
    (update_memory_with_conversation wednesday_env five_turns (Some "s1")
       "friday" "ok" (<["intent" := VStr "check_availability"]> ∅)).1
    (Some "s1") 5
  = Ret (VStr "check_availability").
Proof.
  apply stored_intent_is_previous_intent; [reflexivity|].
  vm_compute. reflexivity.
Defined.

Lemma str_in_false (v : string) (l : list pyval) :
  str_in v l = false -> VStr v ∉ l.
Proof.
  unfold str_in. intros H Hin.
  assert (Hex : existsb (fun x => is_str x v) l = true).
  { apply existsb_exists. exists (VStr v). split.
    - apply list_elem_of_In. exact Hin.
    - unfold is_str, Py.eqs. apply String.eqb_refl. }
  congruence.
Qed.

Lemma remember_no_repeats (key : string) (value : option string)
    (d : gmap string (list pyval)) :
  (forall k l, d !! k = Some l -> NoDup l) ->
  forall k l, remember key value d !! k = Some l -> NoDup l.
Proof.
  intros Hd k l. unfold remember.
  destruct value as [v|]; [|apply Hd].
  destruct (Py.nonempty v); [|apply Hd].
  destruct (decide (key = k)) as [->|Hne].
  - rewrite lookup_insert_eq. intros [= <-].
    assert (Hl : NoDup (at_key k [] d)).
    { unfold at_key. destruct (d !! k) eqn:Hk; [eapply Hd; eauto|constructor]. }
    destruct (str_in v (at_key k [] d)) eqn:Hin; [exact Hl|].
    apply NoDup_app. split; [exact Hl|]. split.
    + intros x Hx Hx'. apply list_elem_of_singleton in Hx'. subst x.
      exact (str_in_false _ _ Hin Hx).
    + apply NoDup_singleton.
  - rewrite lookup_insert_ne by exact Hne. apply Hd.
Qed.

(** X7. The lists of remembered entity values never hold a value twice:
    a call keeps this true of the whole memory, so a value that is
    mentioned again is not moved to the end of its list. *)
Theorem entity_memory_keeps_no_repeats (E : env) (M : memory)
    (session_id : option string) (user_text ai_response : string)
    (ctx : gmap string pyval) :
  no_repeats M ->
  no_repeats (update_memory_with_conversation E M session_id user_text ai_response ctx).1.
Proof.
  intros HM. unfold update_memory_with_conversation.
  destruct session_id as [sid|]; [|exact HM].
  destruct (Py.nonempty sid); cbn [negb]; [|exact HM].
  assert (Hinit : forall s d key l,
             init_key sid ∅ (m_entities M) !! s = Some d -> d !! key = Some l -> NoDup l).
  { intros s d key l. unfold init_key.
    destruct (m_entities M !! sid) eqn:Hsid; [apply HM|].
    destruct (decide (sid = s)) as [->|Hne].
    - rewrite lookup_insert_eq. intros [= <-]. rewrite lookup_empty. discriminate.
    - rewrite lookup_insert_ne by exact Hne. apply HM. }
  destruct (extract_entities E user_text) as [found|]; cbn [fst];
    intros s d key l; cbn [m_entities]; [|apply Hinit].
  destruct (decide (sid = s)) as [->|Hne].
  - rewrite lookup_insert_eq. intros [= <-]. revert key l.
    unfold remember_all. repeat apply remember_no_repeats.
    intros k l. unfold at_key.
    destruct (init_key s ∅ (m_entities M) !! s) eqn:Hs; [eapply Hinit; eauto|].
    rewrite lookup_empty. discriminate.
  - rewrite lookup_insert_ne by exact Hne. apply Hinit.
Qed.

Lemma entity_memory_keeps_no_repeats_witness :
  no_repeats john_mary_memory
  /\ extract_entities wednesday_env "John" = Ret (Entities (Some "John") None None)
  /\ no_repeats
       (update_memory_with_conversation wednesday_env john_mary_memory (Some "s1")
          "John" "ok" ∅).1
  /\ m_entities
       (update_memory_with_conversation wednesday_env john_mary_memory (Some "s1")
          "John" "ok" ∅).1 !! "s1"
     = Some (<["person" := [VStr "John"; VStr "Mary"]]> ∅).
Proof.
  assert (HM : no_repeats john_mary_memory).
  { intros sid d key l Hs Hk. cbn [john_mary_memory m_entities] in Hs.
    apply lookup_insert_Some in Hs as [[_ <-]|[_ Hs]];
      [|rewrite lookup_empty in Hs; discriminate Hs].
    apply lookup_insert_Some in Hk as [[_ <-]|[_ Hk]];
      [|rewrite lookup_empty in Hk; discriminate Hk].
    constructor.
    - intros Hin. apply list_elem_of_singleton in Hin. discriminate Hin.
    - apply NoDup_singleton. }
  split; [exact HM|]. split; [vm_compute; reflexivity|]. split.
  - apply entity_memory_keeps_no_repeats. exact HM.
  - vm_compute. reflexivity.
Defined.

Lemma users_fold_lookup (ctx user : gmap string pyval) (k : string) :
  map_fold (fun key value c => if has c key then c else <[key := value]> c) ctx user !! k
  = match ctx !! k with Some v => Some v | None => user !! k end.
Proof.
  revert k.
  apply (map_fold_weak_ind
           (fun r m => forall k, r !! k = match ctx !! k with
                                          | Some v => Some v
                                          | None => m !! k
                                          end)).
  - intros k. rewrite lookup_empty. destruct (ctx !! k); reflexivity.
  - intros i x m r Hi IH k. unfold has.
    destruct (decide (i = k)) as [->|Hne].
    + specialize (IH k). rewrite Hi in IH. rewrite lookup_insert_eq.
      destruct (r !! k) eqn:Hr.
      * rewrite Hr. destruct (ctx !! k); [exact IH|discriminate IH].
      * rewrite lookup_insert_eq. destruct (ctx !! k); [discriminate IH|reflexivity].
    + rewrite (lookup_insert_ne m) by exact Hne. rewrite <- IH.
      destruct (r !! i); [reflexivity|]. apply lookup_insert_ne. exact Hne.
Qed.

Lemma entities_fold_lookup (ctx : gmap string pyval)
    (ents : gmap string (list pyval)) (k : string) :
  map_fold (fun key values c =>
              if negb (has c key) && nonnil values
              then <[key := last_value values]> c else c) ctx ents !! k
  = match ctx !! k with
    | Some v => Some v
    | None => match ents !! k with
              | Some (x :: l) => Some (last_value (x :: l))
              | _ => None
              end
    end.
Proof.
  revert k.
  apply (map_fold_weak_ind
           (fun r m => forall k, r !! k = match ctx !! k with
                                          | Some v => Some v
                                          | None => match m !! k with
                                                    | Some (x :: l) => Some (last_value (x :: l))
                                                    | _ => None
                                                    end
                                          end)).
  - intros k. rewrite lookup_empty. destruct (ctx !! k); reflexivity.
  - intros i x m r Hi IH k. unfold has.
    destruct (decide (i = k)) as [->|Hne].
    + specialize (IH k). rewrite Hi in IH. rewrite lookup_insert_eq.
      destruct (r !! k) eqn:Hr; cbn [negb andb].
      * rewrite Hr. destruct (ctx !! k); [exact IH|discriminate IH].
      * destruct x as [|y l]; cbn [nonnil].
        -- rewrite Hr. destruct (ctx !! k); [discriminate IH|reflexivity].
        -- rewrite lookup_insert_eq. destruct (ctx !! k); [discriminate IH|reflexivity].
    + rewrite (lookup_insert_ne m) by exact Hne. rewrite <- IH.
      destruct (negb _ && _); [|reflexivity]. apply lookup_insert_ne. exact Hne.
Qed.

(** X8. [get_memory_for_context] never replaces a value of the context:
    a key has the context's value if the context has one, else what is
    stored for the user, else the last remembered entity value, and is
    absent otherwise.  Without a session id the context comes back as it
    is. *)
Theorem memory_fills_only_missing_keys (M : memory) (sid : string)
    (ctx : gmap string pyval) (k : string) :
  Py.nonempty sid = true ->
  get_memory_for_context M (Some sid) (Some ctx) !! k = recalled M sid ctx k
  /\ get_memory_for_context M None (Some ctx) = ctx
  /\ get_memory_for_context M (Some "") (Some ctx) = ctx.
Proof.
  intros Hs. split; [|split; reflexivity].
  unfold get_memory_for_context, recalled. rewrite Hs. cbn [negb].
  destruct (m_users M !! sid) as [user|], (m_entities M !! sid) as [ents|];
    cbn [mbind option_bind];
    rewrite ?entities_fold_lookup, ?users_fold_lookup;
    destruct (ctx !! k); try reflexivity;
    try (destruct (user !! k); reflexivity).
Qed.

Lemma memory_fills_only_missing_keys_witness :
  get_memory_for_context
    (Memory ∅ ∅ (<["s1" := <["person" := [VStr "John"; VStr "Mary"]]> ∅]> ∅) ∅ ∅)
    (Some "s1") (Some (<["date" := VStr "2026-11-05"]> ∅)) !! "person"
  = Some (VStr "Mary").
Proof.
  assert (Hs : Py.nonempty "s1" = true) by reflexivity.
  pose proof (memory_fills_only_missing_keys
                (Memory ∅ ∅ (<["s1" := <["person" := [VStr "John"; VStr "Mary"]]> ∅]> ∅) ∅ ∅)
                "s1" (<["date" := VStr "2026-11-05"]> ∅) "person" Hs) as [H _].
  rewrite H. vm_compute. reflexivity.
Defined.

Lemma is_space_lower_char (c : ascii) :
  Py.is_space (Py.lower_char c) = Py.is_space c.
Proof. destruct c as [[] [] [] [] [] [] [] []]; vm_compute; reflexivity. Qed.

Lemma lower_lstrip (s : string) : Py.lower (Py.lstrip s) = Py.lstrip (Py.lower s).
Proof.
  induction s as [|c s IH]; [reflexivity|].
  cbn [Py.lstrip Py.lower Py.smap]. rewrite is_space_lower_char.
  destruct (Py.is_space c); [exact IH|reflexivity].
Qed.

Lemma lower_srev_acc (s acc : string) :
  Py.lower (Py.srev_acc s acc) = Py.srev_acc (Py.lower s) (Py.lower acc).
Proof.
  revert acc. induction s as [|c s IH]; intros acc; [reflexivity|].
  cbn [Py.srev_acc Py.lower Py.smap]. rewrite IH. reflexivity.
Qed.

Lemma lower_strip (s : string) : Py.lower (Py.strip s) = Py.strip (Py.lower s).
Proof.
  unfold Py.strip, Py.srev.
  rewrite lower_srev_acc, lower_lstrip, lower_srev_acc, lower_lstrip. reflexivity.
Qed.

Lemma startswith_refl (s : string) : Py.startswith s s = true.
Proof.
  induction s as [|c s IH]; [reflexivity|].
  cbn [Py.startswith]. rewrite Ascii.eqb_refl. exact IH.
Qed.

Lemma contains_refl (s : string) : Py.contains s s = true.
Proof. destruct s; cbn [Py.contains]; rewrite startswith_refl; reflexivity. Qed.

Lemma contains_empty (s : string) : Py.contains "" s = true.
Proof. destruct s; reflexivity. Qed.

(** X9. A text with a question mark that was stored for a session is
    afterwards found by [has_similar_question_been_asked], whatever its
    letter case and the white space around it. *)
Theorem stored_question_is_found (E : env) (M : memory)
    (sid user_text ai_response : string) (ctx : gmap string pyval) :
  Py.nonempty sid = true ->
  Py.contains "?" user_text = true ->
  (update_memory_with_conversation E M (Some sid) user_text ai_response ctx).2 = Ret () ->
  has_similar_question_been_asked
    (update_memory_with_conversation E M (Some sid) user_text ai_response ctx).1
    (Some sid) user_text = true.
Proof.
  intros Hs Hq. unfold update_memory_with_conversation. rewrite Hs, Hq. cbn [negb].
  destruct (extract_entities E user_text) as [found|]; cbn [fst snd]; [|discriminate].
  intros _. unfold has_similar_question_been_asked. rewrite Hs. cbn [negb m_questions_asked].
  rewrite lookup_insert_eq. apply existsb_exists. exists (Py.strip user_text). split.
  - apply list_elem_of_In, elem_of_elements. set_solver.
  - rewrite lower_strip, contains_refl. reflexivity.
Qed.

Lemma stored_question_is_found_witness :
  has_similar_question_been_asked
    (update_memory_with_conversation wednesday_env empty_memory (Some "s1")
       "  Is John free?  " "ok" ∅).1
    (Some "s1") "  Is John free?  " = true.
Proof.
  apply stored_question_is_found; vm_compute; reflexivity.
Defined.

(** X10. A blank question counts as asked before as soon as the session
    has any stored question: the empty text is part of every text. *)
Theorem blank_question_counts_as_asked (M : memory) (sid question asked : string)
    (asked_questions : gset string) :
  Py.nonempty sid = true ->
  m_questions_asked M !! sid = Some asked_questions ->
  asked ∈ asked_questions ->
  Py.strip (Py.lower question) = "" ->
  has_similar_question_been_asked M (Some sid) question = true.
Proof.
  intros Hs Hq Hin Hblank. unfold has_similar_question_been_asked.
  rewrite Hs, Hq, Hblank. cbn [negb].
  apply existsb_exists. exists asked. split.
  - apply list_elem_of_In, elem_of_elements. exact Hin.
  - rewrite contains_empty. reflexivity.
Qed.

Lemma blank_question_counts_as_asked_witness :
  has_similar_question_been_asked
    (Memory ∅ ∅ ∅ ∅ (<["s1" := {["when is john free?"]}]> ∅)) (Some "s1") "   " = true.
Proof.
  apply (blank_question_counts_as_asked _ "s1" "   " "when is john free?"
           {["when is john free?"]}).
  - reflexivity.
  - vm_compute. reflexivity.
  - set_solver.
  - vm_compute. reflexivity.
Defined.

(** ** Substitution *)

Lemma step_ends {A} (p : ascii -> bool) (st : Re.mstate)
    (k : Re.mstate -> option A) (res : A) :
  ReM.step p st k = Some res ->
  exists c s',
    Re.rest st = String c s' /\ p c = true
    /\ k (Re.MState (Some c) s' (Re.caps st)) = Some res.
Proof.
  unfold ReM.step. destruct (Re.rest st) as [|c s']; [discriminate|].
  destruct (p c) eqn:Hp; [|discriminate]. eauto.
Qed.

Lemma star_loop_ends {A} (dotall greedy : bool) (a : Re.regex)
    (body : Re.mstate -> (Re.mstate -> option A) -> option A)
    (k : Re.mstate -> option A) :
  ends_at dotall a body ->
  forall n st res,
    ReM.star_loop greedy body k n st = Some res ->
    exists w st',
      Re.rest st = (w ++ Re.rest st')%string
      /\ Re.sem dotall (Re.RStar greedy a) (Re.caps st) w (Re.caps st')
      /\ k st' = Some res.
Proof.
  intros Hbody. induction n as [|n IH]; intros st res H; simpl in H.
  - exists EmptyString, st. repeat split; [constructor|exact H].
  - assert (Hstop : k st = Some res ->
                    exists w st',
                      Re.rest st = (w ++ Re.rest st')%string
                      /\ Re.sem dotall (Re.RStar greedy a) (Re.caps st) w (Re.caps st')
                      /\ k st' = Some res).
    { intros Hk. exists EmptyString, st. repeat split; [constructor|exact Hk]. }
    assert (Hmore : body st (fun st1 =>
                      if (String.length (Re.rest st1) <? String.length (Re.rest st))%nat
                      then ReM.star_loop greedy body k n st1 else None) = Some res ->
                    exists w st',
                      Re.rest st = (w ++ Re.rest st')%string
                      /\ Re.sem dotall (Re.RStar greedy a) (Re.caps st) w (Re.caps st')
                      /\ k st' = Some res).
    { intros Hm. apply Hbody in Hm as (w1 & st1 & E1 & S1 & Hk).
      destruct (String.length (Re.rest st1) <? String.length (Re.rest st))%nat;
        [|discriminate].
      apply IH in Hk as (w2 & st2 & E2 & S2 & Hk).
      exists (w1 ++ w2)%string, st2. split; [|split; [|exact Hk]].
      - rewrite E1, E2, sapp_assoc. reflexivity.
      - econstructor; eauto. }
    destruct greedy; unfold Re.orelse in H.
    + destruct (body st _) eqn:Hb; [injection H as ->; auto|auto].
    + destruct (k st) eqn:Hk; [injection H as ->; auto|auto].
Qed.

Lemma rmatch_ends {A} (multiline dotall : bool) (r : Re.regex) :
  ends_at (A := A) dotall r (ReM.rmatch multiline dotall r).
Proof.
  induction r as [|a| |neg items|a IHa b IHb|a IHa b IHb|g a IHa|i a IHa| | |];
    intros st k res H; simpl in H.
  - exists EmptyString, st. repeat split; [constructor|exact H].
  - apply step_ends in H as (c & s' & E & Hp & Hk). apply Ascii.eqb_eq in Hp. subst c.
    exists (String a EmptyString), (Re.MState (Some a) s' (Re.caps st)).
    repeat split; [exact E|constructor|exact Hk].
  - apply step_ends in H as (c & s' & E & Hp & Hk).
    exists (String c EmptyString), (Re.MState (Some c) s' (Re.caps st)).
    repeat split; [exact E|constructor; exact Hp|exact Hk].
  - apply step_ends in H as (c & s' & E & Hp & Hk).
    exists (String c EmptyString), (Re.MState (Some c) s' (Re.caps st)).
    repeat split; [exact E|constructor; exact Hp|exact Hk].
  - apply IHa in H as (w1 & st1 & E1 & S1 & Hk).
    apply IHb in Hk as (w2 & st2 & E2 & S2 & Hk).
    exists (w1 ++ w2)%string, st2. split; [|split; [|exact Hk]].
    + rewrite E1, E2, sapp_assoc. reflexivity.
    + econstructor; eauto.
  - unfold Re.orelse in H. destruct (ReM.rmatch multiline dotall a st k) eqn:Ha.
    + injection H as ->. apply IHa in Ha as (w & st' & E & S & Hk).
      exists w, st'. repeat split; [exact E|apply Re.sem_alt_l; exact S|exact Hk].
    + apply IHb in H as (w & st' & E & S & Hk).
      exists w, st'. repeat split; [exact E|apply Re.sem_alt_r; exact S|exact Hk].
  - apply (star_loop_ends dotall g a (ReM.rmatch multiline dotall a) k IHa
             (S (String.length (Re.rest st))) st res).
    exact H.
  - apply IHa in H as (w & st1 & E & S & Hk).
    exists w, (Re.set_cap i st st1). split; [exact E|]. split; [|exact Hk].
    unfold Re.set_cap. cbn [Re.caps]. rewrite (consumed_app st st1 w E).
    constructor. exact S.
  - exists EmptyString, st.
    destruct (Re.prev st); [destruct (_ && _); [|discriminate]|];
      repeat split; try constructor; exact H.
  - exists EmptyString, st.
    destruct (Re.rest st) as [|c s']; [|destruct (_ && _); [|discriminate]];
      repeat split; try constructor; exact H.
  - destruct (xorb _ _); [|discriminate].
    exists EmptyString, st. repeat split; [constructor|exact H].
Qed.

(** A match that [match_end] reports: the text it took, in front of the
    rest, and not empty when the match had to advance. *)
Lemma match_end_sound (multiline dotall must_advance : bool) (r : Re.regex)
    (p : option ascii) (s : string) (st : Re.mstate) :
  ReM.match_end multiline dotall r must_advance p s = Some st ->
  exists w,
    s = (w ++ Re.rest st)%string
    /\ Re.sem dotall r [] w (Re.caps st)
    /\ (must_advance = true -> w <> EmptyString).
Proof.
  unfold ReM.match_end. intros H.
  apply rmatch_ends in H as (w & st' & E & S & Hk). cbn [Re.rest Re.caps] in E, S.
  destruct (must_advance && _) eqn:Hma; [discriminate|]. injection Hk as <-.
  exists w. split; [exact E|]. split; [exact S|].
  intros ->. cbn [andb] in Hma. intros ->. cbn [String.append] in E.
  rewrite E, Nat.eqb_refl in Hma. discriminate.
Qed.

Lemma sall_app (p : ascii -> bool) (a b : string) :
  ReM.sall p (a ++ b) = ReM.sall p a && ReM.sall p b.
Proof.
  induction a as [|c a IH]; [reflexivity|].
  change (p c && ReM.sall p (a ++ b) = p c && ReM.sall p a && ReM.sall p b).
  rewrite IH, andb_assoc. reflexivity.
Qed.

Lemma all_ascii_complete (x : ascii) : In x ReM.all_ascii.
Proof.
  unfold ReM.all_ascii. apply in_map_iff. exists (nat_of_ascii x). split.
  - apply ascii_nat_embedding.
  - apply in_seq. pose proof (nat_ascii_bounded x). lia.
Qed.

(** A pattern that needs a character of some kind matches no text that
    is free of them. *)
Lemma needs_sound (p : ascii -> bool) (dotall : bool) (r : Re.regex)
    (c c' : Re.captures) (w : string) :
  Re.sem dotall r c w c' ->
  ReM.needs p r = true ->
  ReM.sall (fun x => negb (p x)) w = false.
Proof.
  induction 1; cbn [ReM.needs]; intros Hn; try discriminate Hn.
  - cbn [ReM.sall]. rewrite Hn. reflexivity.
  - rewrite forallb_forall in Hn. specialize (Hn x (all_ascii_complete x)).
    rewrite H in Hn. cbn [negb orb] in Hn. cbn [ReM.sall]. rewrite Hn. reflexivity.
  - rewrite sall_app. apply orb_true_iff in Hn as [Hn|Hn].
    + rewrite IHsem1 by exact Hn. reflexivity.
    + rewrite IHsem2 by exact Hn. apply andb_false_r.
  - apply andb_true_iff in Hn as [Hn _]. auto.
  - apply andb_true_iff in Hn as [_ Hn]. auto.
  - auto.
Qed.

(** The groups of a match are made of characters of the matched text. *)
Lemma sem_groups (q : ascii -> bool) (dotall : bool) (r : Re.regex)
    (c c' : Re.captures) (w : string) :
  Re.sem dotall r c w c' ->
  ReM.sall q w = true ->
  Forall (fun g => ReM.sall q g.2 = true) c ->
  Forall (fun g => ReM.sall q g.2 = true) c'.
Proof.
  induction 1; intros Hw Hc; auto;
    try (rewrite sall_app in Hw; apply andb_true_iff in Hw as [H1 H2]; auto).
Qed.

Lemma group_or_empty_all (q : ascii -> bool) (m : Re.captures) (i : nat) :
  Forall (fun g => ReM.sall q g.2 = true) m ->
  ReM.sall q (Re.group_or_empty m i) = true.
Proof.
  unfold Re.group_or_empty. induction 1 as [|[j g] m Hg Hm IH]; [reflexivity|].
  cbn [Re.group]. destruct (Nat.eqb i j); [exact Hg|exact IH].
Qed.

Lemma expand_two (c d : ascii) (t : string) (m : Re.captures) :
  ReM.expand (String c (String d t)) m
  = if Ascii.eqb c "\" && Py.is_digit d
    then (Re.group_or_empty m (Z.to_nat (Py.digit_val d)) ++ ReM.expand t m)%string
    else String c (ReM.expand (String d t) m).
Proof. reflexivity. Qed.

Lemma expand_all (q : ascii -> bool) (m : Re.captures) (n : nat) (repl : string) :
  (String.length repl <= n)%nat ->
  Forall (fun g => ReM.sall q g.2 = true) m ->
  ReM.sall q (ReM.expand repl []) = true ->
  ReM.sall q (ReM.expand repl m) = true.
Proof.
  revert repl. induction n as [|n IH]; intros repl Hlen Hm.
  - destruct repl; [reflexivity|cbn [String.length] in Hlen; lia].
  - destruct repl as [|c t]; [reflexivity|]. cbn [String.length] in Hlen.
    destruct t as [|d t']; [cbn [ReM.expand]; auto|].
    cbn [String.length] in Hlen. rewrite !expand_two.
    destruct (Ascii.eqb c "\" && Py.is_digit d).
    + rewrite !sall_app. intros H. apply andb_true_iff in H as [_ H].
      rewrite group_or_empty_all by exact Hm. apply IH; [lia|exact Hm|exact H].
    + change (q c && ReM.sall q (ReM.expand (String d t') []) = true ->
              q c && ReM.sall q (ReM.expand (String d t') m) = true).
      intros H. apply andb_true_iff in H as [Hc H].
      rewrite Hc. apply IH; [cbn [String.length]; lia|exact Hm|exact H].
Qed.

(** A substitution brings in no character that is neither in the text
    nor in the replacement. *)
Lemma sub_scan_keeps (q : ascii -> bool) (multiline : bool) (r : Re.regex)
    (repl : string) :
  ReM.sall q (ReM.expand repl []) = true ->
  forall fuel must_advance p s,
    ReM.sall q s = true ->
    ReM.sall q (ReM.sub_scan fuel multiline r repl must_advance p s) = true.
Proof.
  intros Hrepl. induction fuel as [|fuel IH]; intros ma p s Hs; [exact Hs|].
  cbn [ReM.sub_scan].
  destruct (ReM.match_end multiline false r ma p s) as [st|] eqn:Hm.
  - apply match_end_sound in Hm as (w & E & S & _).
    assert (Hw : ReM.sall q w = true /\ ReM.sall q (Re.rest st) = true).
    { rewrite E, sall_app in Hs. apply andb_true_iff in Hs. exact Hs. }
    destruct Hw as [Hw Hrest].
    rewrite sall_app. apply andb_true_iff. split.
    + apply (expand_all q _ (String.length repl)); [lia| |exact Hrepl].
      apply (sem_groups q false r [] _ w S Hw). constructor.
    + destruct (_ =? _)%nat; apply IH; assumption.
  - destruct s as [|c s']; [reflexivity|].
    cbn [ReM.sall] in Hs |- *. apply andb_true_iff in Hs as [Hc Hs'].
    rewrite Hc. apply IH. exact Hs'.
Qed.

Lemma sub_keeps (q : ascii -> bool) (multiline : bool) (pattern repl s : string) :
  ReM.sall q (ReM.expand repl []) = true ->
  ReM.sall q s = true ->
  ReM.sall q (ReM.sub multiline pattern repl s) = true.
Proof.
  intros Hrepl Hs. unfold ReM.sub.
  destruct (ReM.compile pattern); [|exact Hs]. apply sub_scan_keeps; assumption.
Qed.

Lemma slength_zero (w : string) : String.length w = 0%nat -> w = EmptyString.
Proof. destruct w; [reflexivity|discriminate]. Qed.

(** A substitution by a text without the characters that the pattern
    matches at sight leaves none of them. *)
Lemma sub_scan_removes (q : ascii -> bool) (multiline : bool) (r : Re.regex)
    (repl : string) :
  (forall ma p c s', q c = false ->
     ReM.match_end multiline false r ma p (String c s') <> None) ->
  (forall m, ReM.sall q (ReM.expand repl m) = true) ->
  forall (fuel : nat) (must_advance : bool) p s,
    (2 * String.length s + (if must_advance then 0 else 1) < fuel)%nat ->
    ReM.sall q (ReM.sub_scan fuel multiline r repl must_advance p s) = true.
Proof.
  intros Hfind Hrepl. induction fuel as [|fuel IH]; intros ma p s Hfuel; [lia|].
  cbn [ReM.sub_scan].
  destruct (ReM.match_end multiline false r ma p s) as [st|] eqn:Hm.
  - apply match_end_sound in Hm as (w & E & _ & Hadv).
    assert (Hlen : String.length s = (String.length w + String.length (Re.rest st))%nat)
      by (rewrite E at 1; apply slength_app).
    rewrite sall_app, Hrepl. cbn [andb].
    destruct (Nat.eqb_spec (String.length (Re.rest st)) (String.length s)) as [Heq|Hne].
    + assert (Hw : w = EmptyString) by (apply slength_zero; lia).
      destruct ma; [exfalso; apply Hadv; [reflexivity|exact Hw]|].
      apply IH. lia.
    + apply IH. destruct ma; lia.
  - destruct s as [|c s']; [reflexivity|].
    cbn [ReM.sall]. destruct (q c) eqn:Hc.
    + cbn [andb]. apply IH. cbn [String.length] in Hfuel. destruct ma; lia.
    + exfalso. exact (Hfind ma p c s' Hc Hm).
Qed.

(** A text in which the pattern matches nowhere is left as it is. *)
Lemma sub_scan_same (multiline : bool) (r : Re.regex) (repl : string) :
  forall fuel must_advance p s,
    (forall ma, ReM.match_end multiline false r ma p s = None) ->
    (forall ma pre c t, s = (pre ++ String c t)%string ->
       ReM.match_end multiline false r ma (Some c) t = None) ->
    ReM.sub_scan fuel multiline r repl must_advance p s = s.
Proof.
  induction fuel as [|fuel IH]; intros ma p s Hhere Hlater; [reflexivity|].
  cbn [ReM.sub_scan]. rewrite (Hhere ma).
  destruct s as [|c s']; [reflexivity|]. f_equal. apply IH.
  - intros ma'. apply (Hlater ma' EmptyString c s'). reflexivity.
  - intros ma' pre c' t ->. apply (Hlater ma' (String c pre) c' t). reflexivity.
Qed.

Lemma sall_false_app (q : ascii -> bool) (pre w post : string) :
  ReM.sall q w = false -> ReM.sall q (pre ++ w ++ post) = false.
Proof.
  intros H. rewrite !sall_app, H. cbn [andb]. apply andb_false_r.
Qed.

Lemma needs_no_match (q : ascii -> bool) (multiline ma : bool) (r : Re.regex)
    (p : option ascii) (pre t : string) :
  ReM.needs (fun x => negb (q x)) r = true ->
  ReM.sall q (pre ++ t) = true ->
  ReM.match_end multiline false r ma p t = None.
Proof.
  intros Hn Hs.
  destruct (ReM.match_end multiline false r ma p t) as [st|] eqn:Hm; [|reflexivity].
  apply match_end_sound in Hm as (w & -> & S & _).
  pose proof (needs_sound _ _ _ _ _ _ S Hn) as Hw.
  assert (Hq : ReM.sall q w = false).
  { rewrite <- Hw. clear. induction w as [|c w IH]; [reflexivity|].
    cbn [ReM.sall]. rewrite negb_involutive, IH. reflexivity. }
  rewrite (sall_false_app q pre w (Re.rest st) Hq) in Hs. discriminate Hs.
Qed.

(** A pattern that needs a character the text is free of changes
    nothing. *)
Lemma sub_needs_same (q : ascii -> bool) (multiline : bool)
    (pattern repl s : string) (r : Re.regex) :
  ReM.compile pattern = Some r ->
  ReM.needs (fun x => negb (q x)) r = true ->
  ReM.sall q s = true ->
  ReM.sub multiline pattern repl s = s.
Proof.
  intros Hc Hn Hs. unfold ReM.sub. rewrite Hc. apply sub_scan_same.
  - intros ma. apply (needs_no_match q multiline ma r None EmptyString s Hn Hs).
  - intros ma pre c t ->.
    apply (needs_no_match q multiline ma r (Some c) (pre ++ String c EmptyString) t Hn).
    rewrite sapp_assoc. exact Hs.
Qed.

(** Under [re.MULTILINE] a pattern that begins with [^] matches only at
    the start of the text and behind a line feed. *)
Lemma bol_after_char (dotall ma : bool) (r : Re.regex) (c : ascii) (t : string) :
  Ascii.eqb c Re.newline = false ->
  ReM.match_end true dotall (Re.RSeq Re.RBol r) ma (Some c) t = None.
Proof.
  intros Hc. unfold ReM.match_end. cbn [ReM.rmatch Re.prev]. rewrite Hc. reflexivity.
Qed.

Lemma sall_at (q : ascii -> bool) (pre t : string) (c : ascii) :
  ReM.sall q (pre ++ String c t) = true -> q c = true.
Proof.
  rewrite sall_app. cbn [ReM.sall]. intros H.
  apply andb_true_iff in H as [_ H]. apply andb_true_iff in H as [H _]. exact H.
Qed.

Lemma sub_anchored_same (pattern repl s : string) (r : Re.regex) :
  ReM.compile pattern = Some (Re.RSeq Re.RBol r) ->
  (forall ma, ReM.match_end true false (Re.RSeq Re.RBol r) ma None s = None) ->
  ReM.sall (fun c => negb (Ascii.eqb c Re.newline)) s = true ->
  ReM.sub true pattern repl s = s.
Proof.
  intros Hc Hstart Hs. unfold ReM.sub. rewrite Hc. apply sub_scan_same.
  - exact Hstart.
  - intros ma pre c t ->. apply bol_after_char.
    apply sall_at in Hs. apply negb_true_iff in Hs. exact Hs.
Qed.

(** ** Text for speech output *)

Lemma sub_patterns_compile :
  forallb (fun p => match ReM.compile p with Some _ => true | None => false end)
          sub_patterns = true.
Proof. vm_compute. reflexivity. Qed.

(** The extended syntax reads the patterns of the searches as before. *)
Lemma compile_agrees : map ReM.compile all_patterns = map Re.compile all_patterns.
Proof. vm_compute. reflexivity. Qed.

Lemma slength_neq_tail (c : ascii) (s : string) :
  (String.length s =? String.length (String c s))%nat = false.
Proof. apply Nat.eqb_neq. cbn [String.length]. lia. Qed.

Lemma markup_cases (c : ascii) :
  markup_free c = false -> c = "*"%char \/ c = "^"%char \/ c = Py.chr 96.
Proof.
  unfold markup_free. intros H. apply negb_false_iff in H.
  apply orb_true_iff in H as [H|H]; [apply orb_true_iff in H as [H|H]|];
    apply Ascii.eqb_eq in H; auto.
Qed.

Lemma emphasis_found (ma : bool) (p : option ascii) (c : ascii) (s' : string) :
  markup_free c = false ->
  ReM.match_end false false emphasis_regex ma p (String c s') <> None.
Proof.
  intros H. destruct (markup_cases c H) as [->|[->| ->]];
    unfold ReM.match_end, emphasis_regex;
    cbn [ReM.rmatch ReM.step Re.rest Re.caps Re.prev];
    cbv [Ascii.eqb Bool.eqb Py.chr ascii_of_nat ascii_of_pos Z.to_nat Pos.to_nat
         Pos.iter_op Nat.add ascii_of_N N.of_nat Pos.of_succ_nat Pos.succ
         Ascii.shift Ascii.zero Ascii.one];
    cbn [Re.orelse Re.rest];
    rewrite ?slength_neq_tail, ?andb_false_r;
    unfold Re.orelse;
    repeat match goal with
           | |- context [match ?x with Some _ => _ | None => _ end] => destruct x
           end;
    discriminate.
Qed.

(** *** White space at the ends *)

Lemma srev_acc_app (s acc : string) : Py.srev_acc s acc = (Py.srev s ++ acc)%string.
Proof.
  unfold Py.srev. revert acc. induction s as [|c s IH]; intros acc; [reflexivity|].
  cbn [Py.srev_acc]. rewrite IH, (IH (String c EmptyString)), sapp_assoc. reflexivity.
Qed.

Lemma srev_cons (c : ascii) (s : string) :
  Py.srev (String c s) = (Py.srev s ++ String c EmptyString)%string.
Proof. unfold Py.srev at 1. cbn [Py.srev_acc]. apply srev_acc_app. Qed.

Lemma sapp_nil_r (s : string) : (s ++ "")%string = s.
Proof.
  induction s as [|c s IH]; [reflexivity|].
  change (String c (s ++ "") = String c s). f_equal. exact IH.
Qed.

Lemma srev_app (a b : string) : Py.srev (a ++ b) = (Py.srev b ++ Py.srev a)%string.
Proof.
  induction a as [|c a IH].
  - change (Py.srev b = (Py.srev b ++ "")%string). rewrite sapp_nil_r. reflexivity.
  - change (Py.srev (String c (a ++ b)) = (Py.srev b ++ Py.srev (String c a))%string).
    rewrite !srev_cons, IH, sapp_assoc. reflexivity.
Qed.

Lemma srev_involutive (s : string) : Py.srev (Py.srev s) = s.
Proof.
  induction s as [|c s IH]; [reflexivity|].
  rewrite srev_cons, srev_app, IH. reflexivity.
Qed.

Lemma lstrip_split (s : string) :
  exists sp, s = (sp ++ Py.lstrip s)%string /\ ReM.sall Py.is_space sp = true.
Proof.
  induction s as [|c s (sp & E & Hsp)]; [exists EmptyString; split; reflexivity|].
  cbn [Py.lstrip]. destruct (Py.is_space c) eqn:Hc.
  - exists (String c sp). split.
    + change (String c s = String c (sp ++ Py.lstrip s)). f_equal. exact E.
    + cbn [ReM.sall]. rewrite Hc. exact Hsp.
  - exists EmptyString. split; reflexivity.
Qed.

Lemma no_lead_lstrip (s : string) : no_lead (Py.lstrip s) = true.
Proof.
  induction s as [|c s IH]; [reflexivity|].
  cbn [Py.lstrip]. destruct (Py.is_space c) eqn:Hc; [exact IH|].
  cbn [no_lead]. rewrite Hc. reflexivity.
Qed.

Lemma lstrip_no_lead (s : string) : no_lead s = true -> Py.lstrip s = s.
Proof.
  destruct s as [|c s]; [reflexivity|]. cbn [no_lead Py.lstrip].
  destruct (Py.is_space c); [discriminate|reflexivity].
Qed.

Lemma no_lead_prefix (a b : string) :
  no_lead (a ++ b) = true -> a <> EmptyString -> no_lead a = true.
Proof. destruct a as [|c a]; [congruence|]. intros H _. exact H. Qed.

(** Stripping leaves no white space at either end. *)
Lemma strip_ends (s : string) :
  no_lead (Py.strip s) = true /\ no_lead (Py.srev (Py.strip s)) = true.
Proof.
  unfold Py.strip. set (a := Py.lstrip s). set (b := Py.lstrip (Py.srev a)).
  rewrite srev_involutive. split; [|apply no_lead_lstrip].
  destruct (lstrip_split (Py.srev a)) as (sp & E & _). fold b in E.
  assert (Ha : a = (Py.srev b ++ Py.srev sp)%string).
  { rewrite <- srev_app, <- E, srev_involutive. reflexivity. }
  destruct (Py.srev b) as [|x y] eqn:Hb; [reflexivity|].
  apply (no_lead_prefix (String x y) (Py.srev sp)); [|discriminate].
  rewrite <- Ha. apply no_lead_lstrip.
Qed.

Lemma strip_same (s : string) :
  no_lead s = true -> no_lead (Py.srev s) = true -> Py.strip s = s.
Proof.
  intros H1 H2. unfold Py.strip.
  rewrite (lstrip_no_lead s H1), (lstrip_no_lead _ H2). apply srev_involutive.
Qed.

Lemma strip_idempotent (s : string) : Py.strip (Py.strip s) = Py.strip s.
Proof. destruct (strip_ends s) as [H1 H2]. apply strip_same; assumption. Qed.

Lemma sall_lstrip (q : ascii -> bool) (s : string) :
  ReM.sall q s = true -> ReM.sall q (Py.lstrip s) = true.
Proof.
  intros H. destruct (lstrip_split s) as (sp & E & _).
  rewrite E, sall_app in H. apply andb_true_iff in H as [_ H]. exact H.
Qed.

Lemma sall_srev (q : ascii -> bool) (s : string) :
  ReM.sall q (Py.srev s) = ReM.sall q s.
Proof.
  induction s as [|c s IH]; [reflexivity|].
  rewrite srev_cons, sall_app, IH. cbn [ReM.sall]. rewrite andb_true_r.
  apply andb_comm.
Qed.

Lemma sall_strip (q : ascii -> bool) (s : string) :
  ReM.sall q s = true -> ReM.sall q (Py.strip s) = true.
Proof.
  intros H. unfold Py.strip. rewrite sall_srev. apply sall_lstrip.
  rewrite sall_srev. apply sall_lstrip. exact H.
Qed.

Lemma speech_text_has_no_markup_part (text : string) :
  ReM.sall markup_free (strip_markdown text) = true.
Proof.
  unfold strip_markdown. destruct text as [|c text]; [reflexivity|].
  cbn [Py.nonempty negb]. apply sall_strip.
  do 10 (apply sub_keeps; [vm_compute; reflexivity|]).
  unfold ReM.sub.
  change (ReM.compile ("\*\*|\*|__|\^|~~|" ++ bq)) with (Some emphasis_regex).
  apply sub_scan_removes; [apply emphasis_found|reflexivity|lia].
Qed.

(** X11. Text prepared for speech holds no asterisk, no caret and no
    backquote, whatever the text was, and has no white space at its
    ends. *)
Theorem speech_text_has_no_markup (text : string) :
  ReM.sall markup_free (strip_markdown text) = true
  /\ Py.strip (strip_markdown text) = strip_markdown text.
Proof.
  split; [apply speech_text_has_no_markup_part|].
  unfold strip_markdown. destruct text as [|c text]; [reflexivity|].
  cbn [Py.nonempty negb]. apply strip_idempotent.
Qed.

(** *** Plain sentences *)

Lemma plain_char_facts (c : ascii) :
  plain_char c = true ->
  Ascii.eqb c Re.newline = false
  /\ (Py.is_space c = true -> c = " "%char).
Proof.
  destruct c as [[] [] [] [] [] [] [] []]; vm_compute; intros H;
    first [discriminate H | split; [reflexivity|intros H'; first [reflexivity|discriminate H']]].
Qed.

Lemma alpha_facts (c : ascii) :
  Py.is_alpha c = true ->
  Re.set_has false [Re.CSpace] c = false
  /\ Re.set_has false [Re.CDigit] c = false
  /\ Re.set_has false [Re.CChar "*"; Re.CChar "-"; Re.CChar "+"] c = false.
Proof.
  destruct c as [[] [] [] [] [] [] [] []]; vm_compute; intros H;
    first [discriminate H | repeat split].
Qed.

Lemma sall_impl (q q' : ascii -> bool) (s : string) :
  (forall c, q c = true -> q' c = true) ->
  ReM.sall q s = true -> ReM.sall q' s = true.
Proof.
  intros Hq. induction s as [|c s IH]; [reflexivity|].
  cbn [ReM.sall]. intros H. apply andb_true_iff in H as [Hc Hs].
  rewrite (Hq c Hc), (IH Hs). reflexivity.
Qed.

Lemma bullet_not_at_letter (ma : bool) (c : ascii) (t : string) :
  Py.is_alpha c = true ->
  ReM.match_end true false bullet_regex ma None (String c t) = None.
Proof.
  intros H. destruct (alpha_facts c H) as (Hs & Hd & Hb).
  unfold ReM.match_end, bullet_regex.
  cbn [ReM.rmatch ReM.step ReM.star_loop Re.rest Re.caps Re.prev String.length].
  rewrite Hs, Hb. reflexivity.
Qed.

Lemma number_not_at_letter (ma : bool) (c : ascii) (t : string) :
  Py.is_alpha c = true ->
  ReM.match_end true false number_regex ma None (String c t) = None.
Proof.
  intros H. destruct (alpha_facts c H) as (Hs & Hd & Hb).
  unfold ReM.match_end, number_regex.
  cbn [ReM.rmatch ReM.step ReM.star_loop Re.rest Re.caps Re.prev String.length].
  rewrite Hs, Hd. reflexivity.
Qed.

Lemma spaces_shape (w : string) (g : Re.captures) :
  Re.sem false spaces_regex [] w g ->
  exists a b w', w = String a (String b w')
                 /\ Py.is_space a = true /\ Py.is_space b = true.
Proof.
  unfold spaces_regex. intros H. sem_inv.
  repeat match goal with
         | H : Re.set_has false [Re.CSpace] _ = true |- _ =>
             unfold Re.set_has in H; cbn [existsb Re.citem_has xorb] in H;
             rewrite orb_false_r in H
         end.
  eexists _, _, _. split; [reflexivity|]. split; assumption.
Qed.

Lemma spaces_not_in_plain (ma : bool) (p : option ascii) (pre t : string) :
  ReM.sall plain_char (pre ++ t) = true ->
  Py.contains "  " (pre ++ t) = false ->
  ReM.match_end false false spaces_regex ma p t = None.
Proof.
  intros Hs Hno.
  destruct (ReM.match_end false false spaces_regex ma p t) as [st|] eqn:Hm; [|reflexivity].
  apply match_end_sound in Hm as (w & -> & S & _).
  apply spaces_shape in S as (a & b & w' & -> & Ha & Hb).
  assert (Hpa : plain_char a = true).
  { apply (sall_at plain_char pre (String b w' ++ Re.rest st) a). exact Hs. }
  assert (Hpb : plain_char b = true).
  { apply (sall_at plain_char (pre ++ String a EmptyString) (w' ++ Re.rest st) b).
    rewrite sapp_assoc. exact Hs. }
  destruct (plain_char_facts a Hpa) as [_ Ea], (plain_char_facts b Hpb) as [_ Eb].
  rewrite (Ea Ha), (Eb Hb) in Hno.
  change (pre ++ String " " (String " " w') ++ Re.rest st)%string
    with (pre ++ "  " ++ (w' ++ Re.rest st))%string in Hno.
  rewrite contains_intro in Hno. discriminate Hno.
Qed.

Lemma plain_parts (s : string) :
  plain s = true ->
  starts_with_letter s = true /\ ReM.sall plain_char s = true
  /\ Py.contains "  " s = false /\ Py.endswith " " s = false.
Proof.
  unfold plain. intros H.
  apply andb_true_iff in H as [H H4]. apply andb_true_iff in H as [H H3].
  apply andb_true_iff in H as [H1 H2].
  apply negb_true_iff in H3, H4. auto.
Qed.

Lemma plain_free (s : string) (pattern repl : string) (r : Re.regex) :
  ReM.compile pattern = Some r ->
  ReM.needs (fun x => negb (plain_char x)) r = true ->
  plain s = true ->
  ReM.sub false pattern repl s = s.
Proof.
  intros Hc Hn Hp. destruct (plain_parts s Hp) as (_ & Hs & _).
  exact (sub_needs_same plain_char false pattern repl s r Hc Hn Hs).
Qed.

Lemma plain_no_newline (s : string) :
  plain s = true -> ReM.sall (fun c => negb (Ascii.eqb c Re.newline)) s = true.
Proof.
  intros Hp. destruct (plain_parts s Hp) as (_ & Hs & _).
  apply (sall_impl plain_char); [|exact Hs].
  intros c Hc. destruct (plain_char_facts c Hc) as [-> _]. reflexivity.
Qed.

Lemma plain_strip (s : string) : plain s = true -> Py.strip s = s.
Proof.
  intros Hp. destruct (plain_parts s Hp) as (H1 & Hs & _ & H4).
  apply strip_same.
  - destruct s as [|c s]; [reflexivity|]. cbn [starts_with_letter] in H1.
    cbn [no_lead]. destruct (alpha_facts c H1) as (Hsp & _).
    unfold Re.set_has in Hsp. cbn [existsb Re.citem_has xorb] in Hsp.
    rewrite orb_false_r in Hsp. rewrite Hsp. reflexivity.
  - unfold Py.endswith in H4. rewrite <- (sall_srev plain_char) in Hs.
    destruct (Py.srev s) as [|c t]; [reflexivity|].
    cbn [no_lead]. cbn [ReM.sall] in Hs. apply andb_true_iff in Hs as [Hc _].
    destruct (Py.is_space c) eqn:Hsp; [|reflexivity].
    destruct (plain_char_facts c Hc) as [_ E]. rewrite (E Hsp) in H4.
    vm_compute in H4. discriminate H4.
Qed.

(** X12. A plain sentence, one that starts with a letter, is made of
    letters, digits, single spaces and the marks [. , ! ? ' : ; - ( ) /]
    and does not end with a space, is read out as it is. *)
Theorem plain_sentence_is_unchanged (s : string) :
  plain s = true ->
  strip_markdown s = s /\ format_response_for_output s true = s.
Proof.
  intros Hp. destruct (plain_parts s Hp) as (H1 & Hs & H3 & H4).
  assert (Hmd : strip_markdown s = s).
  { assert (Hne : Py.nonempty s = true)
      by (destruct s; [discriminate H1|reflexivity]).
    assert (Hstart : forall ma,
               ReM.match_end true false bullet_regex ma None s = None
               /\ ReM.match_end true false number_regex ma None s = None).
    { intros ma. destruct s as [|c t]; [discriminate H1|].
      split; [apply bullet_not_at_letter|apply number_not_at_letter]; exact H1. }
    unfold strip_markdown. rewrite Hne. cbn [negb].
    assert (Hfree : forall pattern repl r,
               ReM.compile pattern = Some r ->
               ReM.needs (fun x => negb (plain_char x)) r = true ->
               ReM.sub false pattern repl s = s)
      by (intros; eapply plain_free; eauto).
    rewrite (Hfree "#+\s+" "" _ eq_refl eq_refl).
    rewrite (Hfree ("\*\*|\*|__|\^|~~|" ++ bq) "" _ eq_refl eq_refl).
    rewrite (sub_anchored_same "^\s*[\*\-\+]\s+" "" s _ eq_refl);
      [|intros ma; apply Hstart|apply plain_no_newline; exact Hp].
    rewrite (sub_anchored_same "^\s*\d+\.\s+" "" s _ eq_refl);
      [|intros ma; apply Hstart|apply plain_no_newline; exact Hp].
    rewrite (Hfree (bq ++ bq ++ bq ++ "[\s\S]*?" ++ bq ++ bq ++ bq) "" _ eq_refl eq_refl).
    rewrite (Hfree (bq ++ "([^" ++ bq ++ "]*)" ++ bq) "\1" _ eq_refl eq_refl).
    assert (Hquote : ReM.sub true "^\s*>\s+" "" s = s).
    { destruct (plain_parts s Hp) as (_ & Hs' & _).
      exact (sub_needs_same plain_char true "^\s*>\s+" "" s _ eq_refl eq_refl Hs'). }
    rewrite Hquote.
    rewrite (Hfree "\n\s*[\-\*_]{3,}\s*\n" (nl ++ nl) _ eq_refl eq_refl).
    rewrite (Hfree "\[([^\]]+)\]\([^)]+\)" "\1" _ eq_refl eq_refl).
    rewrite (Hfree "<[^>]*>" "" _ eq_refl eq_refl).
    assert (Hspaces : ReM.sub false "\s{2,}" " " s = s).
    { unfold ReM.sub. change (ReM.compile "\s{2,}") with (Some spaces_regex).
      apply sub_scan_same.
      - intros ma. apply (spaces_not_in_plain ma None EmptyString s); assumption.
      - intros ma pre c' t' E.
        apply (spaces_not_in_plain ma (Some c') (pre ++ String c' EmptyString) t');
          rewrite sapp_assoc;
          change (String c' EmptyString ++ t')%string with (String c' t');
          rewrite <- E; assumption. }
    rewrite Hspaces.
    rewrite (Hfree "\n{3,}" (nl ++ nl) _ eq_refl eq_refl).
    apply plain_strip. exact Hp. }
  split; [exact Hmd|]. unfold format_response_for_output. exact Hmd.
Qed.

Lemma plain_sentence_is_unchanged_witness :
  strip_markdown "I'll schedule your appointment with Dr. Smith on Monday, November 09, 2026 at 15:00. Is that correct?"
  = "I'll schedule your appointment with Dr. Smith on Monday, November 09, 2026 at 15:00. Is that correct?".
Proof.
  assert (Hp : plain "I'll schedule your appointment with Dr. Smith on Monday, November 09, 2026 at 15:00. Is that correct?" = true)
    by (vm_compute; reflexivity).
  exact (proj1 (plain_sentence_is_unchanged _ Hp)).
Defined.

(** *** The summary of a conversation *)

Lemma digit_chr_free (d : Z) : 0 <= d < 10 -> markup_free (Py.digit_chr d) = true.
Proof.
  intros H.
  assert (Hd : d = 0 \/ d = 1 \/ d = 2 \/ d = 3 \/ d = 4 \/ d = 5 \/ d = 6
               \/ d = 7 \/ d = 8 \/ d = 9) by lia.
  repeat (destruct Hd as [->|Hd]; [vm_compute; reflexivity|]). subst d.
  vm_compute. reflexivity.
Qed.

Lemma str_nat_fuel_free (fuel : nat) (n : Z) (acc : string) :
  0 <= n -> ReM.sall markup_free acc = true ->
  ReM.sall markup_free (Py.str_nat_fuel fuel n acc) = true.
Proof.
  revert n acc. induction fuel as [|fuel IH]; intros n acc Hn Hacc; [exact Hacc|].
  cbn [Py.str_nat_fuel].
  assert (Hacc' : ReM.sall markup_free (String (Py.digit_chr (n mod 10)) acc) = true).
  { cbn [ReM.sall]. rewrite digit_chr_free by (apply Z.mod_pos_bound; lia). exact Hacc. }
  destruct (n <? 10); [exact Hacc'|]. apply IH; [|exact Hacc'].
  apply Z.div_pos; lia.
Qed.

Lemma str_int_free (n : Z) : 0 <= n -> ReM.sall markup_free (Py.str_int n) = true.
Proof.
  intros Hn. unfold Py.str_int. destruct (Z.ltb_spec n 0); [lia|].
  apply str_nat_fuel_free; [exact Hn|reflexivity].
Qed.

(** X13. A summary holds no asterisk, caret or backquote.  Without a
    stored exchange it is the fixed sentence, whatever the model would
    answer; when the call of the model raises it is the sentence that
    counts the exchanges. *)
Theorem summary_is_speakable (agent_run : string -> option string) (M : memory)
    (session_id : option string) :
  ReM.sall markup_free (generate_conversation_summary agent_run M session_id) = true
  /\ (history M session_id = [] ->
      generate_conversation_summary agent_run M session_id = no_history)
  /\ (history M session_id <> [] -> (forall prompt, agent_run prompt = None) ->
      generate_conversation_summary agent_run M session_id
      = "This conversation included "
        ++ Py.str_int (Z.of_nat (length (history M session_id)))
        ++ " exchanges about appointments and scheduling.").
Proof.
  unfold generate_conversation_summary, history.
  destruct (session_id ≫= _) as [[|t l]|]; cbn [nonnil negb];
    try (repeat split; first [reflexivity|congruence]).
  match goal with
  | |- context [agent_run ?p] => destruct (agent_run p) as [summary|] eqn:Hrun
  end; repeat split.
  - apply speech_text_has_no_markup_part.
  - discriminate.
  - intros _ Hnone. rewrite Hnone in Hrun. discriminate Hrun.
  - rewrite !sall_app, str_int_free by lia. reflexivity.
  - discriminate.
Qed.

Lemma summary_is_speakable_witness :
  generate_conversation_summary (fun _ => None) five_turns (Some "s1")
  = "This conversation included 5 exchanges about appointments and scheduling."
  /\ generate_conversation_summary (fun _ => Some "**never asked**") five_turns (Some "s2")
     = no_history.
Proof.
  split.
  - destruct (summary_is_speakable (fun _ => None) five_turns (Some "s1"))
      as (_ & _ & H).
    rewrite H; [vm_compute; reflexivity|vm_compute; discriminate|reflexivity].
  - destruct (summary_is_speakable (fun _ => Some "**never asked**") five_turns (Some "s2"))
      as (_ & H & _).
    apply H. vm_compute. reflexivity.
Defined.

(** *** The person of a short reply *)

Lemma punctuation_found (ma : bool) (p : option ascii) (c : ascii) (s' : string) :
  word_or_space c = false ->
  ReM.match_end false false punctuation_regex ma p (String c s') <> None.
Proof.
  unfold word_or_space. intros H. unfold ReM.match_end, punctuation_regex.
  cbn [ReM.rmatch ReM.step Re.rest Re.caps Re.prev].
  unfold Re.set_has. cbn [existsb Re.citem_has]. rewrite orb_false_r, H.
  cbn [xorb Re.rest]. rewrite slength_neq_tail, andb_false_r. discriminate.
Qed.

(** The cleaned text of a reply holds word characters and white space
    only. *)
Lemma cleaned_name_chars (s : string) :
  ReM.sall word_or_space (Py.strip (ReM.sub false "[^\w\s]" "" s)) = true.
Proof.
  apply sall_strip. unfold ReM.sub.
  change (ReM.compile "[^\w\s]") with (Some punctuation_regex).
  apply sub_scan_removes; [apply punctuation_found|reflexivity|lia].
Qed.

Lemma len_nonempty (s : string) : 2 < Py.len s -> Py.nonempty s = true.
Proof. destruct s; [cbv; discriminate|reflexivity]. Qed.

(** X14. For a text of at most three words the patterns for "with" and
    "of" are never tried: the result is nothing, or the whole text,
    cleaned of punctuation and capitalised as one string; the cleaned text
    then has at least three characters, all word characters or white
    space, and is not one of the common words. *)
Theorem short_reply_person_is_whole_text (text : string) :
  Z.of_nat (length (Py.split text)) <= 3 ->
  let name := Py.strip (ReM.sub false "[^\w\s]" "" (Py.strip text)) in
  _extract_person text = None
  \/ (_extract_person text = Some (Py.capitalize name)
      /\ 3 <= Py.len name
      /\ ReM.sall word_or_space name = true
      /\ Py.mem (Py.lower name) person_common_words = false).
Proof.
  intros Hwords name. unfold _extract_person, short_reply_person.
  destruct (Z.leb_spec (Z.of_nat (length (Py.split text))) 3); [|lia].
  fold name.
  destruct (Py.mem (Py.lower name) person_common_words) eqn:Hcommon; [left; reflexivity|].
  destruct (Z.leb_spec (Py.len name) 2); [left; reflexivity|].
  destruct (_ || _); [left; reflexivity|].
  rewrite len_nonempty by lia.
  destruct (Z.ltb_spec 1 (Py.len name)); [|lia]. cbn [andb].
  right. repeat split; [lia|apply cleaned_name_chars].
Qed.

Lemma short_reply_person_is_whole_text_witness :
  _extract_person "with John!" = Some "With john".
Proof.
  assert (Hwords : Z.of_nat (length (Py.split "with John!")) <= 3)
    by (vm_compute; discriminate).
  destruct (short_reply_person_is_whole_text "with John!" Hwords) as [H|[H _]].
  - vm_compute in H. discriminate H.
  - rewrite H. vm_compute. reflexivity.
Defined.

Lemma no_groups_caps (dotall : bool) (r : Re.regex) (c c' : Re.captures) (w : string) :
  Re.sem dotall r c w c' -> no_groups r = true -> c' = c.
Proof.
  induction 1; cbn [no_groups]; intros Hn; try reflexivity; try discriminate Hn.
  - apply andb_true_iff in Hn as [H1 H2]. rewrite IHsem2, IHsem1; auto.
  - apply andb_true_iff in Hn as [H1 _]. auto.
  - apply andb_true_iff in Hn as [_ H2]. auto.
  - rewrite IHsem2, IHsem1; auto.
Qed.

Lemma upper_set (x : ascii) :
  Re.set_has false [Re.CRange "A" "Z"] x = true -> Py.is_upper x = true.
Proof.
  unfold Re.set_has. cbn [existsb Re.citem_has xorb]. rewrite orb_false_r.
  intros H. exact H.
Qed.

Lemma with_shape (w : string) (g : Re.captures) :
  Re.sem false with_regex [] w g ->
  exists n a, Re.group g 1 = Some n /\ capitalised n = true /\ w = (a ++ n)%string.
Proof.
  unfold with_regex.
  intros H; sem_inv;
  repeat match goal with
         | H : Re.sem _ (Re.RStar _ _) _ _ _ |- _ =>
             apply no_groups_caps in H; [subst|reflexivity]
         end;
  match goal with
  | H : Re.set_has false [Re.CRange "A" "Z"] _ = true |- _ => apply upper_set in H
  end;
  eexists _, _; split; [reflexivity|]; split; [cbn [capitalised]; assumption|];
  match goal with
  | |- _ = (_ ++ ?P)%string => generalize P; intros; rewrite <- ?sapp_assoc; reflexivity
  end.
Qed.

Lemma of_shape (w : string) (g : Re.captures) :
  Re.sem false of_regex [] w g ->
  exists n a, Re.group g 1 = Some n /\ capitalised n = true /\ w = (a ++ n)%string.
Proof.
  unfold of_regex.
  intros H; sem_inv;
  repeat match goal with
         | H : Re.sem _ (Re.RStar _ _) _ _ _ |- _ =>
             apply no_groups_caps in H; [subst|reflexivity]
         end;
  match goal with
  | H : Re.set_has false [Re.CRange "A" "Z"] _ = true |- _ => apply upper_set in H
  end;
  eexists _, _; split; [reflexivity|]; split; [cbn [capitalised]; assumption|];
  match goal with
  | |- _ = (_ ++ ?P)%string => generalize P; intros; rewrite <- ?sapp_assoc; reflexivity
  end.
Qed.

Lemma named_after (pattern text : string) (r : Re.regex) (m : Re.captures) :
  Re.compile pattern = Some r ->
  (forall w g, Re.sem false r [] w g ->
     exists n a, Re.group g 1 = Some n /\ capitalised n = true /\ w = (a ++ n)%string) ->
  Re.search pattern text = Some m ->
  exists n, Re.group m 1 = Some n /\ capitalised n = true /\ Py.contains n text = true.
Proof.
  intros Hc Hshape Hs.
  apply search_sound in Hs as (r' & pre & w & post & Hc' & -> & S).
  rewrite Hc in Hc'. injection Hc' as <-.
  apply Hshape in S as (n & a & G & Hcap & ->).
  exists n. repeat split; [exact G|exact Hcap|].
  rewrite sapp_assoc, <- (sapp_assoc pre a). apply contains_intro.
Qed.

(** X15. For a text of more than three words a person is found only
    behind "with" or "of": the result, if any, is part of the text and
    begins with a capital letter, so a name written in small letters is
    not found. *)
Theorem long_text_person_is_capitalised (text n : string) :
  3 < Z.of_nat (length (Py.split text)) ->
  _extract_person text = Some n ->
  capitalised n = true /\ Py.contains n text = true.
Proof.
  intros Hwords. unfold _extract_person, short_reply_person.
  destruct (Z.leb_spec (Z.of_nat (length (Py.split text))) 3); [lia|].
  destruct (Re.search "with\s+([A-Z][a-z]+(?:\s+[A-Z][a-z]+)*)" text) as [m|] eqn:Hw.
  - intros G.
    assert (Hcw : Re.compile "with\s+([A-Z][a-z]+(?:\s+[A-Z][a-z]+)*)" = Some with_regex)
      by (vm_compute; reflexivity).
    destruct (named_after _ _ with_regex m Hcw with_shape Hw) as (n' & G' & Hc & Hin).
    rewrite G in G'. injection G' as <-. auto.
  - destruct (Re.search "of\s+([A-Z][a-z]+(?:\s+[A-Z][a-z]+)*)" text) as [m|] eqn:Ho;
      [|discriminate].
    intros G.
    assert (Hco : Re.compile "of\s+([A-Z][a-z]+(?:\s+[A-Z][a-z]+)*)" = Some of_regex)
      by (vm_compute; reflexivity).
    destruct (named_after _ _ of_regex m Hco of_shape Ho) as (n' & G' & Hc & Hin).
    rewrite G in G'. injection G' as <-. auto.
Qed.

Lemma long_text_person_is_capitalised_witness :
  capitalised "Mary Jones" = true
  /\ Py.contains "Mary Jones" "I will meet with Mary Jones tomorrow" = true
  /\ _extract_person "i will meet with mary jones tomorrow" = None.
Proof.
  assert (Hwords : 3 < Z.of_nat (length (Py.split "I will meet with Mary Jones tomorrow")))
    by (vm_compute; reflexivity).
  assert (Hn : _extract_person "I will meet with Mary Jones tomorrow" = Some "Mary Jones")
    by (vm_compute; reflexivity).
  destruct (long_text_person_is_capitalised _ _ Hwords Hn) as [H1 H2].
  split; [exact H1|]. split; [exact H2|]. vm_compute. reflexivity.
Defined.

(** ** Database layer *)

Lemma db_patterns_compile :
  ReM.compile hm_pattern <> None /\ ReM.compile ymd_pattern <> None.
Proof. split; vm_compute; discriminate. Qed.

Lemma clock_times_complete (h m : Z) :
  0 <= h <= 23 -> 0 <= m <= 59 -> In (h, m) clock_times.
Proof.
  intros Hh Hm. unfold clock_times. apply in_flat_map.
  exists (Z.to_nat h). split; [apply in_seq; lia|].
  apply in_map_iff. exists (Z.to_nat m). split; [f_equal; lia|apply in_seq; lia].
Qed.

Lemma hhmm_parses (h m : Z) :
  0 <= h <= 23 -> 0 <= m <= 59 -> strptime_hm (hhmm h m) = Some (h, m).
Proof.
  intros Hh Hm.
  assert (Hall : forallb (fun t : Z * Z =>
                            match strptime_hm (hhmm t.1 t.2) with
                            | Some (h', m') => (h' =? t.1) && (m' =? t.2)
                            | None => false
                            end) clock_times = true)
    by (vm_compute; reflexivity).
  rewrite forallb_forall in Hall.
  specialize (Hall (h, m) (clock_times_complete h m Hh Hm)). cbn [fst snd] in Hall.
  destruct (strptime_hm (hhmm h m)) as [[h' m']|]; [|discriminate Hall].
  apply andb_true_iff in Hall as [H1 H2].
  apply Z.eqb_eq in H1, H2. subst. reflexivity.
Qed.

Lemma extract_time_accepted (text t : string) :
  EntityExtractor._extract_time text = Some t -> accepted_time (Py.lower text) t.
Proof.
  unfold EntityExtractor._extract_time.
  destruct (Re.search EntityExtractor.hour12_pattern (Py.lower text))
    as [g1|] eqn:H1; cbn [mbind option_bind Re.orelse].
  - destruct (EntityExtractor.time_of_hour12 g1) as [t1|] eqn:Ht; cbn [Re.orelse].
    + intros [= <-]. exact (time_of_hour12_found _ _ _ H1 Ht).
    + destruct (Re.search EntityExtractor.simple_hour_pattern (Py.lower text))
        as [g2|] eqn:H2; cbn [mbind option_bind]; [|discriminate].
      intros Ht2. exact (time_of_simple_found _ _ _ H2 Ht2).
  - destruct (Re.search EntityExtractor.simple_hour_pattern (Py.lower text))
      as [g2|] eqn:H2; cbn [mbind option_bind]; [|discriminate].
    intros Ht2. exact (time_of_simple_found _ _ _ H2 Ht2).
Qed.

(** X16. Every time the time extractor returns is a text the database
    layer accepts, and stands there for the same hour and minute. *)
Theorem extracted_time_is_accepted (text t : string) :
  EntityExtractor._extract_time text = Some t ->
  exists h m,
    0 <= h <= 23 /\ 0 <= m <= 59 /\ t = hhmm h m
    /\ time_obj_of t = Some (h, m)
    /\ to_time_obj (TimeText t) = Some (h, m).
Proof.
  intros H. apply extract_time_accepted in H
    as (hour & p & m & _ & _ & _ & _ & Hh & Hm & ->).
  exists (EntityExtractor.to_24h (Py.int hour) p), m.
  assert (Hp : time_obj_of (hhmm (EntityExtractor.to_24h (Py.int hour) p) m)
               = Some (EntityExtractor.to_24h (Py.int hour) p, m)).
  { unfold time_obj_of. rewrite hhmm_parses by assumption. reflexivity. }
  repeat split; try lia; exact Hp.
Qed.

Lemma extracted_time_is_accepted_witness :
  exists h m,
    0 <= h <= 23 /\ 0 <= m <= 59 /\ "19:30" = hhmm h m
    /\ time_obj_of "19:30" = Some (h, m)
    /\ to_time_obj (TimeText "19:30") = Some (h, m).
Proof.
  apply (extracted_time_is_accepted "See you at 7:30 PM").
  vm_compute. reflexivity.
Defined.

Lemma range_set (lo hi x : ascii) :
  Re.set_has false [Re.CRange lo hi] x = true ->
  Py.code lo <= Py.code x <= Py.code hi.
Proof.
  unfold Re.set_has. cbn [existsb Re.citem_has xorb]. rewrite orb_false_r.
  unfold Py.between. intros H. apply andb_true_iff in H as [H1 H2]. lia.
Qed.

Lemma digit_set (x : ascii) :
  Re.set_has false [Re.CDigit] x = true -> 48 <= Py.code x <= 57.
Proof.
  unfold Re.set_has. cbn [existsb Re.citem_has xorb]. rewrite orb_false_r.
  unfold Py.is_digit, Py.between. intros H. apply andb_true_iff in H as [H1 H2]. lia.
Qed.

Lemma hm_shape (w : string) (g : Re.captures) :
  Re.sem false hm_regex [] w g ->
  0 <= Py.int (Re.group_or_empty g 1) <= 23
  /\ 0 <= Py.int (Re.group_or_empty g 2) <= 59.
Proof.
  unfold hm_regex. intros H. sem_inv.
  all: repeat match goal with
              | H : Re.set_has false [Re.CRange _ _] _ = true |- _ =>
                  apply range_set in H
              | H : Re.set_has false [Re.CDigit] _ = true |- _ =>
                  apply digit_set in H
              end.
  all: cbv [Re.group_or_empty Re.group Nat.eqb String.append Py.int Py.int_acc
            Py.digit_val].
  all: repeat match goal with
              | H : context [Py.code (Ascii ?a ?b ?c ?d ?e ?f ?g ?h)] |- _ =>
                  let v := eval vm_compute in (Py.code (Ascii a b c d e f g h)) in
                  change (Py.code (Ascii a b c d e f g h)) with v in H
              end.
  all: repeat match goal with
              | |- context [Py.code (Ascii ?a ?b ?c ?d ?e ?f ?g ?h)] =>
                  let v := eval vm_compute in (Py.code (Ascii a b c d e f g h)) in
                  change (Py.code (Ascii a b c d e f g h)) with v
              end.
  all: lia.
Qed.

Lemma strptime_hm_range (s : string) (h m : Z) :
  strptime_hm s = Some (h, m) -> 0 <= h <= 23 /\ 0 <= m <= 59.
Proof.
  unfold strptime_hm, ReM.match_all.
  change (ReM.compile hm_pattern) with (Some hm_regex). cbn [mbind option_bind].
  destruct (ReM.match_end false false hm_regex false None s) as [st|] eqn:Hm;
    cbn [mbind option_bind]; [|discriminate].
  destruct (Py.nonempty (Re.rest st)); [discriminate|]. intros [= <- <-].
  apply match_end_sound in Hm as (w & _ & S & _). exact (hm_shape w _ S).
Qed.

(** X17. The database layer turns a text into a time of day only:
    the hour is 0 to 23 and the minute 0 to 59.  A text with a colon is
    taken in the form hour:minute or not at all, so "am" and "pm" count
    only in a text without minutes. *)
Theorem time_text_rules (s : string) :
  (forall h m, time_obj_of s = Some (h, m) -> 0 <= h <= 23 /\ 0 <= m <= 59)
  /\ (Py.contains ":" s = true -> time_obj_of s = strptime_hm s)
  /\ time_obj_of "3:30pm" = None
  /\ time_obj_of "3pm" = Some (15, 0).
Proof.
  split; [|split; [|split; vm_compute; reflexivity]].
  - intros h m. unfold time_obj_of.
    destruct (strptime_hm s) as [[h' m']|] eqn:Hs.
    + intros [= <- <-]. exact (strptime_hm_range s _ _ Hs).
    + destruct (negb (Py.contains ":" s)); [|discriminate].
      destruct (Py.contains "pm" (Py.lower s));
        [|destruct (Py.contains "am" (Py.lower s))];
        try (destruct (int_of_digits s) as [hour|]; cbn [mbind option_bind];
             [|discriminate]);
        apply strptime_hm_range.
  - intros Hc. unfold time_obj_of. rewrite Hc. cbn [negb].
    destruct (strptime_hm s); reflexivity.
Qed.

Lemma time_text_rules_witness :
  time_obj_of "12:45 pm" = strptime_hm "12:45 pm" /\ strptime_hm "12:45 pm" = None.
Proof.
  destruct (time_text_rules "12:45 pm") as (_ & H & _).
  split; [apply H; vm_compute; reflexivity|vm_compute; reflexivity].
Defined.

(** X18. For the hours 1 to 12 the short form of a time, the hour with
    "am" or "pm" behind it, means the same to the database layer as the
    time the extractor makes of it. *)
Theorem short_time_agrees_with_extractor (n : Z) (marker : string) :
  1 <= n <= 12 -> marker = "am" \/ marker = "pm" ->
  exists t,
    EntityExtractor._extract_time (Py.str_int n ++ marker) = Some t
    /\ time_obj_of (Py.str_int n ++ marker) = time_obj_of t
    /\ time_obj_of t = Some (EntityExtractor.to_24h n marker, 0).
Proof.
  intros Hn Hm.
  assert (Hcases : n = 1 \/ n = 2 \/ n = 3 \/ n = 4 \/ n = 5 \/ n = 6 \/ n = 7
                   \/ n = 8 \/ n = 9 \/ n = 10 \/ n = 11 \/ n = 12) by lia.
  destruct Hm as [-> | ->];
    repeat (destruct Hcases as [->|Hcases];
            [eexists; split; [vm_compute; reflexivity|split; vm_compute; reflexivity]|]);
    subst n; eexists; (split; [vm_compute; reflexivity|split; vm_compute; reflexivity]).
Qed.

Lemma short_time_agrees_with_extractor_witness :
  exists t,
    EntityExtractor._extract_time (Py.str_int 12 ++ "am") = Some t
    /\ time_obj_of (Py.str_int 12 ++ "am") = time_obj_of t
    /\ time_obj_of t = Some (EntityExtractor.to_24h 12 "am", 0).
Proof.
  apply short_time_agrees_with_extractor; [lia|left; reflexivity].
Defined.

(** X19. [check_availability] answers [True] only when the connection
    is there, date and time could be read, no statement raised, the slot
    is not booked and either an availability row covers it or it lies on
    a weekday between 9:00 and 16:59; on such a weekday slot it answers
    [True] whatever rows the availability table holds. *)
Theorem availability_answer_rules (D : db_answers) (person : string)
    (date : date_arg) (time : time_arg) :
  (check_availability D person date time = true ->
   (is_connected D = true \/ connect_with_retry D = true)
   /\ exists date_obj time_obj available,
        to_date_obj (dateutil D) date = Some date_obj
        /\ to_time_obj time = Some time_obj
        /\ (exists count, booked_count D person date_obj time_obj = Ret count /\ count <= 0)
        /\ available_count D person (Date.weekday date_obj) time_obj = Ret available
        /\ (0 < available
            \/ (Date.weekday date_obj < 5 /\ 9 <= time_obj.1 < 17)))
  /\ (forall date_obj time_obj count rows available,
        (is_connected D = true \/ connect_with_retry D = true) ->
        to_date_obj (dateutil D) date = Some date_obj ->
        to_time_obj time = Some time_obj ->
        booked_count D person date_obj time_obj = Ret count -> count <= 0 ->
        person_rows D person = Ret rows -> 0 < rows ->
        available_count D person (Date.weekday date_obj) time_obj = Ret available ->
        Date.weekday date_obj < 5 -> 9 <= time_obj.1 < 17 ->
        check_availability D person date time = true).
Proof.
  unfold check_availability. split.
  - destruct (is_connected D), (connect_with_retry D); cbn [negb andb];
      try discriminate;
      (destruct (to_date_obj (dateutil D) date) as [date_obj|]; [|discriminate]);
      (destruct (to_time_obj time) as [time_obj|]; [|discriminate]);
      (destruct (booked_count D person date_obj time_obj) as [count|] eqn:Hb;
       cbn [mbind py_bind]; [|discriminate]);
      (destruct (Z.ltb_spec 0 count); [discriminate|]);
      (destruct (person_rows D person) as [rows|]; cbn [mbind py_bind]; [|discriminate]);
      (destruct (if negb (0 <? rows) then set_default_availability D person else Ret true);
       cbn [mbind py_bind]; [|discriminate]);
      (destruct (available_count D person (Date.weekday date_obj) time_obj)
         as [available|] eqn:Ha; cbn [mbind py_bind]; [|discriminate]);
      intros Hr; (split; [auto|]);
      exists date_obj, time_obj, available;
      (split; [reflexivity|]); (split; [reflexivity|]);
      (split; [exists count; split; [exact Hb|lia]|]);
      (split; [exact Ha|]);
      (destruct (Z.ltb_spec 0 available); [left; lia|]);
      (destruct (Z.ltb_spec (Date.weekday date_obj) 5), (Z.leb_spec 9 time_obj.1),
         (Z.ltb_spec time_obj.1 17); cbn [andb] in Hr; try discriminate Hr);
      right; lia.
  - intros date_obj time_obj count rows available Hc Hd Ht Hb Hcount Hp Hrows Ha Hday Hhour.
    assert (Hconn : negb (is_connected D) && negb (connect_with_retry D) = false)
      by (destruct Hc as [-> | ->]; [reflexivity|apply andb_false_r]).
    rewrite Hconn, Hd, Ht, Hb. cbn [mbind py_bind].
    destruct (Z.ltb_spec 0 count); [lia|]. rewrite Hp. cbn [mbind py_bind].
    destruct (Z.ltb_spec 0 rows); [|lia]. cbn [negb mbind py_bind]. rewrite Ha.
    cbn [mbind py_bind].
    destruct (0 <? available); [reflexivity|].
    destruct (Z.ltb_spec (Date.weekday date_obj) 5); [|lia].
    destruct (Z.leb_spec 9 time_obj.1); [|lia].
    destruct (Z.ltb_spec time_obj.1 17); [|lia]. reflexivity.
Qed.

Lemma availability_answer_rules_witness :
  check_availability quiet_db "Dr. Smith" (DateText "2026-11-04") (TimeText "3pm") = true.
Proof.
  destruct (availability_answer_rules quiet_db "Dr. Smith" (DateText "2026-11-04")
              (TimeText "3pm")) as [_ H].
  apply (H 739924 (15, 0) 0 3 0); try (vm_compute; reflexivity);
    try (left; reflexivity); try (vm_compute; discriminate).
  split; vm_compute; [discriminate|reflexivity].
Defined.

(** ** The two tests for a knowledge question *)

Lemma literal_cons (c d : ascii) (w : string) :
  literal (String c (String d w)) = Re.RSeq (Re.RChar c) (literal (String d w)).
Proof. reflexivity. Qed.

Lemma literal_matches (dotall : bool) (w : string) :
  forall p rest caps (k : Re.mstate -> option Re.captures),
  exists p', Re.rmatch dotall (literal w) (Re.MState p (w ++ rest) caps) k
             = k (Re.MState p' rest caps).
Proof.
  induction w as [|c w IH]; intros p rest caps k.
  - exists p. reflexivity.
  - destruct w as [|d w].
    + exists (Some c). cbn [literal Re.rmatch]. unfold Re.step.
      change (Re.rest (Re.MState p (String c "" ++ rest) caps)) with (String c rest).
      cbv beta iota. rewrite Ascii.eqb_refl. reflexivity.
    + rewrite literal_cons. cbn [Re.rmatch]. unfold Re.step at 1.
      change (Re.rest (Re.MState p (String c (String d w) ++ rest) caps))
        with (String c (String d w ++ rest)).
      cbv beta iota. rewrite Ascii.eqb_refl. cbn [Re.caps]. apply IH.
Qed.

Lemma literal_found (dotall : bool) (w pre post : string) (p : option ascii) :
  Re.search_from dotall (literal w) p (pre ++ w ++ post) <> None.
Proof.
  revert p. induction pre as [|c pre IH]; intros p.
  - change ("" ++ w ++ post)%string with (w ++ post)%string.
    assert (Hm : Re.match_at dotall (literal w) p (w ++ post) <> None).
    { unfold Re.match_at.
      destruct (literal_matches dotall w p post [] (fun st => Some (Re.caps st)))
        as [p' ->]. discriminate. }
    destruct (w ++ post)%string; cbn [Re.search_from];
      destruct (Re.match_at dotall (literal w) p _); congruence.
  - change (String c pre ++ w ++ post)%string with (String c (pre ++ w ++ post)).
    cbn [Re.search_from].
    destruct (Re.match_at dotall (literal w) p _); [discriminate|apply IH].
Qed.

Lemma literal_sem (dotall : bool) (w v : string) (c c' : Re.captures) :
  Re.sem dotall (literal w) c v c' -> v = w.
Proof.
  revert v c c'. induction w as [|x w IH]; intros v c c' H.
  - inversion H. reflexivity.
  - destruct w as [|y w].
    + inversion H. reflexivity.
    + rewrite literal_cons in H.
      remember (literal (String y w)) as r eqn:Er.
      inversion H as [ | | | |a b c0 w1 c1 w2 c2 S1 S2| | | | | | | | ]; subst.
      inversion S1; subst. apply IH in S2. subst. reflexivity.
Qed.

(** A pattern that is read letter by letter finds what the test for a
    part of the text finds. *)
Lemma literal_search (w text : string) :
  Re.compile w = Some (literal w) ->
  Re.found (Re.search w text) = Py.contains w text.
Proof.
  intros Hc. destruct (Py.contains w text) eqn:Hin.
  - apply contains_elim in Hin as (pre & post & ->).
    unfold Re.search. rewrite Hc. cbn [mbind option_bind].
    pose proof (literal_found false w pre post None) as H.
    destruct (Re.search_from false (literal w) None (pre ++ w ++ post));
      [reflexivity|congruence].
  - destruct (Re.search w text) as [m|] eqn:Hs; [|reflexivity].
    apply search_sound in Hs as (r & pre & v & post & Hc' & -> & S).
    rewrite Hc in Hc'. injection Hc' as <-.
    apply literal_sem in S. subst v.
    rewrite contains_intro in Hin. discriminate Hin.
Qed.

Lemma knowledge_patterns_literal :
  Forall (fun w => Re.compile w = Some (literal w)) knowledge_patterns.
Proof. repeat constructor. Qed.

Lemma any_search_literal (ws : list string) (text : string) :
  Forall (fun w => Re.compile w = Some (literal w)) ws ->
  any_search ws text = any_in ws text.
Proof.
  unfold any_search, any_in. induction 1 as [|w ws Hw _ IH]; [reflexivity|].
  cbn [existsb]. rewrite IH, (literal_search w text Hw). reflexivity.
Qed.

Lemma same_words_any_in (a b : list string) (text : string) :
  (forall w, In w a <-> In w b) -> any_in a text = any_in b text.
Proof.
  intros Hab. unfold any_in. apply eq_true_iff_eq. rewrite !existsb_exists.
  split; intros (w & Hin & Hc); exists w; (split; [apply Hab; exact Hin|exact Hc]).
Qed.

Lemma identify_intent_knowledge (text : string) :
  identify_intent text = "knowledge"
  <-> any_search knowledge_patterns (Py.lower text) = true.
Proof.
  unfold identify_intent. destruct (any_search knowledge_patterns _); [tauto|].
  repeat match goal with |- context [if ?b then _ else _] => destruct b end;
    split; discriminate.
Qed.

(** X20. The two tests of [process_message] for a knowledge question
    are one test: the classifier answers knowledge exactly for the texts
    that contain one of the indicator phrases, so the second test, on the
    phrases, never decides anything. *)
Theorem knowledge_tests_coincide (text : string) :
  identify_intent text = "knowledge"
  <-> any_in knowledge_question_indicators (Py.lower text) = true.
Proof.
  rewrite identify_intent_knowledge.
  rewrite (any_search_literal _ _ knowledge_patterns_literal).
  rewrite (same_words_any_in knowledge_patterns knowledge_question_indicators); [tauto|].
  intros w. unfold knowledge_patterns, knowledge_question_indicators. simpl. tauto.
Qed.

(** ** A short reply to the question about the person *)

Lemma lower_upper_char (c : ascii) : Py.lower_char (Py.upper_char c) = Py.lower_char c.
Proof. destruct c as [[] [] [] [] [] [] [] []]; vm_compute; reflexivity. Qed.

Lemma lower_char_idem (c : ascii) : Py.lower_char (Py.lower_char c) = Py.lower_char c.
Proof. destruct c as [[] [] [] [] [] [] [] []]; vm_compute; reflexivity. Qed.

Lemma lower_idem (s : string) : Py.lower (Py.lower s) = Py.lower s.
Proof.
  induction s as [|c s IH]; [reflexivity|].
  cbn [Py.lower Py.smap]. rewrite lower_char_idem. f_equal. exact IH.
Qed.

Lemma lower_capitalize (s : string) : Py.lower (Py.capitalize s) = Py.lower s.
Proof.
  destruct s as [|c s]; [reflexivity|].
  cbn [Py.capitalize Py.lower Py.smap]. rewrite lower_upper_char. f_equal.
  apply lower_idem.
Qed.

Lemma extract_entities_time (E : env) (text : string) (ents : entities) :
  EntityExtractor._extract_time text = None ->
  extract_entities E text = Ret ents -> time ents = None.
Proof.
  intros Ht. unfold extract_entities, enhance_entity_extraction.
  assert (Hbase : time (EntityExtractor.extract_entities E text) = None).
  { unfold EntityExtractor.extract_entities. rewrite Ht. cbn [truthy_opt].
    repeat case_match; reflexivity. }
  destruct (truthy_opt (date (EntityExtractor.extract_entities E text))).
  - cbn [mbind py_bind]. repeat case_match; intros [= <-]; exact Hbase.
  - destruct (parse_relative_date E text) as [[d|]|]; cbn [mbind py_bind];
      [| |discriminate]; repeat case_match; intros [= <-]; exact Hbase.
Qed.

Lemma merge_slot_other (locked : bool) (key k : string) (value : option string)
    (ctx : gmap string pyval) :
  key <> k -> merge_slot locked key value ctx !! k = ctx !! k.
Proof.
  intros Hne. unfold merge_slot.
  repeat case_match; rewrite ?lookup_insert_ne by exact Hne; reflexivity.
Qed.

Lemma merge_ai_other (locked : bool) (ai : gmap string pyval) (missing : list string)
    (ctx : gmap string pyval) (k : string) :
  ~ In k missing -> merge_ai locked ai missing ctx !! k = ctx !! k.
Proof.
  unfold merge_ai. revert ctx.
  induction missing as [|key missing IH]; intros ctx Hk; [reflexivity|].
  cbn [fold_left]. rewrite IH by (intros H; apply Hk; right; exact H).
  unfold merge_ai_slot.
  assert (Hne : key <> k) by (intros ->; apply Hk; left; reflexivity).
  repeat case_match; rewrite ?lookup_insert_ne by exact Hne; reflexivity.
Qed.

Lemma classify_same (text : string) (ctx : gmap string pyval) :
  ctx !! "intent" = Some (VStr "schedule_appointment") ->
  Py.mem (identify_intent text)
         ["cancel_appointment"; "check_availability"; "list_appointments"] = false ->
  classify text ctx = ctx.
Proof.
  intros Hi Hm. unfold classify. rewrite Hi.
  unfold appointment_intents, Py.mem in *. cbn [existsb] in *.
  unfold is_str. rewrite Hm, orb_false_r.
  unfold Py.eqs. rewrite (String.eqb_sym "schedule_appointment").
  destruct (String.eqb (identify_intent text) "schedule_appointment"); reflexivity.
Qed.

Lemma domain_word_as_person (w : string) :
  Py.mem w EntityExtractor.domain_specific_words = false ->
  Py.mem w domain_words_as_person = false.
Proof.
  unfold domain_words_as_person, Py.mem. cbn [existsb]. unfold Py.eqs.
  intros H.
  destruct (String.eqb_spec w "availability") as [->|_]; [vm_compute in H; discriminate H|].
  destruct (String.eqb_spec w "availibility") as [->|_]; [vm_compute in H; discriminate H|].
  destruct (String.eqb_spec w "appointment") as [->|_]; [vm_compute in H; discriminate H|].
  reflexivity.
Qed.

(** X21. While the person is being asked for, a reply of at most three
    words is taken as the name as it stands, capitalised as one string,
    whatever the extractor made of it: unless it is a scheduling word,
    also a reply like "yes" becomes the person of the appointment. *)
Theorem short_reply_is_taken_as_name (E : env) (text : string)
    (ctx ctx' : gmap string pyval) :
  ctx !! "intent" = Some (VStr "schedule_appointment") ->
  ctx !! "phase" = Some (VStr "asking_person") ->
  ctx !! "person" = None ->
  ctx !! "time" = None ->
  Py.mem (identify_intent text)
         ["cancel_appointment"; "check_availability"; "list_appointments"] = false ->
  EntityExtractor._extract_time text = None ->
  Z.of_nat (length (Py.split text)) <= 3 ->
  1 < Py.len (Py.strip text) ->
  Py.mem (Py.lower (Py.strip text)) EntityExtractor.domain_specific_words = false ->
  merged_context E text ctx = Ret ctx' ->
  ctx' !! "person" = Some (VStr (Py.capitalize (Py.strip text))).
Proof.
  intros Hi Hph Hp Ht Hint Htime Hwords Hlen Hdom.
  unfold merged_context, merge_extracted.
  rewrite (classify_same text ctx Hi Hint).
  destruct (extract_entities E text) as [ents|] eqn:He; cbn [mbind py_bind];
    [|discriminate].
  pose proof (extract_entities_time E text ents Htime He) as Hte.
  assert (Hlocked : person_locked (get ctx "person") (get ctx "phase") = false).
  { unfold person_locked, get. rewrite Hp. reflexivity. }
  rewrite Hlocked.
  assert (Hmissing : exists l, missing_for ents ctx = (l ++ ["time"])%list).
  { unfold missing_for, get. rewrite Hi. cbn [is_str]. unfold Py.eqs.
    cbn [String.eqb Ascii.eqb Bool.eqb]. unfold lacks, get. rewrite Hte, Ht.
    cbn [truthy_opt truthy negb andb].
    eexists. rewrite app_assoc. reflexivity. }
  destruct Hmissing as [l Hmiss].
  assert (Hname : interpret_name text ctx ents (missing_for ents ctx)
                  = (Entities (Some (Py.capitalize (Py.strip text))) (date ents) (time ents),
                     filter (fun e => negb (Py.eqs e "person")) (missing_for ents ctx))).
  { unfold interpret_name. rewrite Hmiss.
    assert (Hnn : nonnil (l ++ ["time"])%list = true) by (destruct l; reflexivity).
    rewrite Hnn. unfold has, get. rewrite Hph.
    assert (Hin : in_strs (VStr "asking_person") asking_person_phases = true)
      by reflexivity.
    rewrite Hin. cbn [andb].
    destruct (Z.leb_spec (Z.of_nat (length (Py.split text))) 3); [|lia].
    destruct (Z.ltb_spec 1 (Py.len (Py.strip text))); [|lia].
    assert (Hne : Py.nonempty (Py.strip text) = true).
    { destruct (Py.strip text); [cbv in Hlen; discriminate Hlen|reflexivity]. }
    rewrite Hne, Hdom. reflexivity. }
  rewrite Hname. cbn [mbind py_bind]. intros [= <-].
  set (name := Py.capitalize (Py.strip text)).
  set (missing := filter _ _).
  assert (Hmerged : merge_entities false (Entities (Some name) (date ents) (time ents)) ctx
                    !! "person" = Some (VStr name)).
  { unfold merge_entities. cbn [person date time].
    rewrite !merge_slot_other by discriminate.
    unfold merge_slot.
    assert (Hne : Py.nonempty name = true).
    { unfold name. destruct (Py.strip text); [cbv in Hlen; discriminate Hlen|reflexivity]. }
    rewrite Hne. cbn [negb].
    assert (Hd : Py.mem (Py.lower name) domain_words_as_person = false).
    { unfold name. rewrite lower_capitalize. apply domain_word_as_person. exact Hdom. }
    rewrite Hd, !andb_false_r. apply lookup_insert_eq. }
  destruct (nonnil missing); [|exact Hmerged].
  rewrite merge_ai_other; [exact Hmerged|].
  unfold missing. intros Hin. apply list_elem_of_In, list_elem_of_filter in Hin.
  destruct Hin as [Hin _]. vm_compute in Hin. exact Hin.
Qed.

Lemma short_reply_is_taken_as_name_witness :
  extract_entities wednesday_env "yes" = Ret (Entities None None None)
  /\ (ctx' ← merged_context wednesday_env "yes" asking_person_context;
      Ret (ctx' !! "person")) = Ret (Some (VStr "Yes")).
Proof.
  split; [vm_compute; reflexivity|].
  destruct (merged_context wednesday_env "yes" asking_person_context) as [ctx'|] eqn:Hm;
    [|vm_compute in Hm; discriminate Hm].
  cbn [mbind py_bind]. f_equal.
  apply (short_reply_is_taken_as_name wednesday_env "yes" asking_person_context ctx');
    first [exact Hm | vm_compute; reflexivity | vm_compute; discriminate].
Defined.
